(** * ECOSTRESS download/upload pipeline: metadata extraction and CSV reconciliation

    A shallow embedding of [metadata.py] and [csv_handler.py].

    - Python values (JSON documents returned by the granule search, values
      stored in metadata dictionaries and CSV rows) are the inductive type
      [pyval]; dictionaries are finite maps [gmap string pyval].
    - Python exceptions are explicit: a computation that may raise returns a
      [result], and [try]/[except] is a match on it.
    - Strings are sequences of code points below 256.
    - The standard library's [datetime] (ISO-8601 parsing and conversion to a
      POSIX timestamp) and [repr] of floats and containers are not part of the
      repository; they are section variables. *)

From stdpp Require Import gmap strings list fin_maps pretty.
From Stdlib Require Import ZArith Ascii String.

#[local] Set Warnings "-register-all".
#[local] Open Scope string_scope.
#[local] Open Scope Z_scope.

(** ** Exceptions *)

Inductive exn :=
  | KeyError | TypeError | AttributeError | ValueError | IndexError | OSError.

Inductive result (A : Type) :=
  | Ok (a : A)
  | Raise (e : exn).
Arguments Ok {A} a.
Arguments Raise {A} e.

#[global] Instance result_ret : MRet result := fun A a => Ok a.
#[global] Instance result_bind : MBind result := fun A B f m =>
  match m with
  | Ok a => f a
  | Raise e => Raise e
  end.

#[global] Instance result_fmap : FMap result := fun A B f m =>
  match m with
  | Ok a => Ok (f a)
  | Raise e => Raise e
  end.

Definition is_Ok {A} (r : result A) : Prop := exists a, r = Ok a.

(** [foldM f l a]: a [for] loop over [l] threading the state [a]; the first
    exception leaves the loop. *)
Fixpoint foldM {A B} (f : A -> B -> result A) (l : list B) (a : A) : result A :=
  match l with
  | [] => Ok a
  | b :: l' => a' ← f a b; foldM f l' a'
  end.

(** [mapM f l]: a loop that updates every element of [l] in place. *)
Fixpoint mapM {A B} (f : A -> result B) (l : list A) : result (list B) :=
  match l with
  | [] => Ok []
  | a :: l' => b ← f a; bs ← mapM f l'; Ok (b :: bs)
  end.

(** ** Python values *)

Inductive pyval :=
  | PNone
  | PBool (b : bool)
  | PInt (z : Z)
  | PFloat (bits : Z)          (* an IEEE-754 binary64, as its 64-bit pattern *)
  | PStr (s : string)
  | PList (l : list pyval)
  | PDict (d : gmap string pyval).

(** Truth value of an object, as tested by [if x:] and [not x]. *)
Definition py_truthy (v : pyval) : bool :=
  match v with
  | PNone => false
  | PBool b => b
  | PInt z => negb (z =? 0)
  | PFloat bits => negb (Z.land bits (2 ^ 63 - 1) =? 0)
  | PStr s => negb (String.eqb s "")
  | PList l => match l with [] => false | _ => true end
  | PDict d => negb (bool_decide (d = ∅))
  end.

(** ** Strings *)

Definition ascii_between (lo hi c : ascii) : bool :=
  ((nat_of_ascii lo <=? nat_of_ascii c) && (nat_of_ascii c <=? nat_of_ascii hi))%nat.

Definition is_digit (c : ascii) : bool := ascii_between "0" "9" c.
Definition is_upper_AZ (c : ascii) : bool := ascii_between "A" "Z" c.

(** [str.lower()] on code points below 256: A-Z and the accented capitals
    U+00C0..U+00DE (without the multiplication sign U+00D7) move up by 32. *)
Definition lower_char (c : ascii) : ascii :=
  let n := nat_of_ascii c in
  if is_upper_AZ c || ((192 <=? n) && (n <=? 222) && negb (n =? 215))%nat
  then ascii_of_nat (n + 32) else c.

Fixpoint py_lower (s : string) : string :=
  match s with
  | EmptyString => EmptyString
  | String c s' => String (lower_char c) (py_lower s')
  end.

(** [sub in s] for two strings. *)
Fixpoint str_in (sub s : string) : bool :=
  String.prefix sub s ||
  match s with
  | EmptyString => false
  | String _ s' => str_in sub s'
  end.

(** [s.endswith(suffix)] *)
Definition str_endswith (suffix s : string) : bool :=
  String.prefix (String.rev suffix) (String.rev s).

(** [s.replace(old, new)] for a non-empty [old]: occurrences are replaced from
    left to right without overlap. [skip] counts the characters of a matched
    occurrence that are still to be dropped. *)
Fixpoint str_replace_from (old new s : string) (skip : nat) : string :=
  match s with
  | EmptyString => EmptyString
  | String c s' =>
      match skip with
      | S k => str_replace_from old new s' k
      | O =>
          if String.prefix old s
          then new +:+ str_replace_from old new s' (String.length old - 1)
          else String c (str_replace_from old new s' 0)
      end
  end.

Definition str_replace (old new s : string) : string :=
  str_replace_from old new s 0.

(** [s[:n]] *)
Definition str_take (n : nat) (s : string) : string := String.substring 0 n s.

(** [sep.join(l)] for a list of strings *)
Definition str_join (sep : string) (l : list string) : string := String.concat sep l.

(** [int(s)] for a string of ASCII decimal digits. *)
Definition digit_value (c : ascii) : Z := Z.of_nat (nat_of_ascii c) - 48.

Fixpoint int_of_digits (acc : Z) (s : string) : Z :=
  match s with
  | EmptyString => acc
  | String c s' => int_of_digits (10 * acc + digit_value c) s'
  end.

Definition py_int (s : string) : Z := int_of_digits 0 s.

(** ** Regular expressions

    The fragment of Python's [re] syntax that the patterns of the program use:
    literal characters, [\d], the class [[A-Z]], the greedy quantifiers [{n}],
    [+], [?] and [*] on a single character or class, one capturing group and
    the anchor [$]. Matching is by backtracking, as in [re]: a quantifier first
    takes as many characters as it can, and [re.search] returns the match that
    starts leftmost. *)

Inductive cclass :=
  | CChr (c : ascii)       (* a literal character *)
  | CDigit                 (* \d *)
  | CUpper.                (* [A-Z] *)

Inductive tok :=
  | TRep (cc : cclass) (lo : nat) (hi : option nat)   (* cc{lo,hi}, greedy *)
  | TOpen                                             (* ( *)
  | TClose                                            (* ) *)
  | TEnd.                                             (* $ *)

Definition cclass_matches (cc : cclass) (c : ascii) : bool :=
  match cc with
  | CChr c' => Ascii.eqb c' c
  | CDigit => is_digit c
  | CUpper => is_upper_AZ c
  end.

(** *** Reading a pattern *)

Inductive parse_mode :=
  | MNormal
  | MEscape                  (* after a backslash *)
  | MClass (seen : string)   (* inside [...], with the characters read so far *)
  | MBrace (n : nat).        (* inside {...}, with the number read so far *)

(** Replaces the quantifier of the last token read ([acc] is reversed). *)
Definition requantify (lo : nat) (hi : option nat) (acc : list tok) : option (list tok) :=
  match acc with
  | TRep cc _ _ :: acc' => Some (TRep cc lo hi :: acc')
  | _ => None
  end.

Definition is_special (c : ascii) : bool :=
  str_in (String c EmptyString) ".^*+?{}[]|()$\".

Fixpoint re_parse (pat : string) (mode : parse_mode) (acc : list tok) : option (list tok) :=
  match pat with
  | EmptyString => match mode with MNormal => Some (rev acc) | _ => None end
  | String c pat' =>
      match mode with
      | MEscape =>
          if Ascii.eqb c "d" then re_parse pat' MNormal (TRep CDigit 1 (Some 1%nat) :: acc)
          else None
      | MClass seen =>
          if Ascii.eqb c "]"
          then if String.eqb seen "A-Z"
               then re_parse pat' MNormal (TRep CUpper 1 (Some 1%nat) :: acc)
               else None
          else re_parse pat' (MClass (seen +:+ String c EmptyString)) acc
      | MBrace n =>
          if Ascii.eqb c "}"
          then acc' ← requantify n (Some n) acc; re_parse pat' MNormal acc'
          else if is_digit c
          then re_parse pat' (MBrace (10 * n + (nat_of_ascii c - 48))) acc
          else None
      | MNormal =>
          if Ascii.eqb c "\" then re_parse pat' MEscape acc
          else if Ascii.eqb c "[" then re_parse pat' (MClass "") acc
          else if Ascii.eqb c "{" then re_parse pat' (MBrace 0) acc
          else if Ascii.eqb c "(" then re_parse pat' MNormal (TOpen :: acc)
          else if Ascii.eqb c ")" then re_parse pat' MNormal (TClose :: acc)
          else if Ascii.eqb c "$" then re_parse pat' MNormal (TEnd :: acc)
          else if Ascii.eqb c "+"
          then acc' ← requantify 1 None acc; re_parse pat' MNormal acc'
          else if Ascii.eqb c "?"
          then acc' ← requantify 0 (Some 1%nat) acc; re_parse pat' MNormal acc'
          else if Ascii.eqb c "*"
          then acc' ← requantify 0 None acc; re_parse pat' MNormal acc'
          else if is_special c then None
          else re_parse pat' MNormal (TRep (CChr c) 1 (Some 1%nat) :: acc)
      end
  end.

Definition re_compile (pat : string) : option (list tok) := re_parse pat MNormal [].

(** *** Matching *)

(** The text of group 1: not yet opened, being read, or closed. *)
Inductive capture :=
  | CapNone
  | CapOpen (text : string)
  | CapDone (text : string).

Definition cap_push (c : ascii) (st : capture) : capture :=
  match st with
  | CapOpen text => CapOpen (text +:+ String c EmptyString)
  | _ => st
  end.

Definition cap_close (st : capture) : capture :=
  match st with
  | CapOpen text => CapDone text
  | _ => st
  end.

(** [m.group(1)] *)
Definition group1 (st : capture) : string :=
  match st with
  | CapDone text => text
  | _ => ""
  end.

Definition below (n : nat) (hi : option nat) : bool :=
  match hi with
  | None => true
  | Some h => (n <? h)%nat
  end.

(** [$] matches at the end of the string and before a newline that ends it. *)
Definition at_end (s : string) : bool :=
  String.eqb s "" || String.eqb s (String (ascii_of_nat 10) EmptyString).

(** Matches the tokens [p] at the start of [s]. *)
Fixpoint match_here (p : list tok) (s : string) (st : capture) {struct p} : option capture :=
  match p with
  | [] => Some st
  | TOpen :: p' => match_here p' s (CapOpen "")
  | TClose :: p' => match_here p' s (cap_close st)
  | TEnd :: p' => if at_end s then match_here p' s st else None
  | TRep cc lo hi :: p' =>
      (fix rep (s : string) (n : nat) (st : capture) {struct s} : option capture :=
         let stop := if (lo <=? n)%nat then match_here p' s st else None in
         match s with
         | EmptyString => stop
         | String c s' =>
             if cclass_matches cc c && below n hi
             then match rep s' (S n) (cap_push c st) with
                  | Some r => Some r
                  | None => stop
                  end
             else stop
         end) s 0%nat st
  end.

Fixpoint search_from (p : list tok) (s : string) : option capture :=
  match match_here p s CapNone with
  | Some r => Some r
  | None =>
      match s with
      | EmptyString => None
      | String _ s' => search_from p s'
      end
  end.

(** [re.search(pat, s)]: [None] when nothing matches. *)
Definition re_search (pat s : string) : option capture :=
  p ← re_compile pat; search_from p s.

(** ** metadata.py: the filename parser *)

(** The seven extractions of [_extract_filename_metadata], in the order of the
    source: the pattern, the key that receives group 1 and the conversion
    applied to it. *)
Definition filename_extractions : list (string * string * (string -> pyval)) :=
  [ ("T\d{6}_(\d{4}_\d{2})$", "processing_ID", PStr);
    ("_(\d{2}[A-Z]{3})_", "mgrs_tile", PStr);
    ("_LSTE_(\d+)_", "orbit_number_from_filename", PStr);
    ("ECOv(\d+)_", "version_from_filename", PStr);
    ("ECOv\d+_(L\d[A-Z]?)_", "processing_level", PStr);
    ("_LSTE_\d+_(\d{3})_", "scene", fun g => PInt (py_int g));
    ("_LSTE_(\d+_\d{3})_", "orbit_scene", PStr) ].

(** [m = re.search(pat, granule_ur); if m: metadata[key] = conv(m.group(1))] *)
Definition apply_extraction (granule_ur : string) (metadata : gmap string pyval)
    (e : string * string * (string -> pyval)) : gmap string pyval :=
  let '(pat, key, conv) := e in
  match re_search pat granule_ur with
  | Some m => <[key := conv (group1 m)]> metadata
  | None => metadata
  end.

Definition run_extractions (es : list (string * string * (string -> pyval)))
    (granule_ur : string) (metadata : gmap string pyval) : gmap string pyval :=
  foldl (apply_extraction granule_ur) metadata es.

Definition _extract_filename_metadata (granule_ur : string) : gmap string pyval :=
  run_extractions filename_extractions granule_ur ∅.

(** ** Operations on Python values *)

(** [d.get(key, default)]: only dictionaries have the method. *)
Definition dict_get (d : pyval) (key : string) (dflt : pyval) : result pyval :=
  match d with
  | PDict m => Ok (default dflt (m !! key))
  | _ => Raise AttributeError
  end.

(** [d[key]] for a dictionary [d] *)
Definition getitem (d : gmap string pyval) (key : string) : result pyval :=
  match d !! key with
  | Some v => Ok v
  | None => Raise KeyError
  end.

(** [key in container] for a string [key]: key membership in a dictionary,
    substring test on a string, element test on a list. *)
Definition py_contains_str (key : string) (container : pyval) : result bool :=
  match container with
  | PDict m => Ok (bool_decide (is_Some (m !! key)))
  | PStr s => Ok (str_in key s)
  | PList l =>
      Ok (existsb (fun v => match v with PStr s => String.eqb s key | _ => false end) l)
  | _ => Raise TypeError
  end.

(** [v in s] for a string [s]: the left operand must be a string. *)
Definition py_in_str (v : pyval) (s : string) : result bool :=
  match v with
  | PStr sub => Ok (str_in sub s)
  | _ => Raise TypeError
  end.

(** [container[key]] for a string [key] *)
Definition py_getitem_str (container : pyval) (key : string) : result pyval :=
  match container with
  | PDict m => getitem m key
  | _ => Raise TypeError
  end.

(** [v[i]] for an index [i >= 0] *)
Definition py_index (i : nat) (v : pyval) : result pyval :=
  match v with
  | PList l => match l !! i with Some x => Ok x | None => Raise IndexError end
  | PStr s =>
      match String.get i s with
      | Some c => Ok (PStr (String c EmptyString))
      | None => Raise IndexError
      end
  | PDict _ => Raise KeyError
  | _ => Raise TypeError
  end.

(** [v[:n]] *)
Definition py_slice_to (n : nat) (v : pyval) : result pyval :=
  match v with
  | PList l => Ok (PList (take n l))
  | PStr s => Ok (PStr (str_take n s))
  | _ => Raise TypeError
  end.

(** [len(v)] *)
Definition py_len (v : pyval) : result nat :=
  match v with
  | PList l => Ok (List.length l)
  | PStr s => Ok (String.length s)
  | PDict m => Ok (size m)
  | _ => Raise TypeError
  end.

Fixpoint chars_of (s : string) : list pyval :=
  match s with
  | EmptyString => []
  | String c s' => PStr (String c EmptyString) :: chars_of s'
  end.

(** The elements that [for x in v] visits (the keys of a dictionary, in an
    order that the model leaves to [map_to_list]). *)
Definition py_iter (v : pyval) : result (list pyval) :=
  match v with
  | PList l => Ok l
  | PStr s => Ok (chars_of s)
  | PDict m => Ok (PStr <$> (map_to_list m).*1)
  | _ => Raise TypeError
  end.

(** [isinstance(v, list)] *)
Definition is_list (v : pyval) : bool :=
  match v with PList _ => true | _ => false end.

(** [s.lower()]: only strings have the method. *)
Definition py_str_lower (v : pyval) : result string :=
  match v with
  | PStr s => Ok (py_lower s)
  | _ => Raise AttributeError
  end.

(** [sep.join(l)]: every element must be a string. *)
Definition py_join (sep : string) (l : list pyval) : result string :=
  strs ← mapM (fun v => match v with PStr s => Ok s | _ => Raise TypeError end) l;
  Ok (str_join sep strs).

(** [metadata[dst_key] = src.get(src_key, dflt)] *)
Definition copy_field (src : pyval) (src_key dst_key : string) (dflt : pyval)
    (metadata : gmap string pyval) : result (gmap string pyval) :=
  v ← dict_get src src_key dflt; Ok (<[dst_key := v]> metadata).

(** [metadata.update(other)] *)
Definition dict_update (metadata other : gmap string pyval) : gmap string pyval :=
  other ∪ metadata.

(** ** metadata.py: the coordinate system of an MGRS tile *)

Section Program.

(** [iso_to_millis s] is [int(datetime.fromisoformat(s).timestamp() * 1000)],
    and [None] when the standard library raises. *)
Variable iso_to_millis : string -> option Z.

(** [repr] of a float, a list or a dictionary. *)
Variable py_repr : pyval -> string.

(** [str(v)], as an f-string formats [v]. *)
Definition py_str (v : pyval) : string :=
  match v with
  | PStr s => s
  | PNone => "None"
  | PBool true => "True"
  | PBool false => "False"
  | PInt z => pretty z
  | _ => py_repr v
  end.

Definition get_epsg_from_mgrs (mgrs_tile : pyval) : result pyval :=
  if negb (py_truthy mgrs_tile) then Ok (PStr "") else
  n ← py_len mgrs_tile;
  if (n <? 3)%nat then Ok (PStr "") else
  utm_zone ← py_slice_to 2 mgrs_tile;
  band ← py_index 2 mgrs_tile;
  north ← py_in_str band "NPQRSTUVWX";
  Ok (PStr ((if north : bool then "EPSG326" else "EPSG327") +:+ py_str utm_zone)).

(** ** metadata.py: the granule record extractor *)

(** A granule of the search results: a dictionary with the sections ["meta"]
    and ["umm"], and the size that its [size()] method reports. *)
Record granule := {
  g_fields : gmap string pyval;
  g_size : pyval
}.

Definition extract_filename_metadata_of (granule_ur : pyval) : result (gmap string pyval) :=
  match granule_ur with
  | PStr s => Ok (_extract_filename_metadata s)
  | _ => Raise TypeError        (* re.search expects a string *)
  end.

Definition _convert_to_timestamp (datetime_str : pyval) : pyval :=
  match datetime_str with
  | PStr s =>
      match iso_to_millis (str_replace "Z" "+00:00" s) with
      | Some ms => PInt ms
      | None => PStr ""         (* except Exception: return "" *)
      end
  | _ => PStr ""                (* no [replace] method: caught as well *)
  end.

Definition _extract_spatial_metadata (umm : pyval) : result (gmap string pyval) :=
  se ← dict_get umm "SpatialExtent" (PDict ∅);
  hsd ← dict_get se "HorizontalSpatialDomain" (PDict ∅);
  spatial_extent ← dict_get hsd "Geometry" (PDict ∅);
  has ← py_contains_str "BoundingRectangles" spatial_extent;
  bounding_rect ←
    (if has : bool
     then rects ← dict_get spatial_extent "BoundingRectangles" (PList [PDict ∅]);
          py_index 0 rects
     else Ok (PDict ∅));
  north ← dict_get bounding_rect "NorthBoundingCoordinate" (PStr "");
  south ← dict_get bounding_rect "SouthBoundingCoordinate" (PStr "");
  east ← dict_get bounding_rect "EastBoundingCoordinate" (PStr "");
  west ← dict_get bounding_rect "WestBoundingCoordinate" (PStr "");
  Ok (<["west_lon" := west]> (<["east_lon" := east]>
      (<["south_lat" := south]> (<["north_lat" := north]> ∅)))).

Definition provider_date_step (metadata : gmap string pyval) (pdate : pyval)
    : result (gmap string pyval) :=
  date_type ← dict_get pdate "Type" (PStr "");
  if py_truthy date_type
  then date ← dict_get pdate "Date" (PStr "");
       lowered ← py_str_lower date_type;
       Ok (<["provider_date_" +:+ lowered := date]> metadata)
  else Ok metadata.

Definition _extract_provider_dates (umm : pyval) : result (gmap string pyval) :=
  provider_dates ← dict_get umm "ProviderDates" (PList []);
  pdates ← py_iter provider_dates;
  foldM provider_date_step pdates ∅.

Definition _extract_platform_metadata (umm : pyval) : result (gmap string pyval) :=
  let metadata : gmap string pyval :=
    <["sensor" := PStr ""]> (<["platform_short_name" := PStr ""]> ∅) in
  platforms ← dict_get umm "Platforms" (PList []);
  if py_truthy platforms
  then
    platform ← py_index 0 platforms;
    name ← dict_get platform "ShortName" (PStr "ISS");
    let metadata := <["platform_short_name" := name]> metadata in
    instruments ← dict_get platform "Instruments" (PList []);
    if py_truthy instruments
    then instrument ← py_index 0 instruments;
         sensor ← dict_get instrument "ShortName" (PStr "ECOSTRESS");
         Ok (<["sensor" := sensor]> metadata)
    else Ok metadata
  else Ok metadata.

Definition _extract_orbit_metadata (umm : pyval) : result (gmap string pyval) :=
  let metadata : gmap string pyval :=
    <["end_orbit_number" := PStr ""]> (<["begin_orbit_number" := PStr ""]>
      (<["orbit_number" := PStr ""]> ∅)) in
  (* Check OrbitCalculatedSpatialDomains *)
  has_domains ← py_contains_str "OrbitCalculatedSpatialDomains" umm;
  metadata ←
    (if has_domains : bool
     then
       orbits ← dict_get umm "OrbitCalculatedSpatialDomains" (PList []);
       if py_truthy orbits && is_list orbits
       then
         n ← py_len orbits;
         if (0 <? n)%nat
         then
           first ← py_index 0 orbits;
           has_begin ← py_contains_str "BeginOrbitNumber" first;
           if has_begin : bool
           then
             begin_orbit ← dict_get first "BeginOrbitNumber" (PStr "");
             end_orbit ← dict_get first "EndOrbitNumber" (PStr "");
             Ok (<["orbit_number" := begin_orbit]>
                   (<["end_orbit_number" := end_orbit]>
                      (<["begin_orbit_number" := begin_orbit]> metadata)))
           else Ok metadata
         else Ok metadata
       else Ok metadata
     else Ok metadata);
  (* Check OrbitParameters *)
  has_params ← py_contains_str "OrbitParameters" umm;
  if has_params : bool
  then
    current ← getitem metadata "orbit_number";
    if negb (py_truthy current)
    then
      orbits ← dict_get umm "OrbitParameters" (PList []);
      if py_truthy orbits && is_list orbits
      then
        n ← py_len orbits;
        if (0 <? n)%nat
        then
          first ← py_index 0 orbits;
          has_number ← py_contains_str "OrbitNumber" first;
          if has_number : bool
          then number ← dict_get first "OrbitNumber" (PStr "");
               Ok (<["orbit_number" := number]> metadata)
          else Ok metadata
        else Ok metadata
      else Ok metadata
    else Ok metadata
  else Ok metadata.

Definition parameter_name_step (names : list pyval) (param : pyval) : result (list pyval) :=
  has ← py_contains_str "ParameterName" param;
  if has : bool
  then name ← py_getitem_str param "ParameterName"; Ok (names ++ [name])%list
  else Ok names.

Definition _extract_parameter_names (umm : pyval) : result pyval :=
  measured_params ← dict_get umm "MeasuredParameters" (PList []);
  if py_truthy measured_params
  then params ← py_iter measured_params;
       param_names ← foldM parameter_name_step params [];
       joined ← py_join ", " param_names;
       Ok (PStr joined)
  else Ok (PStr "").

Definition additional_attribute_step (metadata : gmap string pyval) (attr : pyval)
    : result (gmap string pyval) :=
  attr_name ← dict_get attr "Name" (PStr "");
  if py_truthy attr_name
  then
    has ← py_contains_str "Values" attr;
    if has : bool
    then
      values ← py_getitem_str attr "Values";
      if py_truthy values
      then
        lowered ← py_str_lower attr_name;
        let safe_name := str_replace "-" "_" lowered in
        elements ← py_iter values;
        joined ← py_join ", " elements;
        Ok (<["attr_" +:+ safe_name := PStr joined]> metadata)
      else Ok metadata
    else Ok metadata
  else Ok metadata.

Definition _extract_additional_attributes (umm : pyval) : result (gmap string pyval) :=
  add_attrs ← dict_get umm "AdditionalAttributes" (PList []);
  attrs ← py_iter add_attrs;
  foldM additional_attribute_step attrs ∅.

Definition extract_granule_metadata (g : granule) : result (gmap string pyval) :=
  let metadata : gmap string pyval := ∅ in
  let meta := default (PDict ∅) (g_fields g !! "meta") in
  let umm := default (PDict ∅) (g_fields g !! "umm") in
  (* basic identifiers *)
  metadata ← copy_field meta "concept-type" "concept_type" (PStr "") metadata;
  metadata ← copy_field meta "concept-id" "concept_id" (PStr "") metadata;
  metadata ← copy_field meta "revision-id" "revision_id" (PStr "") metadata;
  metadata ← copy_field meta "native-id" "native_id" (PStr "") metadata;
  metadata ← copy_field meta "collection-concept-id" "collection_concept_id" (PStr "") metadata;
  metadata ← copy_field meta "provider-id" "provider_id" (PStr "") metadata;
  metadata ← copy_field meta "format" "format" (PStr "") metadata;
  metadata ← copy_field meta "revision-date" "revision_date" (PStr "") metadata;
  granule_ur ← dict_get umm "GranuleUR" (PStr "");
  let metadata := <["granule_ur" := granule_ur]> metadata in
  (* filename-derived fields *)
  let metadata := <["processing_ID" := PStr ""]> metadata in
  let metadata := <["mgrs_tile" := PStr ""]> metadata in
  let metadata := <["orbit_number_from_filename" := PStr ""]> metadata in
  let metadata := <["version_from_filename" := PStr ""]> metadata in
  let metadata := <["processing_level" := PStr ""]> metadata in
  metadata ←
    (if py_truthy granule_ur
     then from_name ← extract_filename_metadata_of granule_ur;
          Ok (dict_update metadata from_name)
     else Ok metadata);
  (* collection reference *)
  collection_ref ← dict_get umm "CollectionReference" (PDict ∅);
  metadata ← copy_field collection_ref "ShortName" "short_name" (PStr "") metadata;
  metadata ← copy_field collection_ref "Version" "version" (PStr "") metadata;
  (* PGE version *)
  pge_version ← dict_get umm "PGEVersionClass" (PDict ∅);
  metadata ← copy_field pge_version "PGEVersion" "pge_version" (PStr "") metadata;
  (* temporal information *)
  temporal ← dict_get umm "TemporalExtent" (PDict ∅);
  temporal_extent ← dict_get temporal "RangeDateTime" (PDict ∅);
  beginning_datetime ← dict_get temporal_extent "BeginningDateTime" (PStr "");
  let metadata := <["beginning_date_time" := beginning_datetime]> metadata in
  metadata ← copy_field temporal_extent "EndingDateTime" "ending_date_time" (PStr "") metadata;
  let metadata :=
    if py_truthy beginning_datetime
    then <["time_start" := _convert_to_timestamp beginning_datetime]> metadata
    else metadata in
  (* spatial information *)
  spatial ← _extract_spatial_metadata umm;
  let metadata := dict_update metadata spatial in
  (* provider dates *)
  dates ← _extract_provider_dates umm;
  let metadata := dict_update metadata dates in
  (* data quality information *)
  data_granule ← dict_get umm "DataGranule" (PDict ∅);
  metadata ← copy_field data_granule "DayNightFlag" "day_night_flag" (PStr "") metadata;
  metadata ← copy_field data_granule "ProductionDateTime" "production_date_time" (PStr "") metadata;
  (* platform and instrument *)
  platform ← _extract_platform_metadata umm;
  let metadata := dict_update metadata platform in
  (* size *)
  let metadata := <["size_mb" := g_size g]> metadata in
  (* orbit *)
  orbit ← _extract_orbit_metadata umm;
  let metadata := dict_update metadata orbit in
  (* measured parameters *)
  parameter_names ← _extract_parameter_names umm;
  let metadata := <["parameter_names" := parameter_names]> metadata in
  (* additional attributes *)
  attributes ← _extract_additional_attributes umm;
  Ok (dict_update metadata attributes).

(** ** csv_handler.py: the metadata table reconciler *)

(** The file system, as far as the reconciler sees it. A table file is given by
    the rows that [csv.DictReader] returns for it, every field a string; a
    directory by its listing. The order of the columns is not modelled. *)
Inductive node :=
  | File (rows : list (gmap string string))
  | Dir (entries : list string).

(** Failures of the operating system that a run may meet. *)
Inductive write_fault :=
  | NoWriteFault
  | OpenFails                    (* [open(path, 'w')] raises; the file is untouched *)
  | WriteFailsAfter (n : nat).   (* the writer raises after [n] rows were written *)

Record faults := {
  read_fails : bool;             (* opening or parsing the table raises *)
  write_fails : write_fault
}.

Definition no_faults : faults := {| read_fails := false; write_fails := NoWriteFault |}.

(** A download record: [(filename, folder_path, file_type, granule_metadata)]. *)
Record download_record := {
  filename : string;
  folder_path : string;
  file_type : string;
  granule_metadata : gmap string pyval
}.

Definition field_list : list string :=
  [ "system:time_start"; "system:time_end"; "EPSG"; "band_type";
    "attr_identifier_product_doi"; "attr_identifier_product_doi_authority";
    "begin_orbit_number"; "beginning_date_time"; "collection_concept_id";
    "concept_id"; "concept_type"; "day_night_flag"; "east_lon";
    "end_orbit_number"; "ending_date_time"; "format"; "granule_ur";
    "mgrs_tile"; "native_id"; "north_lat"; "orbit_number";
    "orbit_number_from_filename"; "parameter_names"; "pge_version";
    "platform_short_name"; "processing_ID"; "processing_level";
    "production_date_time"; "provider_date_insert"; "provider_date_update";
    "provider_id"; "revision_date"; "revision_id"; "sensor"; "short_name";
    "size_mb"; "south_lat"; "time_start"; "version"; "version_from_filename";
    "west_lon"; "scene"; "orbit_scene" ].

Definition initialize_row (row : gmap string pyval) : gmap string pyval :=
  foldl (fun row field => <[field := PStr ""]> row) row field_list.

Definition _initialize_metadata_fields (rows : list (gmap string pyval))
    : list (gmap string pyval) :=
  initialize_row <$> rows.

(** [key in d and d[key]] *)
Definition truthy_at (d : gmap string pyval) (key : string) : bool :=
  match d !! key with
  | Some v => py_truthy v
  | None => false
  end.

(** [datetime.fromisoformat(v.replace('Z', '+00:00'))] converted to
    milliseconds; [None] when any step raises. *)
Definition parse_millis (v : pyval) : option Z :=
  match v with
  | PStr s => iso_to_millis (str_replace "Z" "+00:00" s)
  | _ => None
  end.

(** Lines 112-130 of [_update_row_with_metadata]: the system time columns. An
    exception inside the [try] keeps the assignments made before it. *)
Definition set_system_time (row granule_metadata : gmap string pyval)
    : result (gmap string pyval) :=
  if truthy_at granule_metadata "time_start"
  then
    time_start ← getitem granule_metadata "time_start";
    let row := <["system:time_start" := time_start]> row in
    Ok (<["system:time_end" := default (PStr "") (granule_metadata !! "time_start")]> row)
  else if truthy_at granule_metadata "beginning_date_time"
  then
    beginning ← getitem granule_metadata "beginning_date_time";
    match parse_millis beginning with
    | None => Ok row
    | Some begin_ms =>
        let row := <["system:time_start" := PInt begin_ms]> row in
        if truthy_at granule_metadata "ending_date_time"
        then
          ending ← getitem granule_metadata "ending_date_time";
          match parse_millis ending with
          | None => Ok row
          | Some end_ms => Ok (<["system:time_end" := PInt end_ms]> row)
          end
        else
          time_start ← getitem row "system:time_start";
          Ok (<["system:time_end" := time_start]> row)
    end
  else Ok row.

(** [value is None] *)
Definition is_none (v : pyval) : bool :=
  match v with PNone => true | _ => false end.

(** [if value is not None and key in row: row[key] = value] *)
Definition transfer_field (key : string) (value : pyval) (row : gmap string pyval)
    : gmap string pyval :=
  if negb (is_none value) && bool_decide (is_Some (row !! key))
  then <[key := value]> row
  else row.

(** [for key, value in granule_metadata.items(): ...] *)
Definition transfer_all (granule_metadata row : gmap string pyval) : gmap string pyval :=
  map_fold transfer_field row granule_metadata.

Definition _update_row_with_metadata (row granule_metadata : gmap string pyval)
    (file_type : string) : result (gmap string pyval) :=
  (* system time fields *)
  row ← set_system_time row granule_metadata;
  (* band type *)
  let row := <["band_type" := PStr file_type]> row in
  (* EPSG from the MGRS tile *)
  row ←
    (if truthy_at granule_metadata "mgrs_tile"
     then mgrs_tile ← getitem granule_metadata "mgrs_tile";
          epsg ← get_epsg_from_mgrs mgrs_tile;
          if py_truthy epsg then Ok (<["EPSG" := epsg]> row) else Ok row
     else Ok row);
  (* all metadata *)
  Ok (transfer_all granule_metadata row).

(** [if row['id_no'] in filename: _update_row_with_metadata(...)] *)
Definition update_if_matching (r : download_record) (row : gmap string pyval)
    : result (gmap string pyval) :=
  id_no ← getitem row "id_no";
  matching ← py_in_str id_no (filename r);
  if matching : bool
  then _update_row_with_metadata row (granule_metadata r) (file_type r)
  else Ok row.

Definition _populate_from_downloaded_files (rows : list (gmap string pyval))
    (downloaded_files : list download_record) : result (list (gmap string pyval)) :=
  foldM (fun rows r => mapM (update_if_matching r) rows) downloaded_files rows.

(** [os.path.exists(path)] *)
Definition os_path_exists (fs : gmap string node) (path : string) : bool :=
  bool_decide (is_Some (fs !! path)).

(** [os.listdir(path)] *)
Definition os_listdir (fs : gmap string node) (path : string) : result (list string) :=
  match fs !! path with
  | Some (Dir entries) => Ok entries
  | _ => Raise OSError
  end.

(** The body of the innermost loop of [_populate_from_folders]. *)
Definition update_from_folder (folder_type name : string) (row : gmap string pyval)
    : result (gmap string pyval) :=
  id_no ← getitem row "id_no";
  matching ← py_in_str id_no name;
  if matching : bool
  then
    let row := <["band_type" := PStr (str_replace ".tif" "" folder_type)]> row in
    match re_search "_(\d{2}[A-Z]{3})_" name with
    | Some mgrs_match =>
        let mgrs_tile := group1 mgrs_match in
        let row := <["mgrs_tile" := PStr mgrs_tile]> row in
        epsg ← get_epsg_from_mgrs (PStr mgrs_tile);
        if py_truthy epsg then Ok (<["EPSG" := epsg]> row) else Ok row
    | None => Ok row
    end
  else Ok row.

Definition _populate_from_folders (fs : gmap string node)
    (rows : list (gmap string pyval)) (download_folders : list (string * string))
    : result (list (gmap string pyval)) :=
  foldM (fun rows '(folder_type, folder_path) =>
           if os_path_exists fs folder_path
           then
             names ← os_listdir fs folder_path;
             foldM (fun rows name =>
                      if str_endswith ".tif" name
                      then mapM (update_from_folder folder_type name) rows
                      else Ok rows) names rows
           else Ok rows) download_folders rows.

(** A row as [csv.DictReader] yields it: every value is a string. *)
Definition load_row (line : gmap string string) : gmap string pyval := PStr <$> line.

(** Lines 32-34: [rows = list(csv.DictReader(file))] *)
Definition read_rows (fs : gmap string node) (fl : faults) (path : string)
    : result (list (gmap string pyval)) :=
  match fs !! path with
  | Some (File rows) =>
      if read_fails fl then Raise OSError else Ok (load_row <$> rows)
  | _ => Raise OSError
  end.

(** The text that the csv writer puts in a cell. *)
Definition csv_str (v : pyval) : string :=
  match v with
  | PNone => ""
  | _ => py_str v
  end.

(** The line that [DictWriter.writerow] produces, read back under the header:
    a row with a key outside [fieldnames] is refused, a missing key is written
    as the empty string. *)
Definition dict_to_line (fieldnames : gset string) (row : gmap string pyval)
    : result (gmap string string) :=
  if bool_decide (dom row ⊆ fieldnames)
  then Ok (set_to_map (fun k => (k, csv_str (default (PStr "") (row !! k)))) fieldnames)
  else Raise ValueError.

(** [writer.writerows(rows)], rows being written one after the other; returns
    the lines that reached the file and whether the writer raised. *)
Fixpoint write_lines (fieldnames : gset string) (rows : list (gmap string pyval))
    (budget : option nat) : list (gmap string string) * result unit :=
  match rows with
  | [] => ([], match budget with None => Ok () | Some _ => Raise OSError end)
  | row :: rows' =>
      match budget with
      | Some O => ([], Raise OSError)
      | _ =>
          match dict_to_line fieldnames row with
          | Raise e => ([], Raise e)
          | Ok line =>
              let '(lines, r) := write_lines fieldnames rows' (pred <$> budget) in
              (line :: lines, r)
          end
      end
  end.

(** Lines 46-50: the table is written back under the keys of the first row. *)
Definition write_rows (fs : gmap string node) (fl : faults) (path : string)
    (rows : list (gmap string pyval)) : gmap string node * result unit :=
  match write_fails fl with
  | OpenFails => (fs, Raise OSError)
  | wf =>
      match rows with
      | [] => (<[path := File []]> fs, Raise IndexError)     (* rows[0] *)
      | first :: _ =>
          let budget := match wf with WriteFailsAfter n => Some n | _ => None end in
          let '(lines, r) := write_lines (dom first) rows budget in
          (<[path := File lines]> fs, r)
      end
  end.

(** Lines 40-43: the download records when there are any, the folders
    otherwise. *)
Definition populate (fs : gmap string node) (rows : list (gmap string pyval))
    (download_folders : list (string * string))
    (downloaded_files : option (list download_record))
    : result (list (gmap string pyval)) :=
  match downloaded_files with
  | Some (r :: rs) => _populate_from_downloaded_files rows (r :: rs)
  | _ => _populate_from_folders fs rows download_folders
  end.

(** The [try] block of [enhance_metadata_csv]. *)
Definition enhance_body (fs : gmap string node) (fl : faults) (metadata_path : string)
    (download_folders : list (string * string))
    (downloaded_files : option (list download_record))
    : gmap string node * result unit :=
  match read_rows fs fl metadata_path with
  | Raise e => (fs, Raise e)
  | Ok rows =>
      let rows := _initialize_metadata_fields rows in
      match populate fs rows download_folders downloaded_files with
      | Raise e => (fs, Raise e)
      | Ok rows => write_rows fs fl metadata_path rows
      end
  end.

(** Returns the file system after the call and the value returned. *)
Definition enhance_metadata_csv (fs : gmap string node) (fl : faults) (metadata_path : string)
    (download_folders : list (string * string))
    (downloaded_files : option (list download_record))
    : gmap string node * result bool :=
  if negb (os_path_exists fs metadata_path)
  then (fs, Ok false)
  else
    match enhance_body fs fl metadata_path download_folders downloaded_files with
    | (fs', Ok _) => (fs', Ok true)
    | (fs', Raise _) => (fs', Ok false)       (* except Exception *)
    end.

End Program.

(** ** Reference instances of the standard-library functions

    Used to run the model on concrete inputs. [iso_to_millis_ref] reads the
    format [YYYY-MM-DDTHH:MM:SS+HH:MM] (with [+] or [-] before the offset) and
    refuses every other string; [py_repr_ref] is a placeholder text. *)

Definition digits_value (s : string) : option Z :=
  if forallb is_digit (list_ascii_of_string s) && negb (String.eqb s "")
  then Some (py_int s) else None.

(** Days between 1970-01-01 and the given date of the proleptic Gregorian
    calendar. *)
Definition days_from_civil (y m d : Z) : Z :=
  let y' := if m <=? 2 then y - 1 else y in
  let era := y' / 400 in
  let yoe := y' - era * 400 in
  let mp := (m + 9) mod 12 in
  let doy := (153 * mp + 2) / 5 + d - 1 in
  let doe := yoe * 365 + yoe / 4 - yoe / 100 + doy in
  era * 146097 + doe - 719468.

Definition iso_to_millis_ref (s : string) : option Z :=
  if negb (String.length s =? 25)%nat then None else
  let part i n := digits_value (String.substring i n s) in
  let sep i := String.substring i 1 s in
  y ← part 0%nat 4%nat; mo ← part 5%nat 2%nat; d ← part 8%nat 2%nat;
  h ← part 11%nat 2%nat; mi ← part 14%nat 2%nat; sec ← part 17%nat 2%nat;
  oh ← part 20%nat 2%nat; om ← part 23%nat 2%nat;
  sign ← (if String.eqb (sep 19%nat) "+" then Some 1
          else if String.eqb (sep 19%nat) "-" then Some (-1) else None);
  if String.eqb (sep 4%nat) "-" && String.eqb (sep 7%nat) "-" && String.eqb (sep 10%nat) "T"
     && String.eqb (sep 13%nat) ":" && String.eqb (sep 16%nat) ":" && String.eqb (sep 22%nat) ":"
     && (1 <=? mo) && (mo <=? 12) && (1 <=? d) && (d <=? 31)
     && (h <=? 23) && (mi <=? 59) && (sec <=? 59) && (oh <=? 23) && (om <=? 59)
  then Some ((days_from_civil y mo d * 86400 + h * 3600 + mi * 60 + sec
              - sign * (oh * 3600 + om * 60)) * 1000)
  else None.

Definition py_repr_ref (v : pyval) : string := "<object>".

Definition ur_example : string :=
  "ECOv002_L2T_LSTE_00048_003_18TUN_20250101T120000_0712_01".

(** The characters that select the northern hemisphere. *)
Definition northern_bands : list ascii := list_ascii_of_string "NPQRSTUVWX".

(** The contract of the tile codec in the words of the specification: empty
    for a string shorter than three characters; otherwise the northern prefix
    when the third character is one of [NPQRSTUVWX] and the southern prefix
    when it is not, followed by the first two characters. *)
Definition epsg_contract (s : string) : string :=
  if (String.length s <? 3)%nat then ""
  else
    let northern :=
      match String.get 2 s with
      | Some c => bool_decide (c ∈ northern_bands)
      | None => false
      end in
    (if northern then "EPSG326" else "EPSG327") +:+ str_take 2 s.

(** The value that an extraction stores, if its pattern matches. *)
Definition extraction_result (granule_ur : string) (e : string * string * (string -> pyval))
    : option (string * pyval) :=
  let '(pat, key, conv) := e in
  m ← re_search pat granule_ur; Some (key, conv (group1 m)).

Definition extraction_key (e : string * string * (string -> pyval)) : string := snd (fst e).

(** The value that the generic merge leaves in a column that exists: the
    record's value for the key unless the record has none or has null. *)
Definition merged (granule_metadata : gmap string pyval) (key : string) (old : pyval) : pyval :=
  match granule_metadata !! key with
  | Some v => if is_none v then old else v
  | None => old
  end.

(** The record has no value for the key, or null. *)
Definition silent_on (key : string) (granule_metadata : gmap string pyval) : Prop :=
  granule_metadata !! key = None \/ granule_metadata !! key = Some PNone.

(** ** Example inputs *)

(** The result of a computation that returned, and the empty mapping for one
    that raised. *)
Definition returned (r : result (gmap string pyval)) : gmap string pyval :=
  match r with
  | Ok m => m
  | Raise _ => ∅
  end.

Definition has_returned {A} (r : result A) : bool :=
  match r with
  | Ok _ => true
  | Raise _ => false
  end.

(** The values of one column of a stored table, row by row. *)
Definition stored_column (fs : gmap string node) (path key : string)
    : option (list (option string)) :=
  match fs !! path with
  | Some (File lines) => Some ((fun line : gmap string string => line !! key) <$> lines)
  | _ => None
  end.

Definition table_path : string := "/data/metadata_ecostress.csv".

(** A table with the single row [id_no=ABC] and one further column. *)
Definition line_abc : gmap string string :=
  {[ "id_no" := "ABC"; "system:index" := "img1" ]}.

Definition fs_one_row : gmap string node := {[ table_path := File [line_abc] ]}.

Definition record_lst : download_record :=
  {| filename := "x_ABC_LST.tif"; folder_path := "/data/LST"; file_type := "QC";
     granule_metadata := {[ "band_type" := PStr "LST" ]} |}.

(** A table with two rows and a record that matches the first. *)
Definition fs_two_rows : gmap string node :=
  {[ table_path := File [ {[ "id_no" := "ABC" ]}; {[ "id_no" := "DEF" ]} ] ]}.

Definition record_timed : download_record :=
  {| filename := "ECO_ABC_18TUN_LST.tif"; folder_path := "/data/LST"; file_type := "LST";
     granule_metadata :=
       {[ "time_start" := PInt 1735732800000; "mgrs_tile" := PStr "18TUN" ]} |}.

(** A record whose metadata has a value under the key [id_no]. *)
Definition record_with_id : download_record :=
  {| filename := "x_ABC_LST.tif"; folder_path := "/data/LST"; file_type := "LST";
     granule_metadata := {[ "id_no" := PStr "XYZ" ]} |}.

(** A record whose metadata has a value under [system:time_start]. *)
Definition metadata_with_system_time : gmap string pyval :=
  {[ "time_start" := PInt 1000; "system:time_start" := PInt 7 ]}.

(** Orbit sections with a begin orbit number of zero. *)
Definition umm_orbit_zero : gmap string pyval :=
  {[ "OrbitCalculatedSpatialDomains" := PList [PDict {[ "BeginOrbitNumber" := PInt 0 ]}];
     "OrbitParameters" := PList [PDict {[ "OrbitNumber" := PInt 7 ]}] ]}.

Definition first_orbit_48 : gmap string pyval := {[ "BeginOrbitNumber" := PInt 48 ]}.
Definition first_params_7 : gmap string pyval := {[ "OrbitNumber" := PInt 7 ]}.

Definition umm_orbit_48 : gmap string pyval :=
  {[ "OrbitCalculatedSpatialDomains" := PList [PDict first_orbit_48];
     "OrbitParameters" := PList [PDict first_params_7] ]}.

(** A granule whose UR matches none of the filename patterns. *)
Definition umm_plain : gmap string pyval := {[ "GranuleUR" := PStr "X" ]}.

Definition granule_plain : granule :=
  {| g_fields := {[ "umm" := PDict umm_plain ]}; g_size := PInt 0 |}.

(** A granule whose beginning date is not a date. *)
Definition range_bad : gmap string pyval := {[ "BeginningDateTime" := PStr "not-a-date" ]}.
Definition temporal_bad : gmap string pyval := {[ "RangeDateTime" := PDict range_bad ]}.
Definition umm_bad_date : gmap string pyval :=
  {[ "GranuleUR" := PStr ur_example; "TemporalExtent" := PDict temporal_bad ]}.

Definition granule_bad_date : granule :=
  {| g_fields := {[ "umm" := PDict umm_bad_date ]}; g_size := PInt 0 |}.

(** ** The fields of the extractor's output *)

(** The fields that the extractor sets for every granule. *)
Definition always_fields : list string :=
  [ "concept_type"; "concept_id"; "revision_id"; "native_id";
    "collection_concept_id"; "provider_id"; "format"; "revision_date";
    "granule_ur"; "processing_ID"; "mgrs_tile"; "orbit_number_from_filename";
    "version_from_filename"; "processing_level"; "short_name"; "version";
    "pge_version"; "beginning_date_time"; "ending_date_time";
    "north_lat"; "south_lat"; "east_lon"; "west_lon";
    "day_night_flag"; "production_date_time"; "platform_short_name"; "sensor";
    "size_mb"; "orbit_number"; "begin_orbit_number"; "end_orbit_number";
    "parameter_names" ].

(** The fields that the extractor sets for some granules only. *)
Definition optional_fields : list string := [ "time_start"; "scene"; "orbit_scene" ].

(** The dictionary at SpatialExtent / HorizontalSpatialDomain / Geometry in the
    record, the empty dictionary standing for a missing level; [None] when a
    level holds something that is not a dictionary. *)
Definition geometry_of (umm : gmap string pyval) : option (gmap string pyval) :=
  match umm !! "SpatialExtent" with
  | None => Some ∅
  | Some (PDict extent) =>
      match extent !! "HorizontalSpatialDomain" with
      | None => Some ∅
      | Some (PDict domain) =>
          match domain !! "Geometry" with
          | None => Some ∅
          | Some (PDict geometry) => Some geometry
          | Some _ => None
          end
      | Some _ => None
      end
  | Some _ => None
  end.

(** The columns of [row'] are those of [row], possibly with vocabulary columns
    added. *)
Definition extends_by_vocabulary (row row' : gmap string pyval) : Prop :=
  forall k, (is_Some (row !! k) -> is_Some (row' !! k))
            /\ (is_Some (row' !! k) -> is_Some (row !! k) \/ k ∈ field_list).

(** The key under which the provider dates part stores an entry, if it
    stores it. *)
Definition provider_date_key (pdate : gmap string pyval) : option string :=
  match default (PStr "") (pdate !! "Type") with
  | PStr t => if String.eqb t "" then None else Some ("provider_date_" +:+ py_lower t)
  | _ => None
  end.

(** The elements of a list of strings. *)
Fixpoint strings_of (l : list pyval) : option (list string) :=
  match l with
  | [] => Some []
  | PStr s :: l' => strs ← strings_of l'; Some (s :: strs)
  | _ => None
  end.

Definition attribute_name (attr : gmap string pyval) : option string :=
  match attr !! "Name" with
  | Some (PStr name) => Some name
  | _ => None
  end.

Definition attribute_values (attr : gmap string pyval) : option (list string) :=
  match attr !! "Values" with
  | Some (PList l) => strings_of l
  | _ => None
  end.

(** The key under which the attributes part stores an entry, if it stores
    it. *)
Definition attribute_key (attr : gmap string pyval) : option string :=
  name ← attribute_name attr;
  values ← attribute_values attr;
  if negb (String.eqb name "") && negb (bool_decide (values = []))
  then Some ("attr_" +:+ str_replace "-" "_" (py_lower name))
  else None.

(** ** The texts that a group can capture *)

(** The loop of [match_here] for one quantified class: [n] characters taken so
    far, [p'] the tokens that follow. *)
Definition rep_of (cc : cclass) (lo : nat) (hi : option nat) (p' : list tok)
    : string -> nat -> capture -> option capture :=
  fix rep (s : string) (n : nat) (st : capture) {struct s} : option capture :=
    let stop := if (lo <=? n)%nat then match_here p' s st else None in
    match s with
    | EmptyString => stop
    | String c s' =>
        if cclass_matches cc c && below n hi
        then match rep s' (S n) (cap_push c st) with
             | Some r => Some r
             | None => stop
             end
        else stop
    end.

Fixpoint push_all (seg : string) (st : capture) : capture :=
  match seg with
  | EmptyString => st
  | String c seg' => push_all seg' (cap_push c st)
  end.

Fixpoint all_match (cc : cclass) (seg : string) : bool :=
  match seg with
  | EmptyString => true
  | String c seg' => cclass_matches cc c && all_match cc seg'
  end.

Definition outside_group (t : tok) : bool :=
  match t with TOpen | TClose => false | _ => true end.

(** The quantified classes between the parentheses of a pattern with one
    group. *)
Fixpoint group_body (p : list tok) : option (list tok) :=
  match p with
  | TRep cc lo hi :: p' => g ← group_body p'; Some (TRep cc lo hi :: g)
  | TClose :: p' => if forallb outside_group p' then Some [] else None
  | _ => None
  end.

Fixpoint group_of (p : list tok) : option (list tok) :=
  match p with
  | TOpen :: p' => group_body p'
  | TRep _ _ _ :: p' | TEnd :: p' => group_of p'
  | _ => None
  end.

(** [text] is a run of characters for each quantified class of [g] in turn,
    each of a length that the quantifier allows. *)
Fixpoint fits (g : list tok) (text : string) : Prop :=
  match g with
  | [] => text = ""
  | TRep cc lo hi :: g' =>
      exists seg rest,
        text = seg +:+ rest
        /\ all_match cc seg = true
        /\ (lo <= String.length seg)%nat
        /\ (forall h, hi = Some h -> (String.length seg <= h)%nat)
        /\ fits g' rest
  | _ => False
  end.

(** The group of the pattern that fills a key of the filename parser, and the
    conversion applied to its text. *)
Definition field_group (key : string) : option (list tok * (string -> pyval)) :=
  '(pat, _, conv) ← List.find (fun e => String.eqb (extraction_key e) key) filename_extractions;
  p ← re_compile pat;
  g ← group_of p;
  Some (g, conv).

(** Two decimal digits followed by three capital letters. *)
Definition tile_shaped (s : string) : bool :=
  match list_ascii_of_string s with
  | [d1; d2; c1; c2; c3] =>
      is_digit d1 && is_digit d2 && is_upper_AZ c1 && is_upper_AZ c2 && is_upper_AZ c3
  | _ => false
  end.

(** ** utils.py: the paths and the grouping of the download records *)

(** [s.split('.')[0]] *)
Fixpoint split_dot0 (s : string) : string :=
  match s with
  | EmptyString => EmptyString
  | String c s' => if Ascii.eqb c "." then EmptyString else String c (split_dot0 s')
  end.

(** [os.path.join(a, b)] of [posixpath] *)
Definition os_path_join (a b : string) : string :=
  if String.prefix "/" b then b
  else if String.eqb a "" || str_endswith "/" a then a +:+ b
  else a +:+ "/" +:+ b.

Definition create_download_paths (base_path : string) (file_types : list string)
    : gmap string string :=
  foldl (fun download_paths file_type =>
           let type_name := split_dot0 file_type in
           <[file_type := os_path_join base_path type_name]> download_paths)
        ∅ file_types.

Definition create_upload_paths (base_path : string) (file_types : list string)
    : gmap string string :=
  foldl (fun upload_paths file_type =>
           let type_name := split_dot0 file_type in
           <[type_name := base_path +:+ "/ecostress_" +:+ py_lower type_name]> upload_paths)
        ∅ file_types.

Definition organize_files_by_type (downloaded_files : list download_record)
    : gmap string (list download_record) :=
  foldl (fun files_by_type r =>
           let files_by_type :=
             if bool_decide (is_Some (files_by_type !! file_type r)) then files_by_type
             else <[file_type r := []]> files_by_type in
           <[file_type r := (default [] (files_by_type !! file_type r) ++ [r])%list]>
             files_by_type)
        ∅ downloaded_files.

(** ** download.py: the suffix that selects the folder of a file *)

(** Lines 66-68 and 92 of [download_data]: the first configured suffix that
    the file name ends with, and its entry in the download paths. *)
Definition first_suffix (file_types : list string) (filename : string) : option string :=
  List.find (fun suffix => str_endswith suffix filename) file_types.

Definition destination_of (file_types : list string) (download_paths : gmap string string)
    (filename : string) : option (result (string * string)) :=
  suffix ← first_suffix file_types filename;
  Some (match download_paths !! suffix with
        | Some destination_path => Ok (destination_path, split_dot0 suffix)
        | None => Raise KeyError
        end).

(** ** main.py: which services are authenticated *)

(** The characters that [str.strip()] removes, below 256. *)
Definition is_py_space (c : ascii) : bool :=
  let n := nat_of_ascii c in
  ((9 <=? n) && (n <=? 13) || (28 <=? n) && (n <=? 32) || (n =? 133) || (n =? 160))%nat.

Fixpoint lstrip (s : string) : string :=
  match s with
  | EmptyString => EmptyString
  | String c s' => if is_py_space c then lstrip s' else s
  end.

(** [s.strip()] *)
Definition py_strip (s : string) : string :=
  String.rev (lstrip (String.rev (lstrip s))).

(** [action in [a, b]] *)
Definition action_in (action : string) (l : list string) : bool :=
  existsb (String.eqb action) l.

(** [authenticate_services]: [netrc] and [interactive] are the results of
    [authenticate_earthaccess] with the two strategies, [gee] that of
    [authenticate_gee], and [answer] the line that the user types at the
    prompt. *)
Definition authenticate_services (action : string) (netrc interactive gee : bool)
    (answer : string) : bool * bool :=
  let earthaccess_success := false in
  let gee_success := false in
  if action_in action ["download"; "both"] && negb netrc && negb interactive
  then (false, false)
  else
    let earthaccess_success :=
      if action_in action ["download"; "both"] then true else earthaccess_success in
    if action_in action ["upload"; "both"]
    then
      if negb gee
      then
        if String.eqb action "both" && String.eqb (py_lower (py_strip answer)) "y"
        then (true, false)
        else (earthaccess_success, false)
      else (earthaccess_success, true)
    else (earthaccess_success, gee_success).

(** ** Further example inputs *)

(** A granule with a product file name and a beginning date. *)
Definition range_dated : gmap string pyval :=
  {[ "BeginningDateTime" := PStr "2025-01-01T12:00:00Z" ]}.
Definition temporal_dated : gmap string pyval := {[ "RangeDateTime" := PDict range_dated ]}.
Definition umm_dated : gmap string pyval :=
  {[ "GranuleUR" := PStr ur_example; "TemporalExtent" := PDict temporal_dated ]}.

Definition granule_dated : granule :=
  {| g_fields := {[ "umm" := PDict umm_dated ]}; g_size := PInt 0 |}.

(** A record whose metadata is the extractor's output for that granule. *)
Definition record_extracted : download_record :=
  {| filename := "ECO_ABC_18TUN_LST.tif"; folder_path := "/data/LST"; file_type := "LST";
     granule_metadata := returned (extract_granule_metadata iso_to_millis_ref granule_dated) |}.

(** A table without rows, and one whose row has no id_no column. *)
Definition fs_empty_table : gmap string node := {[ table_path := File [] ]}.

Definition line_without_id : gmap string string := {[ "system:index" := "img1" ]}.

Definition fs_without_id : gmap string node := {[ table_path := File [line_without_id] ]}.

(** Metadata with a beginning date and no time_start. *)
Definition metadata_dated : gmap string pyval :=
  {[ "beginning_date_time" := PStr "2025-01-01T12:00:00+00:00" ]}.

Definition row_abc : gmap string pyval := {[ "id_no" := PStr "ABC" ]}.

Definition pdate_insert : gmap string pyval :=
  {[ "Type" := PStr "Insert"; "Date" := PStr "2025-01-02T00:00:00Z" ]}.

Definition umm_provider_dates : gmap string pyval :=
  {[ "ProviderDates" := PList (PDict <$> [pdate_insert]) ]}.

Definition attr_doi : gmap string pyval :=
  {[ "Name" := PStr "identifier_product_doi";
     "Values" := PList [PStr "10.5067/ECOSTRESS/ECO_L2T_LSTE.002"] ]}.

Definition umm_attributes : gmap string pyval :=
  {[ "AdditionalAttributes" := PList (PDict <$> [attr_doi]) ]}.

(** config.py: the configured file types and base paths. *)
Definition FILE_TYPES : list string :=
  [ "LST.tif"; "LST_err.tif"; "EmisWB.tif"; "view_zenith.tif"; "height.tif"; "QC.tif";
    "cloud.tif"; "water.tif" ].

Definition DOWNLOAD_BASE : string := "/Users/jiaxinwang/Documents/ECOSTRESS/ecostress".

Definition GEE_UPLOAD_BASE : string := "projects/ee-jiaxinwang36201/Geneva/Ecostress".

(** ** The folder scan *)

(** The file names that [_populate_from_folders] passes to its innermost loop,
    each with the type of its folder, in the order of the scan: for every
    folder that is a directory, its entries that end in [.tif]. *)
Fixpoint scanned_names (fs : gmap string node) (download_folders : list (string * string))
    : list (string * string) :=
  match download_folders with
  | [] => []
  | (folder_type, folder_path) :: rest =>
      (match fs !! folder_path with
       | Some (Dir entries) =>
           (fun name => (folder_type, name))
             <$> filter (fun name => str_endswith ".tif" name = true) entries
       | _ => []
       end ++ scanned_names fs rest)%list
  end.

(** ** Example inputs with several records and with a folder *)




(** The table with the row [id_no=ABC] and a folder with one image of it. *)
Definition fs_with_folder : gmap string node :=
  {[ table_path := File [line_abc];
     "/data/LST" := Dir ["ECO_ABC_18TUN_LST.tif"; "notes.txt"] ]}.

(** Metadata with a beginning date and a value under [system:time_start]. *)
Definition metadata_dated_with_system_time : gmap string pyval :=
  {[ "beginning_date_time" := PStr "2025-01-01T12:00:00+00:00";
     "system:time_start" := PInt 7 ]}.

(** * Properties *)

(** ** The result monad and loops *)

Lemma bind_Ok {A B} (m : result A) (f : A -> result B) (b : B) :
  m ≫= f = Ok b -> exists a, m = Ok a /\ f a = Ok b.
Proof. destruct m as [a|e]; simpl; [eauto | discriminate]. Qed.

Lemma mapM_Forall2 {A B} (f : A -> result B) (l : list A) (l' : list B) :
  mapM f l = Ok l' -> Forall2 (fun a b => f a = Ok b) l l'.
Proof.
  revert l'. induction l as [|a l IH]; intros l' H; simpl in H.
  - injection H as <-. constructor.
  - apply bind_Ok in H as (b & Hb & H).
    apply bind_Ok in H as (bs & Hbs & H).
    injection H as <-. constructor; auto.
Qed.

Lemma Forall2_mapM {A B} (f : A -> result B) (l : list A) (l' : list B) :
  Forall2 (fun a b => f a = Ok b) l l' -> mapM f l = Ok l'.
Proof. induction 1 as [|a b l l' Hab _ IH]; simpl; [done|]. by rewrite Hab; simpl; rewrite IH. Qed.

(** A loop of in-place updates relates the rows before and after pointwise by
    any preorder that each update respects. *)
Lemma mapM_related {A} (R : relation A) (f : A -> result A) (l l' : list A) :
  (forall a a', f a = Ok a' -> R a a') ->
  mapM f l = Ok l' -> Forall2 R l l'.
Proof.
  intros Hf H. apply mapM_Forall2 in H.
  induction H; constructor; auto.
Qed.

Lemma foldM_related {A B} (R : relation A) `{!PreOrder R}
    (f : A -> B -> result A) (l : list B) (a a' : A) :
  (forall b x x', b ∈ l -> f x b = Ok x' -> R x x') ->
  foldM f l a = Ok a' -> R a a'.
Proof.
  revert a. induction l as [|b l IH]; intros a Hf H; simpl in H.
  - injection H as <-. reflexivity.
  - apply bind_Ok in H as (x & Hx & H).
    transitivity x.
    + eapply Hf; [left | done].
    + apply IH; [|done]. intros b' y y' Hb'. apply Hf. by right.
Qed.

Lemma foldM_app {A B} (f : A -> B -> result A) (l1 l2 : list B) (a : A) :
  foldM f (l1 ++ l2)%list a = foldM f l1 a ≫= foldM f l2.
Proof.
  revert a. induction l1 as [|b l1 IH]; intros a; simpl; [done|].
  destruct (f a b); simpl; [apply IH | done].
Qed.

#[local] Instance Forall2_preorder {A} (R : relation A) `{!PreOrder R} : PreOrder (Forall2 R).
Proof. split; apply _. Qed.

(** ** The filename parser *)

Lemma apply_extraction_result ur md e :
  apply_extraction ur md e =
    match extraction_result ur e with
    | Some (k, v) => <[k := v]> md
    | None => md
    end.
Proof.
  destruct e as [[pat key] conv]. unfold apply_extraction, extraction_result.
  by destruct (re_search pat ur).
Qed.

(** Running a list of extractions lays their results over the mapping, a later
    extraction taking precedence. *)
Lemma run_extractions_union es ur (md : gmap string pyval) :
  run_extractions es ur md =
    (list_to_map (reverse (omap (extraction_result ur) es)) : gmap string pyval) ∪ md.
Proof.
  unfold run_extractions. revert md.
  induction es as [|e es IH]; intros md; simpl.
  - by rewrite (left_id_L ∅ (∪)).
  - rewrite IH, apply_extraction_result.
    destruct (extraction_result ur e) as [[k v]|]; [|done].
    rewrite reverse_cons, list_to_map_app. simpl.
    rewrite <- (assoc_L (∪)). f_equal.
    by rewrite insert_empty, <- insert_union_singleton_l.
Qed.

Lemma extraction_result_key ur e kv :
  extraction_result ur e = Some kv -> kv.1 = extraction_key e.
Proof.
  destruct e as [[pat key] conv]. unfold extraction_result, extraction_key. simpl.
  destruct (re_search pat ur); simpl; [|done]. by intros [= <-].
Qed.

Lemma omap_extraction_keys ur es :
  NoDup (extraction_key <$> es) -> NoDup (omap (extraction_result ur) es).*1.
Proof.
  induction es as [|e es IH]; simpl; [constructor|].
  intros [Hnotin Hnd]%NoDup_cons. specialize (IH Hnd).
  destruct (extraction_result ur e) as [kv|] eqn:He; [|done].
  simpl. apply NoDup_cons. split; [|done].
  intros Hin. apply Hnotin.
  apply list_elem_of_fmap in Hin as (kv' & Hk & Hin).
  apply list_elem_of_omap in Hin as (e' & He' & Hr).
  apply list_elem_of_fmap. exists e'. split; [|done].
  apply extraction_result_key in He, Hr. congruence.
Qed.

Lemma run_extractions_permutation es es' ur md :
  NoDup (extraction_key <$> es) -> es ≡ₚ es' ->
  run_extractions es' ur md = run_extractions es ur md.
Proof.
  intros Hnd Hperm. rewrite !run_extractions_union. f_equal.
  apply list_to_map_proper.
  - rewrite fmap_reverse, reverse_Permutation. apply omap_extraction_keys.
    by rewrite <- Hperm.
  - rewrite !reverse_Permutation. by rewrite Hperm.
Qed.

Lemma run_extractions_idempotent es ur md :
  run_extractions es ur (run_extractions es ur md) = run_extractions es ur md.
Proof.
  rewrite !run_extractions_union.
  by rewrite (assoc_L (∪)), (idemp_L (∪)).
Qed.

Lemma filename_extractions_keys : NoDup (extraction_key <$> filename_extractions).
Proof. apply (bool_decide_unpack _); vm_compute; exact I. Qed.

(** An extraction whose pattern finds nothing leaves its key alone, whatever
    the other extractions do. *)
Lemma run_extractions_unmatched es ur md k :
  (forall pat conv, (pat, k, conv) ∈ es -> re_search pat ur = None) ->
  run_extractions es ur md !! k = md !! k.
Proof.
  unfold run_extractions. revert md.
  induction es as [|[[pat key] conv] es IH]; intros md Hes; simpl; [done|].
  rewrite IH by (intros; eapply Hes; by right).
  unfold apply_extraction.
  destruct (re_search pat ur) eqn:Hs; [|done].
  destruct (decide (key = k)) as [->|Hne].
  - rewrite (Hes pat conv) in Hs by left. done.
  - by rewrite lookup_insert_ne.
Qed.

(** Closed facts about finite sets and lists of strings, by evaluation. *)
Ltac by_evaluation := apply (bool_decide_unpack _); vm_compute; exact I.

(** C5. The identifier
    [ECOv002_L2T_LSTE_00048_003_18TUN_20250101T120000_0712_01] parses to
    version 002, level L2T, orbit number 00048, scene 3 (an integer), orbit_scene
    00048_003, tile 18TUN and processing id 0712_01, and to no other key. For
    every identifier and every starting mapping, running the seven extractions
    in any other order gives the same mapping, and running them again on their
    own result changes nothing. *)
Theorem filename_parser_example :
  let parsed := _extract_filename_metadata ur_example in
  (parsed !! "version_from_filename" = Some (PStr "002")
   /\ parsed !! "processing_level" = Some (PStr "L2T")
   /\ parsed !! "orbit_number_from_filename" = Some (PStr "00048")
   /\ parsed !! "scene" = Some (PInt 3)
   /\ parsed !! "orbit_scene" = Some (PStr "00048_003")
   /\ parsed !! "mgrs_tile" = Some (PStr "18TUN")
   /\ parsed !! "processing_ID" = Some (PStr "0712_01")
   /\ dom parsed =
        list_to_set [ "version_from_filename"; "processing_level";
                      "orbit_number_from_filename"; "scene"; "orbit_scene";
                      "mgrs_tile"; "processing_ID" ])
  /\ (forall es ur md,
        es ≡ₚ filename_extractions ->
        run_extractions es ur md = run_extractions filename_extractions ur md)
  /\ (forall ur md,
        run_extractions filename_extractions ur
          (run_extractions filename_extractions ur md)
        = run_extractions filename_extractions ur md).
Proof.
  split; [|split].
  - repeat (split; [vm_compute; reflexivity|]). by_evaluation.
  - intros es ur md Hperm.
    apply run_extractions_permutation; [apply filename_extractions_keys | done].
  - intros ur md. apply run_extractions_idempotent.
Qed.

Lemma filename_parser_example_witness :
  run_extractions (reverse filename_extractions) ur_example ∅ =
    run_extractions filename_extractions ur_example ∅.
Proof.
  apply (proj1 (proj2 filename_parser_example)). apply reverse_Permutation.
Defined.

Section Properties.

Variable iso_to_millis : string -> option Z.
Variable py_repr : pyval -> string.

(** ** The tile codec *)

Lemma band_test (c : ascii) :
  str_in (String c EmptyString) "NPQRSTUVWX" = bool_decide (c ∈ northern_bands).
Proof. destruct c as [[] [] [] [] [] [] [] []]; by vm_compute. Qed.

(** C8. For every string, the tile codec returns without raising: the empty
    string when the input has fewer than three characters, otherwise EPSG326
    followed by the first two characters when the third is one of NPQRSTUVWX
    and EPSG327 followed by the first two characters when it is not. In
    particular 18TUN gives EPSG32618, 47MDU gives EPSG32747, and the empty
    string and 1T give the empty string. *)
Theorem tile_codec (s : string) :
  get_epsg_from_mgrs py_repr (PStr s) = Ok (PStr (epsg_contract s))
  /\ get_epsg_from_mgrs py_repr (PStr "18TUN") = Ok (PStr "EPSG32618")
  /\ get_epsg_from_mgrs py_repr (PStr "47MDU") = Ok (PStr "EPSG32747")
  /\ get_epsg_from_mgrs py_repr (PStr "") = Ok (PStr "")
  /\ get_epsg_from_mgrs py_repr (PStr "1T") = Ok (PStr "").
Proof.
  split; [|by repeat split].
  destruct s as [|a [|b [|c rest]]]; try reflexivity.
  unfold get_epsg_from_mgrs, epsg_contract. simpl.
  by rewrite <- band_test.
Qed.

(** ** The granule record extractor *)

Lemma dict_get_Some (m : gmap string pyval) k v dflt :
  m !! k = Some v -> dict_get (PDict m) k dflt = Ok v.
Proof. intros H. unfold dict_get. by rewrite H. Qed.

Lemma contains_Some (m : gmap string pyval) k v :
  m !! k = Some v -> py_contains_str k (PDict m) = Ok true.
Proof. intros H. unfold py_contains_str. rewrite bool_decide_eq_true_2; eauto. Qed.

(** Inverts the binds of a hypothesis [H : ... = Ok _]. *)
Ltac inv_binds H :=
  lazymatch type of H with
  | mbind _ ?m = Ok _ =>
      let E := fresh "E" in
      destruct m eqn:E; cbn [mbind result_bind] in H; [|discriminate H];
      inv_binds E; inv_binds H
  | Ok _ = Ok ?a =>
      injection H as H; try (is_var a; subst a)
  | _ => idtac
  end.

Ltac case_if H :=
  match type of H with
  | (if ?b then _ else _) = _ => destruct b eqn:?
  end.

(** Inverts binds and conditionals alike. *)
Ltac inv_all H := repeat first [progress inv_binds H | case_if H].

(** Membership of a literal key in a literal list of keys. *)
Ltac in_list := apply (bool_decide_unpack _); vm_compute; exact I.

Lemma foldM_invariant {A B} (P : A -> Prop) (f : A -> B -> result A) (l : list B) (a a' : A) :
  P a -> (forall b x x', P x -> f x b = Ok x' -> P x') ->
  foldM f l a = Ok a' -> P a'.
Proof.
  intros Ha Hf. revert a Ha. induction l as [|b l IH]; intros a Ha H; simpl in H.
  - by injection H as <-.
  - apply bind_Ok in H as (x & Hx & H). eauto.
Qed.

Lemma prefix_app_ne (p x k : string) :
  String.prefix p (p +:+ x) = true -> String.prefix p k = false -> p +:+ x <> k.
Proof. intros Hp Hk Heq. subst k. congruence. Qed.

(** The keys that each part of the extractor can produce. *)

Lemma spatial_none umm m k :
  _extract_spatial_metadata umm = Ok m ->
  bool_decide (k ∈ ["north_lat"; "south_lat"; "east_lon"; "west_lon"]) = false ->
  m !! k = None.
Proof.
  intros H Hk%bool_decide_eq_false. unfold _extract_spatial_metadata in H.
  inv_binds H.
  rewrite !lookup_insert_ne; [done|..]; intros <-; apply Hk; in_list.
Qed.

Lemma provider_dates_none umm m k :
  _extract_provider_dates umm = Ok m ->
  String.prefix "provider_date_" k = false ->
  m !! k = None.
Proof.
  intros H Hk. unfold _extract_provider_dates in H. inv_binds H.
  revert H. apply (foldM_invariant (fun m' : gmap string pyval => m' !! k = None)); [done|].
  intros pdate x x' Hx Hstep. unfold provider_date_step in Hstep.
  inv_all Hstep; try done.
  rewrite lookup_insert_ne; [done|]. apply prefix_app_ne; [simpl; by destruct a3 | done].
Qed.

Lemma additional_attributes_none umm m k :
  _extract_additional_attributes umm = Ok m ->
  String.prefix "attr_" k = false ->
  m !! k = None.
Proof.
  intros H Hk. unfold _extract_additional_attributes in H. inv_binds H.
  revert H. apply (foldM_invariant (fun m' : gmap string pyval => m' !! k = None)); [done|].
  intros attr x x' Hx Hstep. unfold additional_attribute_step in Hstep.
  inv_all Hstep; try done.
  rewrite lookup_insert_ne; [done|]. apply prefix_app_ne; [simpl; by destruct (str_replace _ _ _) | done].
Qed.

Lemma platform_none umm m k :
  _extract_platform_metadata umm = Ok m ->
  bool_decide (k ∈ ["platform_short_name"; "sensor"]) = false ->
  m !! k = None.
Proof.
  intros H Hk%bool_decide_eq_false. unfold _extract_platform_metadata in H.
  inv_all H; rewrite !lookup_insert_ne; try done; intros <-; apply Hk; in_list.
Qed.

Lemma orbit_none umm m k :
  _extract_orbit_metadata umm = Ok m ->
  bool_decide (k ∈ ["orbit_number"; "begin_orbit_number"; "end_orbit_number"]) = false ->
  m !! k = None.
Proof.
  intros H Hk%bool_decide_eq_false. unfold _extract_orbit_metadata in H.
  inv_binds H.
  assert (forall m' : gmap string pyval, m' !! k = None ->
            forall k' v, k' ∈ ["orbit_number"; "begin_orbit_number"; "end_orbit_number"] ->
            <[k' := v]> m' !! k = None) as Hins.
  { intros m' Hm' k' v Hk'. rewrite lookup_insert_ne; [done|]. by intros ->. }
  assert (a0 !! k = None) as Ha0.
  { inv_all E0; repeat (apply Hins; [|in_list]); done. }
  inv_all H; try done; (apply Hins; [done|in_list]).
Qed.

Lemma filename_metadata_none v m k :
  extract_filename_metadata_of v = Ok m ->
  bool_decide (k ∈ extraction_key <$> filename_extractions) = false ->
  m !! k = None.
Proof.
  intros H Hk%bool_decide_eq_false. destruct v; try discriminate H.
  injection H as <-. unfold _extract_filename_metadata.
  rewrite run_extractions_unmatched; [done|].
  intros pat conv Hin. destruct Hk.
  apply list_elem_of_fmap. by exists (pat, k, conv).
Qed.

(** Looks a literal key up through the layers that the later parts of the
    extractor put on top of the mapping. *)
Ltac part_none :=
  first [ eapply additional_attributes_none; [eassumption | reflexivity]
        | eapply provider_dates_none; [eassumption | reflexivity]
        | eapply spatial_none; [eassumption | reflexivity]
        | eapply platform_none; [eassumption | reflexivity]
        | eapply orbit_none; [eassumption | reflexivity]
        | eapply filename_metadata_none; [eassumption | reflexivity] ].

Ltac lookup_layers :=
  unfold dict_update;
  repeat first
    [ rewrite lookup_insert_ne by done
    | rewrite lookup_union_r by part_none ].

(** The filename-derived fields of the extractor's output, for a granule whose
    UR is a non-empty string: what the filename parser found, and otherwise
    the empty string, except for scene and orbit_scene, which are then
    absent. *)
Lemma extract_filename_fields g umm ur md k :
  g_fields g !! "umm" = Some (PDict umm) ->
  umm !! "GranuleUR" = Some (PStr ur) ->
  ur <> "" ->
  extract_granule_metadata iso_to_millis g = Ok md ->
  k ∈ extraction_key <$> filename_extractions ->
  md !! k =
    match _extract_filename_metadata ur !! k with
    | Some v => Some v
    | None => if bool_decide (k ∈ ["scene"; "orbit_scene"]) then None else Some (PStr "")
    end.
Proof.
  intros Humm Hur Hne H Hk.
  unfold extract_granule_metadata, copy_field in H.
  inv_binds H.
  rewrite Humm in *. simpl default in *.
  rewrite (dict_get_Some _ _ _ _ Hur) in *.
  match goal with E : Ok _ = Ok ?a |- _ => injection E as E; subst a end.
  assert (String.eqb ur "" = false) as Heqb by by apply String.eqb_neq.
  match goal with E : (if py_truthy _ then _ else _) = _ |- _ =>
    cbn [py_truthy extract_filename_metadata_of mbind result_bind] in E;
    rewrite Heqb in E; cbn [negb] in E; injection E as E end.
  subst.
  match goal with
  | |- context [if py_truthy ?b then _ else _] => destruct (py_truthy b)
  end.
  all: vm_compute in Hk;
    repeat (apply elem_of_cons in Hk as [->|Hk]);
    try (by apply elem_of_nil in Hk);
    lookup_layers;
    rewrite lookup_union;
    destruct (_extract_filename_metadata ur !! _); try reflexivity.
Qed.

Lemma NoDup_fmap_eq {A B} (f : A -> B) (l : list A) (x y : A) :
  NoDup (f <$> l) -> x ∈ l -> y ∈ l -> f x = f y -> x = y.
Proof.
  induction l as [|a l IH]; simpl; intros Hnd Hx Hy Hf.
  - by apply elem_of_nil in Hx.
  - apply NoDup_cons in Hnd as [Ha Hnd].
    apply elem_of_cons in Hx as [->|Hx], Hy as [->|Hy]; auto.
    + destruct Ha. rewrite Hf. by apply list_elem_of_fmap_2.
    + destruct Ha. rewrite <- Hf. by apply list_elem_of_fmap_2.
Qed.

(** C6, as the code has it. For every granule whose UR is a non-empty string,
    each of the seven filename patterns that finds no match leaves its field
    at the empty string in the extractor's output, except for the scene and
    the orbit_scene fields: these two are absent from the output when their
    pattern finds no match. *)
Theorem unmatched_filename_fields g umm ur md pat key conv :
  g_fields g !! "umm" = Some (PDict umm) ->
  umm !! "GranuleUR" = Some (PStr ur) ->
  ur <> "" ->
  extract_granule_metadata iso_to_millis g = Ok md ->
  (pat, key, conv) ∈ filename_extractions ->
  re_search pat ur = None ->
  md !! key = if bool_decide (key ∈ ["scene"; "orbit_scene"]) then None else Some (PStr "").
Proof.
  intros Humm Hur Hne H Hin Hsearch.
  rewrite (extract_filename_fields g umm ur md key Humm Hur Hne H).
  - unfold _extract_filename_metadata.
    rewrite run_extractions_unmatched; [by rewrite lookup_empty|].
    intros pat' conv' Hin'.
    assert ((pat', key, conv') = (pat, key, conv)) as [= -> _].
    { eapply (NoDup_fmap_eq extraction_key); eauto using filename_extractions_keys. }
    done.
  - apply list_elem_of_fmap. by exists (pat, key, conv).
Qed.

(** ** The orbit number *)

(** C4, as the code has it. When the first element of
    OrbitCalculatedSpatialDomains has a BeginOrbitNumber and the first element
    of OrbitParameters has an OrbitNumber, the orbit_number field is the
    BeginOrbitNumber if that value is truthy; if it is falsy (zero, the empty
    string, null) the field is the OrbitNumber of OrbitParameters. This holds
    for the orbit extractor, which then always returns, and for the output of
    the whole extractor. *)
Theorem orbit_priority umm first domains begin_orbit pfirst params number :
  umm !! "OrbitCalculatedSpatialDomains" = Some (PList (PDict first :: domains)) ->
  first !! "BeginOrbitNumber" = Some begin_orbit ->
  umm !! "OrbitParameters" = Some (PList (PDict pfirst :: params)) ->
  pfirst !! "OrbitNumber" = Some number ->
  let expected := if py_truthy begin_orbit then begin_orbit else number in
  (exists md, _extract_orbit_metadata (PDict umm) = Ok md
              /\ md !! "orbit_number" = Some expected)
  /\ (forall g md,
        g_fields g !! "umm" = Some (PDict umm) ->
        extract_granule_metadata iso_to_millis g = Ok md ->
        md !! "orbit_number" = Some expected).
Proof.
  intros Hdomains Hbegin Hparams Hnumber expected.
  assert (exists md, _extract_orbit_metadata (PDict umm) = Ok md
                     /\ md !! "orbit_number" = Some expected) as Horbit.
  { unfold _extract_orbit_metadata.
    rewrite (contains_Some _ _ _ Hdomains), (contains_Some _ _ _ Hparams).
    rewrite (dict_get_Some _ _ _ _ Hdomains), (dict_get_Some _ _ _ _ Hparams).
    cbn [mbind result_bind py_truthy is_list andb py_len List.length Nat.ltb Nat.leb
         py_index lookup list_lookup].
    rewrite (contains_Some _ _ _ Hbegin), (contains_Some _ _ _ Hnumber).
    rewrite (dict_get_Some _ _ _ _ Hbegin), (dict_get_Some _ _ _ _ Hnumber).
    cbn [mbind result_bind].
    destruct (dict_get (PDict first) "EndOrbitNumber" (PStr "")) as [end_orbit|] eqn:Hend;
      [|discriminate Hend].
    cbn [mbind result_bind]. unfold getitem. rewrite lookup_insert_eq.
    cbn [mbind result_bind]. subst expected.
    destruct (py_truthy begin_orbit); cbn [negb];
      eexists; (split; [reflexivity|]); by rewrite lookup_insert_eq. }
  split; [done|].
  intros g md Humm H. destruct Horbit as (orbit & Horbit & Hlookup).
  unfold extract_granule_metadata, copy_field in H.
  inv_binds H. rewrite Humm in *. simpl default in *.
  match goal with E : _extract_orbit_metadata _ = Ok ?m |- _ =>
    rewrite Horbit in E; injection E as E; subst m end.
  lookup_layers. by rewrite (lookup_union_l' _ _ _ (mk_is_Some _ _ Hlookup)).
Qed.

(** ** Timestamps *)

Lemma lookup_union_congr (a m1 m2 : gmap string pyval) k :
  m1 !! k = m2 !! k -> (a ∪ m1) !! k = (a ∪ m2) !! k.
Proof. intros H. by rewrite !lookup_union, H. Qed.

Lemma lookup_insert_congr i (x : pyval) (m1 m2 : gmap string pyval) k :
  m1 !! k = m2 !! k -> <[i := x]> m1 !! k = <[i := x]> m2 !! k.
Proof. intros H. by rewrite !lookup_insert, H. Qed.

(** The timestamp conversion decides neither whether the extractor returns nor
    any field besides time_start. *)
Lemma extract_conversion_independent (other : string -> option Z) g md' :
  extract_granule_metadata other g = Ok md' ->
  exists md, extract_granule_metadata iso_to_millis g = Ok md
             /\ forall k, k <> "time_start" -> md !! k = md' !! k.
Proof.
  unfold extract_granule_metadata, copy_field.
  repeat match goal with
    | |- context [mbind _ ?m] =>
        lazymatch m with
        | context [mbind] => fail
        | _ => destruct m; cbn [mbind result_bind]; [|intros; discriminate]
        end
    | |- context [if py_truthy ?v then _ else _] =>
        destruct (py_truthy v); cbn [mbind result_bind]
    end.
  all: intros [= <-]; eexists; (split; [reflexivity|]); intros k Hk; unfold dict_update.
  all: repeat first [ reflexivity
                    | apply lookup_union_congr
                    | apply lookup_insert_congr ].
  all: by rewrite !(lookup_insert_ne _ "time_start") by done.
Qed.

(** C7. Converting 2025-01-01T12:00:00Z gives the same result as converting
    2025-01-01T12:00:00+00:00, an integer number of milliseconds whenever the
    standard library accepts the latter. A value that the standard library
    refuses converts to the empty string, without an exception. In the
    extractor, a non-empty BeginningDateTime that does not convert leaves
    time_start at the empty string, and the conversion decides neither whether
    the extraction returns nor any other field of its output. *)
Theorem timestamp_conversion :
  _convert_to_timestamp iso_to_millis (PStr "2025-01-01T12:00:00Z")
    = _convert_to_timestamp iso_to_millis (PStr "2025-01-01T12:00:00+00:00")
  /\ (forall ms, iso_to_millis "2025-01-01T12:00:00+00:00" = Some ms ->
        _convert_to_timestamp iso_to_millis (PStr "2025-01-01T12:00:00Z") = PInt ms)
  /\ (forall v, parse_millis iso_to_millis v = None ->
        _convert_to_timestamp iso_to_millis v = PStr "")
  /\ (forall g umm temporal range v md,
        g_fields g !! "umm" = Some (PDict umm) ->
        umm !! "TemporalExtent" = Some (PDict temporal) ->
        temporal !! "RangeDateTime" = Some (PDict range) ->
        range !! "BeginningDateTime" = Some v ->
        py_truthy v = true ->
        parse_millis iso_to_millis v = None ->
        extract_granule_metadata iso_to_millis g = Ok md ->
        md !! "time_start" = Some (PStr ""))
  /\ (forall (other : string -> option Z) g md',
        extract_granule_metadata other g = Ok md' ->
        exists md, extract_granule_metadata iso_to_millis g = Ok md
                   /\ forall k, k <> "time_start" -> md !! k = md' !! k).
Proof.
  assert (forall v, parse_millis iso_to_millis v = None ->
            _convert_to_timestamp iso_to_millis v = PStr "") as Hfail.
  { intros [] H; try reflexivity. simpl in *. by rewrite H. }
  assert (str_replace "Z" "+00:00" "2025-01-01T12:00:00Z" = "2025-01-01T12:00:00+00:00")
    as Hz by (vm_compute; reflexivity).
  assert (str_replace "Z" "+00:00" "2025-01-01T12:00:00+00:00" = "2025-01-01T12:00:00+00:00")
    as Hoffset by (vm_compute; reflexivity).
  split; [unfold _convert_to_timestamp; by rewrite Hz, Hoffset|]. split.
  { intros ms H. unfold _convert_to_timestamp. by rewrite Hz, H. }
  split; [done|]. split; [|apply extract_conversion_independent].
  intros g umm temporal range v md Humm Htemporal Hrange Hv Htruthy Hparse H.
  unfold extract_granule_metadata, copy_field in H.
  inv_binds H. rewrite Humm in *. simpl default in *.
  rewrite (dict_get_Some _ _ _ _ Htemporal) in *.
  match goal with E : Ok (PDict temporal) = Ok ?a |- _ => injection E as E; subst a end.
  rewrite (dict_get_Some _ _ _ _ Hrange) in *.
  match goal with E : Ok (PDict range) = Ok ?a |- _ => injection E as E; subst a end.
  rewrite (dict_get_Some _ _ _ _ Hv) in *.
  match goal with E : Ok v = Ok ?a |- _ => injection E as E; subst a end.
  rewrite Htruthy. lookup_layers.
  by rewrite lookup_insert_eq, Hfail.
Qed.

(** ** The reconciler: rows *)

Lemma Ok_inj {A} (a b : A) : Ok a = Ok b -> a = b.
Proof. by intros [= ->]. Qed.

Lemma merged_silent md key old : silent_on key md -> merged md key old = old.
Proof. unfold merged. by intros [-> | ->]. Qed.

Lemma foldl_insert_lookup (v : pyval) (fields : list string) (row : gmap string pyval) k :
  foldl (fun row field => <[field := v]> row) row fields !! k =
    if bool_decide (k ∈ fields) then Some v else row !! k.
Proof.
  revert row. induction fields as [|f fields IH]; intros row; simpl; [done|].
  rewrite IH. destruct (decide (k = f)) as [->|Hne].
  - rewrite lookup_insert_eq. rewrite (bool_decide_eq_true_2 (f ∈ f :: fields)) by left.
    by case_bool_decide.
  - rewrite lookup_insert_ne by done.
    case_bool_decide as H1; case_bool_decide as H2; try done.
    + destruct H2. by right.
    + apply elem_of_cons in H2 as [?|?]; done.
Qed.

Lemma initialize_row_lookup row k :
  initialize_row row !! k =
    if bool_decide (k ∈ field_list) then Some (PStr "") else row !! k.
Proof. apply foldl_insert_lookup. Qed.

(** The merge overwrites a key only where the row has the column and the
    record a value that is not null; it adds no column. *)
Lemma transfer_all_lookup md row k :
  transfer_all md row !! k = merged md k <$> row !! k.
Proof.
  unfold transfer_all. revert k.
  apply (map_fold_weak_ind
           (fun (r : gmap string pyval) (m : gmap string pyval) =>
              forall k, r !! k = merged m k <$> row !! k)).
  - intros k. unfold merged. rewrite lookup_empty. by destruct (row !! k).
  - intros i x m r Hi IH k. unfold transfer_field.
    assert (is_Some (r !! i) <-> is_Some (row !! i)) as Hsome.
    { rewrite IH. by rewrite fmap_is_Some. }
    unfold merged. destruct (decide (k = i)) as [->|Hne].
    + rewrite lookup_insert_eq.
      destruct (is_none x) eqn:Hx; simpl.
      * rewrite IH. unfold merged. by rewrite Hi.
      * case_bool_decide as Hr.
        -- rewrite lookup_insert_eq. apply Hsome in Hr as [old ->]. done.
        -- rewrite IH. destruct (row !! i) eqn:Hrow; [|done].
           destruct Hr. apply Hsome. eauto.
    + rewrite (lookup_insert_ne m) by done.
      destruct (negb (is_none x) && bool_decide (is_Some (r !! i)));
        [rewrite lookup_insert_ne by done|]; apply IH.
Qed.

Lemma getitem_truthy md key :
  truthy_at md key = true ->
  exists v, md !! key = Some v /\ py_truthy v = true /\ getitem md key = Ok v.
Proof.
  unfold truthy_at, getitem. destruct (md !! key) as [v|]; [|done]. eauto.
Qed.

(** The system time block only touches the two system time columns. *)
Lemma set_system_time_other row md row' k :
  set_system_time iso_to_millis row md = Ok row' ->
  k <> "system:time_start" -> k <> "system:time_end" ->
  row' !! k = row !! k.
Proof.
  intros H Hs He. unfold set_system_time in H.
  destruct (truthy_at md "time_start") eqn:Hts.
  { apply getitem_truthy in Hts as (v & _ & _ & Hv). rewrite Hv in H.
    cbn [mbind result_bind] in H.
    injection H as <-. by rewrite !lookup_insert_ne. }
  destruct (truthy_at md "beginning_date_time") eqn:Hb; [|by injection H as <-].
  apply getitem_truthy in Hb as (v & _ & _ & Hv). rewrite Hv in H.
  cbn [mbind result_bind] in H.
  destruct (parse_millis iso_to_millis v); [|by injection H as <-].
  destruct (truthy_at md "ending_date_time") eqn:Hend.
  - apply getitem_truthy in Hend as (w & _ & _ & Hw). rewrite Hw in H.
    cbn [mbind result_bind] in H.
    destruct (parse_millis iso_to_millis w); injection H as <-;
      by rewrite !lookup_insert_ne.
  - unfold getitem in H. rewrite lookup_insert_eq in H. cbn [mbind result_bind] in H.
    injection H as <-. by rewrite !lookup_insert_ne.
Qed.

Lemma set_system_time_total row md : is_Ok (set_system_time iso_to_millis row md).
Proof.
  unfold set_system_time, is_Ok.
  destruct (truthy_at md "time_start") eqn:Hts.
  { apply getitem_truthy in Hts as (v & _ & _ & ->). cbn [mbind result_bind]. eauto. }
  destruct (truthy_at md "beginning_date_time") eqn:Hb; [|eauto].
  apply getitem_truthy in Hb as (v & _ & _ & ->). cbn [mbind result_bind].
  destruct (parse_millis iso_to_millis v); [|eauto].
  destruct (truthy_at md "ending_date_time") eqn:Hend.
  - apply getitem_truthy in Hend as (w & _ & _ & ->). cbn [mbind result_bind].
    destruct (parse_millis iso_to_millis w); eauto.
  - unfold getitem. rewrite lookup_insert_eq. cbn [mbind result_bind]. eauto.
Qed.

(** What [_update_row_with_metadata] computes, step by step. *)
Lemma update_row_inv row md ft row' :
  _update_row_with_metadata iso_to_millis py_repr row md ft = Ok row' ->
  exists timed tiled,
    set_system_time iso_to_millis row md = Ok timed
    /\ (tiled = <["band_type" := PStr ft]> timed
        \/ exists epsg, tiled = <["EPSG" := epsg]> (<["band_type" := PStr ft]> timed))
    /\ row' = transfer_all md tiled.
Proof.
  intros H. unfold _update_row_with_metadata in H.
  inv_binds H. exists a, a0. split; [done|]. split; [|done].
  match goal with E : (if _ then _ else _) = Ok _ |- _ => rename E into Hepsg end.
  destruct (truthy_at md "mgrs_tile"); inv_all Hepsg; eauto.
Qed.

(** A column outside the four that the update assigns directly receives the
    record's value if the column exists and the record has a value that is not
    null, and is unchanged otherwise. *)
Lemma update_row_other row md ft row' k :
  _update_row_with_metadata iso_to_millis py_repr row md ft = Ok row' ->
  k ∉ ["system:time_start"; "system:time_end"; "band_type"; "EPSG"] ->
  row' !! k = merged md k <$> row !! k.
Proof.
  intros H Hk. apply update_row_inv in H as (timed & tiled & Htime & Htiled & ->).
  rewrite transfer_all_lookup. f_equal.
  assert (tiled !! k = timed !! k) as ->.
  { destruct Htiled as [-> | [epsg ->]]; rewrite !lookup_insert_ne; try done;
      intros <-; apply Hk; in_list. }
  eapply set_system_time_other; [done|..]; intros ->; apply Hk; in_list.
Qed.

(** The band type after an update: the record's own band_type value if it has
    one that is not null, and the file type tag otherwise. *)
Lemma update_row_band_type row md ft row' :
  _update_row_with_metadata iso_to_millis py_repr row md ft = Ok row' ->
  row' !! "band_type" = Some (merged md "band_type" (PStr ft)).
Proof.
  intros H. apply update_row_inv in H as (timed & tiled & Htime & Htiled & ->).
  rewrite transfer_all_lookup.
  destruct Htiled as [-> | [epsg ->]].
  - by rewrite lookup_insert_eq.
  - by rewrite lookup_insert_ne, lookup_insert_eq.
Qed.

(** C9, as the code has it. When a row is updated from a record whose
    time_start is truthy, the columns system:time_start and system:time_end
    both receive that value, unless the record's FlatMetadata itself has a
    value other than null under system:time_start (or system:time_end), which
    the generic merge then puts in that column. Neither ending_date_time nor
    the date conversion is consulted: the update is the same for every
    conversion function. *)
Theorem system_time_from_time_start row md ft ts row' :
  md !! "time_start" = Some ts ->
  py_truthy ts = true ->
  _update_row_with_metadata iso_to_millis py_repr row md ft = Ok row' ->
  row' !! "system:time_start" = Some (merged md "system:time_start" ts)
  /\ row' !! "system:time_end" = Some (merged md "system:time_end" ts)
  /\ (silent_on "system:time_start" md -> row' !! "system:time_start" = Some ts)
  /\ (silent_on "system:time_end" md -> row' !! "system:time_end" = Some ts)
  /\ (forall other : string -> option Z,
        _update_row_with_metadata other py_repr row md ft = Ok row').
Proof.
  intros Hts Htruthy H.
  assert (forall conv : string -> option Z,
            set_system_time conv row md =
              Ok (<["system:time_end" := ts]> (<["system:time_start" := ts]> row))) as Hset.
  { intros conv. unfold set_system_time, truthy_at, getitem. by rewrite Hts, Htruthy. }
  assert (row' !! "system:time_start" = Some (merged md "system:time_start" ts)
          /\ row' !! "system:time_end" = Some (merged md "system:time_end" ts))
    as [Hstart Hend].
  { apply update_row_inv in H as (timed & tiled & Htime & Htiled & ->).
    rewrite Hset in Htime. injection Htime as <-.
    rewrite !transfer_all_lookup.
    assert (tiled !! "system:time_start" = Some ts
            /\ tiled !! "system:time_end" = Some ts) as [-> ->]; [|done].
    destruct Htiled as [-> | [epsg ->]]; by simplify_map_eq. }
  repeat split; try done.
  - intros Hsilent. by rewrite Hstart, merged_silent.
  - intros Hsilent. by rewrite Hend, merged_silent.
  - intros other. rewrite <- H. unfold _update_row_with_metadata. by rewrite !Hset.
Qed.

(** ** The reconciler: tables *)

Lemma Forall2_compose {A B C} (P : A -> B -> Prop) (Q : B -> C -> Prop)
    (R : A -> C -> Prop) l1 l2 l3 :
  (forall x y z, P x y -> Q y z -> R x z) ->
  Forall2 P l1 l2 -> Forall2 Q l2 l3 -> Forall2 R l1 l3.
Proof.
  intros HR H12. revert l3. induction H12; intros l3 H23.
  - apply Forall2_nil_inv_l in H23 as ->. constructor.
  - apply Forall2_cons_inv_l in H23 as (z & l3' & Hz & H23 & ->). constructor; eauto.
Qed.

Lemma last_filter_snoc {A} (P : A -> Prop) `{!forall x, Decision (P x)} (l : list A) (x : A) :
  last (filter P (l ++ [x])%list) = if decide (P x) then Some x else last (filter P l).
Proof.
  rewrite filter_app. destruct (decide (P x)) as [Hx|Hx].
  - rewrite (filter_cons_True _ x []) by done. rewrite filter_nil. apply last_snoc.
  - rewrite (filter_cons_False _ x []) by done. by rewrite filter_nil, app_nil_r.
Qed.




Lemma populate_files_related (R : relation (gmap string pyval)) `{!PreOrder R}
    rows (downloaded : list download_record) rows' :
  (forall r row row',
     r ∈ downloaded ->
     update_if_matching iso_to_millis py_repr r row = Ok row' -> R row row') ->
  _populate_from_downloaded_files iso_to_millis py_repr rows downloaded = Ok rows' ->
  Forall2 R rows rows'.
Proof.
  intros Hupdate. unfold _populate_from_downloaded_files.
  apply (foldM_related (Forall2 R)).
  intros r x x' Hr. apply mapM_related. eauto.
Qed.

Lemma populate_folders_related (R : relation (gmap string pyval)) `{!PreOrder R}
    fs rows folders rows' :
  (forall folder_type name row row',
     update_from_folder py_repr folder_type name row = Ok row' -> R row row') ->
  _populate_from_folders py_repr fs rows folders = Ok rows' ->
  Forall2 R rows rows'.
Proof.
  intros Hupdate. unfold _populate_from_folders.
  apply (foldM_related (Forall2 R)).
  intros [folder_type path] x x' _ H.
  destruct (os_path_exists fs path); [|by injection H as <-].
  apply bind_Ok in H as (names & _ & H). revert H.
  apply (foldM_related (Forall2 R)).
  intros name y y' _ H.
  destruct (str_endswith ".tif" name); [|by injection H as <-].
  revert H. apply mapM_related. eauto.
Qed.

(** A folder update assigns band_type, mgrs_tile and EPSG only. *)
Lemma update_from_folder_other folder_type name row row' k :
  update_from_folder py_repr folder_type name row = Ok row' ->
  k ∉ ["band_type"; "mgrs_tile"; "EPSG"] ->
  row' !! k = row !! k.
Proof.
  intros H Hk. unfold update_from_folder in H. inv_binds H.
  destruct a0; [|by injection H as <-].
  destruct (re_search _ name); inv_all H;
    rewrite !lookup_insert_ne; try done; intros <-; apply Hk; in_list.
Qed.

Lemma update_if_matching_other r row row' k :
  update_if_matching iso_to_millis py_repr r row = Ok row' ->
  k ∉ ["system:time_start"; "system:time_end"; "band_type"; "EPSG"] ->
  silent_on k (granule_metadata r) ->
  row' !! k = row !! k.
Proof.
  intros H Hk Hsilent. unfold update_if_matching in H. inv_binds H.
  destruct a0; [|by injection H as <-].
  rewrite (update_row_other _ _ _ _ _ H Hk).
  destruct (row !! k); [|done]. simpl. by rewrite merged_silent.
Qed.

(** The line written for a row, read back under the header. *)
Lemma dict_to_line_lookup fieldnames row line k :
  dict_to_line py_repr fieldnames row = Ok line ->
  dom row ⊆ fieldnames
  /\ line !! k = if bool_decide (k ∈ fieldnames)
                 then Some (csv_str py_repr (default (PStr "") (row !! k)))
                 else None.
Proof.
  unfold dict_to_line. case_bool_decide as Hdom; [|done]. intros [= <-].
  split; [done|].
  case_bool_decide as Hk.
  - apply lookup_set_to_map; [by intros y y' _ _ [= ->]|]. eauto.
  - apply eq_None_not_Some. intros [x Hx].
    apply lookup_set_to_map in Hx as (y & Hy & [= -> _]); [done|].
    by intros y y' _ _ [= ->].
Qed.

Lemma write_lines_ok fieldnames rows budget lines :
  write_lines py_repr fieldnames rows budget = (lines, Ok ()) ->
  budget = None
  /\ Forall2 (fun row line => dict_to_line py_repr fieldnames row = Ok line) rows lines.
Proof.
  revert budget lines. induction rows as [|row rows IH]; intros budget lines H; simpl in H.
  - destruct budget; [done|]. injection H as <-. by split.
  - destruct budget as [[|n]|];
      try done;
      destruct (dict_to_line py_repr fieldnames row) as [line|] eqn:Hline; try done;
      destruct (write_lines py_repr fieldnames rows _) as [lines' r] eqn:Hrest;
      injection H as <- ->; apply IH in Hrest as [Hb Hrows]; try done.
    split; [done|]. by constructor.
Qed.

(** What a run that returns [True] has done. *)
Lemma enhance_success_inv fs fl path folders downloaded fs' :
  enhance_metadata_csv iso_to_millis py_repr fs fl path folders downloaded = (fs', Ok true) ->
  exists lines rows first lines',
    fs !! path = Some (File lines)
    /\ read_fails fl = false
    /\ write_fails fl = NoWriteFault
    /\ populate iso_to_millis py_repr fs
         (_initialize_metadata_fields (load_row <$> lines)) folders downloaded = Ok rows
    /\ head rows = Some first
    /\ Forall2 (fun row line => dict_to_line py_repr (dom first) row = Ok line) rows lines'
    /\ fs' = <[path := File lines']> fs.
Proof.
  unfold enhance_metadata_csv, enhance_body, read_rows, write_rows.
  destruct (os_path_exists fs path); [|done]. cbn [negb].
  destruct (fs !! path) as [[lines|]|] eqn:Hfile; try done.
  destruct (read_fails fl) eqn:Hread; [done|].
  destruct (populate _ _ _ _ _ _) as [rows|] eqn:Hpopulate; [|done].
  destruct (write_fails fl) as [| |n] eqn:Hfault; [|done|].
  - destruct rows as [|first rows]; [done|].
    destruct (write_lines _ _ _ _) as [lines' r] eqn:Hwrite.
    destruct r as [[]|]; [|done]. intros [= <-].
    apply write_lines_ok in Hwrite as [_ Hrows].
    by exists lines, (first :: rows), first, lines'.
  - destruct rows as [|first rows]; [done|].
    destruct (write_lines _ _ _ _) as [lines' r] eqn:Hwrite.
    destruct r as [[]|]; [|done]. by apply write_lines_ok in Hwrite as [? _].
Qed.

#[local] Instance same_at_preorder (k : string) :
  PreOrder (fun row row' : gmap string pyval => row' !! k = row !! k).
Proof. split; [by intros row | intros x y z Hxy Hyz; by rewrite Hyz]. Qed.

#[local] Instance anything_preorder : PreOrder (fun _ _ : gmap string pyval => True).
Proof. by split. Qed.

Lemma populate_related (R : relation (gmap string pyval)) `{!PreOrder R}
    fs rows folders downloaded rows' :
  (forall r row row',
     r ∈ default [] downloaded ->
     update_if_matching iso_to_millis py_repr r row = Ok row' -> R row row') ->
  (forall folder_type name row row',
     update_from_folder py_repr folder_type name row = Ok row' -> R row row') ->
  populate iso_to_millis py_repr fs rows folders downloaded = Ok rows' ->
  Forall2 R rows rows'.
Proof.
  intros Hfiles Hfolders. unfold populate.
  destruct downloaded as [[|r rs]|]; eauto using populate_files_related, populate_folders_related.
Qed.

(** The rows in memory before the populate step, for the lines of the file. *)
Lemma initial_row_lookup lines i row :
  _initialize_metadata_fields (load_row <$> lines) !! i = Some row ->
  exists line, lines !! i = Some line /\ row = initialize_row (load_row line).
Proof.
  unfold _initialize_metadata_fields. rewrite !list_lookup_fmap.
  destruct (lines !! i) as [line|]; [|done]. intros [= <-]. eauto.
Qed.

Lemma id_no_not_initialized : bool_decide ("id_no" ∈ field_list) = false.
Proof. vm_compute. reflexivity. Qed.

(** C2, as the code has it. A run that returns True has written as many rows
    as it loaded, in the same order. Every id_no value that was loaded is
    written unchanged at its position, provided that no download record
    carries a value other than null under the key id_no in its FlatMetadata
    (the merge would copy such a value into the id_no column of the rows the
    record matches). *)
Theorem reconciliation_keeps_rows fs fl path folders downloaded lines fs' :
  fs !! path = Some (File lines) ->
  enhance_metadata_csv iso_to_millis py_repr fs fl path folders downloaded = (fs', Ok true) ->
  exists lines',
    fs' !! path = Some (File lines')
    /\ List.length lines' = List.length lines
    /\ ((forall r, r ∈ default [] downloaded -> silent_on "id_no" (granule_metadata r)) ->
        Forall2 (fun line line' =>
                   forall id_no, line !! "id_no" = Some id_no -> line' !! "id_no" = Some id_no)
                lines lines').
Proof.
  intros Hfile H.
  apply enhance_success_inv in H
    as (lines0 & rows & first & lines' & Hfile0 & _ & _ & Hpopulate & Hfirst & Hwrite & ->).
  rewrite Hfile in Hfile0. injection Hfile0 as <-.
  exists lines'. split; [by rewrite lookup_insert_eq|].
  assert (List.length lines' = List.length lines) as Hlength.
  { apply Forall2_length in Hwrite as <-.
    apply (populate_related (fun _ _ => True)) in Hpopulate; [|done..].
    apply Forall2_length in Hpopulate as <-.
    unfold _initialize_metadata_fields. by rewrite !length_fmap. }
  split; [done|]. intros Hsilent.
  apply (populate_related (fun row row' => row' !! "id_no" = row !! "id_no")) in Hpopulate.
  - apply Forall2_same_length_lookup. split; [done|].
    intros i line line' Hline Hline' id_no Hid.
    destruct (Forall2_lookup_r _ _ _ _ _ Hwrite Hline') as (row & Hrow & Hto_line).
    destruct (Forall2_lookup_r _ _ _ _ _ Hpopulate Hrow) as (row0 & Hrow0 & Hsame).
    apply initial_row_lookup in Hrow0 as (line0 & Hline0 & ->).
    rewrite Hline in Hline0. injection Hline0 as <-.
    rewrite initialize_row_lookup, id_no_not_initialized in Hsame.
    unfold load_row in Hsame. rewrite lookup_fmap, Hid in Hsame. simpl in Hsame.
    apply (dict_to_line_lookup _ _ _ "id_no") in Hto_line as [Hdom ->].
    rewrite bool_decide_eq_true_2, Hsame; [done|].
    apply Hdom, elem_of_dom. eauto.
  - intros r row row' Hr Hupdate.
    eapply update_if_matching_other; eauto.
    intros Hin. apply (bool_decide_pack _) in Hin. vm_compute in Hin. destruct Hin.
  - intros folder_type name row row' Hupdate.
    eapply update_from_folder_other; eauto.
    intros Hin. apply (bool_decide_pack _) in Hin. vm_compute in Hin. destruct Hin.
Qed.

(** An update from a record without time and tile information assigns the
    band type and merges. *)
Lemma update_row_plain row md ft :
  truthy_at md "time_start" = false ->
  truthy_at md "beginning_date_time" = false ->
  truthy_at md "mgrs_tile" = false ->
  _update_row_with_metadata iso_to_millis py_repr row md ft
    = Ok (transfer_all md (<["band_type" := PStr ft]> row)).
Proof.
  intros Hts Hb Htile. unfold _update_row_with_metadata, set_system_time.
  by rewrite Hts, Hb, Htile.
Qed.

(** C1. For a table whose only row has id_no ABC and a single download record
    whose filename contains ABC and whose FlatMetadata maps band_type to LST
    and has no other key, a run that returns True has written one row whose
    band_type is LST, whose other vocabulary columns are the empty string and
    whose remaining columns are as they were loaded. In general the merge
    leaves in each existing column the record's value for that key when it has
    one that is not null and the old value otherwise, and adds no column. *)
Theorem reconcile_round_trip fs fl path folders line r fs' :
  fs !! path = Some (File [line]) ->
  line !! "id_no" = Some "ABC" ->
  str_in "ABC" (filename r) = true ->
  granule_metadata r = {["band_type" := PStr "LST"]} ->
  enhance_metadata_csv iso_to_millis py_repr fs fl path folders (Some [r]) = (fs', Ok true) ->
  (exists line',
     fs' !! path = Some (File [line'])
     /\ line' !! "band_type" = Some "LST"
     /\ (forall k, k ∈ field_list -> k <> "band_type" -> line' !! k = Some "")
     /\ (forall k, k ∉ field_list -> line' !! k = line !! k))
  /\ (forall md row k, transfer_all md row !! k = merged md k <$> row !! k).
Proof.
  intros Hfile Hid Hname Hmd H. split; [|apply transfer_all_lookup].
  apply enhance_success_inv in H
    as (lines0 & rows & first & lines' & Hfile0 & _ & _ & Hpopulate & Hfirst & Hwrite & ->).
  rewrite Hfile in Hfile0. injection Hfile0 as <-.
  set (row1 := initialize_row (load_row line)) in *.
  assert (row1 !! "id_no" = Some (PStr "ABC")) as Hid1.
  { subst row1. rewrite initialize_row_lookup, id_no_not_initialized.
    unfold load_row. by rewrite lookup_fmap, Hid. }
  set (row2 := transfer_all (granule_metadata r) (<["band_type" := PStr (file_type r)]> row1)).
  assert (rows = [row2]) as ->.
  { cbn [populate _initialize_metadata_fields fmap list_fmap] in Hpopulate.
    fold row1 in Hpopulate.
    unfold _populate_from_downloaded_files in Hpopulate.
    cbn [foldM mapM] in Hpopulate.
    unfold update_if_matching at 1, getitem in Hpopulate.
    rewrite Hid1 in Hpopulate. cbn [mbind result_bind py_in_str] in Hpopulate.
    rewrite Hname, update_row_plain in Hpopulate;
      [| rewrite Hmd; vm_compute; reflexivity ..].
    cbn [mbind result_bind] in Hpopulate.
    apply Ok_inj in Hpopulate. by subst rows. }
  injection Hfirst as <-.
  apply Forall2_cons_inv_l in Hwrite as (line' & rest & Hline' & Hrest & ->).
  apply Forall2_nil_inv_l in Hrest as ->.
  exists line'. split; [by rewrite lookup_insert_eq|].
  assert (forall k, row2 !! k =
            if bool_decide (k = "band_type") then Some (PStr "LST")
            else if bool_decide (k ∈ field_list) then Some (PStr "")
            else PStr <$> line !! k) as Hrow2.
  { intros k. subst row2 row1. rewrite transfer_all_lookup, Hmd. unfold merged.
    case_bool_decide as Hk.
    - subst k. by rewrite lookup_insert_eq, lookup_singleton_eq.
    - rewrite lookup_insert_ne, lookup_singleton_ne, initialize_row_lookup by done.
      case_bool_decide; [done|]. unfold load_row. rewrite lookup_fmap.
      by destruct (line !! k). }
  assert (forall k, line' !! k = csv_str py_repr <$> row2 !! k) as Hline.
  { intros k. destruct (dict_to_line_lookup _ _ _ k Hline') as [_ ->].
    case_bool_decide as Hk.
    - apply elem_of_dom in Hk as [v ->]. done.
    - apply not_elem_of_dom in Hk. by rewrite Hk. }
  split; [|split].
  - by rewrite Hline, Hrow2.
  - intros k Hk Hne. rewrite Hline, Hrow2.
    rewrite bool_decide_eq_false_2, bool_decide_eq_true_2 by done. done.
  - intros k Hk. rewrite Hline, Hrow2.
    rewrite !bool_decide_eq_false_2; [by destruct (line !! k)|done|].
    intros ->. apply Hk. in_list.
Qed.

(** C3. [enhance_metadata_csv] always returns a boolean. Without the table
    file it returns False and writes nothing. Every exception of the body
    gives False; an exception while loading or populating leaves the file
    system as it was. A write that fails gives False, and True is returned
    only when no read or write failed and the rows were written to the file. *)
Theorem enhance_reports_failure fs fl path folders downloaded :
  let run := enhance_metadata_csv iso_to_millis py_repr fs fl path folders downloaded in
  (exists b, run.2 = Ok b)
  /\ (fs !! path = None -> run = (fs, Ok false))
  /\ (forall e,
        (enhance_body iso_to_millis py_repr fs fl path folders downloaded).2 = Raise e ->
        run.2 = Ok false)
  /\ (forall e, read_rows fs fl path = Raise e -> run = (fs, Ok false))
  /\ (forall rows e,
        read_rows fs fl path = Ok rows ->
        populate iso_to_millis py_repr fs (_initialize_metadata_fields rows)
          folders downloaded = Raise e ->
        run = (fs, Ok false))
  /\ (write_fails fl <> NoWriteFault -> run.2 = Ok false)
  /\ (run.2 = Ok true ->
        read_fails fl = false /\ write_fails fl = NoWriteFault
        /\ exists lines', run.1 = <[path := File lines']> fs).
Proof.
  intros run.
  assert (exists b, run.2 = Ok b) as Hbool.
  { subst run. unfold enhance_metadata_csv.
    destruct (negb _); [by eexists|].
    destruct (enhance_body _ _ _ _ _ _ _) as [fs' [[]|e]]; by eexists. }
  assert (run.2 = Ok true ->
            read_fails fl = false /\ write_fails fl = NoWriteFault
            /\ exists lines', run.1 = <[path := File lines']> fs) as Htrue.
  { intros Hrun. destruct run as [fs' r] eqn:Erun. simpl in Hrun. subst r.
    apply enhance_success_inv in Erun
      as (lines0 & rows & first & lines' & _ & Hread & Hwrite & _ & _ & _ & ->).
    eauto. }
  split; [done|]. split; [|split; [|split; [|split; [|split; [|done]]]]].
  - intros Hnone. subst run. unfold enhance_metadata_csv, os_path_exists.
    rewrite Hnone. rewrite bool_decide_eq_false_2; [done|]. by intros [? ?].
  - intros e He. subst run. unfold enhance_metadata_csv.
    destruct (negb _); [done|].
    destruct (enhance_body _ _ _ _ _ _ _) as [fs' [[]|e']]; done.
  - intros e He. subst run. unfold enhance_metadata_csv, enhance_body.
    destruct (negb _); [done|]. by rewrite He.
  - intros rows e Hrows He. subst run. unfold enhance_metadata_csv, enhance_body.
    destruct (negb _); [done|]. by rewrite Hrows, He.
  - intros Hfault. destruct Hbool as [[] Hb]; [|done].
    by apply Htrue in Hb as (_ & ? & _).
Qed.

(** ** The schema of the extractor's output *)

Lemma spatial_some umm m k :
  _extract_spatial_metadata umm = Ok m ->
  k ∈ ["north_lat"; "south_lat"; "east_lon"; "west_lon"] ->
  is_Some (m !! k).
Proof.
  intros H Hk. unfold _extract_spatial_metadata in H. inv_binds H.
  repeat (apply elem_of_cons in Hk as [->|Hk]); [..|by apply elem_of_nil in Hk];
    by simplify_map_eq.
Qed.

Lemma platform_some umm m k :
  _extract_platform_metadata umm = Ok m ->
  k ∈ ["platform_short_name"; "sensor"] ->
  is_Some (m !! k).
Proof.
  intros H Hk. unfold _extract_platform_metadata in H.
  repeat (apply elem_of_cons in Hk as [->|Hk]); [..|by apply elem_of_nil in Hk];
    inv_all H; simplify_map_eq; by eexists.
Qed.

Lemma orbit_some umm m k :
  _extract_orbit_metadata umm = Ok m ->
  k ∈ ["orbit_number"; "begin_orbit_number"; "end_orbit_number"] ->
  is_Some (m !! k).
Proof.
  intros H Hk. unfold _extract_orbit_metadata in H. inv_binds H.
  assert (forall m' : gmap string pyval, is_Some (m' !! k) ->
            forall k' v, is_Some (<[k' := v]> m' !! k)) as Hins.
  { intros m' Hm' k' v. rewrite lookup_insert_is_Some. destruct (decide (k' = k)); auto. }
  assert (is_Some (a0 !! k)) as Ha0.
  { inv_all E0;
      repeat (apply elem_of_cons in Hk as [->|Hk]); try (by apply elem_of_nil in Hk);
      simplify_map_eq; by eexists. }
  inv_all H; try done; by apply Hins.
Qed.

Ltac part_some :=
  first [ eapply spatial_some; [eassumption | in_list]
        | eapply platform_some; [eassumption | in_list]
        | eapply orbit_some; [eassumption | in_list] ].

(** Shows that a literal key is present, descending through the layers. *)
Ltac present_in_layers :=
  unfold dict_update;
  repeat first
    [ rewrite lookup_insert_eq; by eexists
    | rewrite lookup_insert_ne by done
    | apply lookup_union_is_Some; first [ left; part_some | right ] ].

(** Every field of [always_fields] is in the output, whatever the granule. *)
Lemma extract_always_fields g md k :
  extract_granule_metadata iso_to_millis g = Ok md ->
  k ∈ always_fields ->
  is_Some (md !! k).
Proof.
  intros H Hk. unfold extract_granule_metadata, copy_field in H.
  inv_binds H.
  match goal with E : (if py_truthy _ then _ else _) = Ok _ |- _ => inv_all E end.
  all: match goal with
       | |- context [if py_truthy ?b then _ else _] => destruct (py_truthy b)
       end.
  all: unfold always_fields in Hk;
    repeat (apply elem_of_cons in Hk as [->|Hk]); try (by apply elem_of_nil in Hk);
    present_in_layers.
Qed.

(** A key outside a list [l] is outside every literal sublist of [l]. *)
Ltac unknown_key Hk :=
  let Hin := fresh "Hin" in
  apply bool_decide_eq_false_2; intros Hin; apply Hk;
  vm_compute in Hin;
  repeat (apply elem_of_cons in Hin as [->|Hin]);
  try (by apply elem_of_nil in Hin); in_list.

(** Every other key of the output is an optional field or belongs to one of
    the two families of dynamic keys. *)
Lemma extract_only_fields g md k :
  extract_granule_metadata iso_to_millis g = Ok md ->
  is_Some (md !! k) ->
  k ∈ always_fields ∨ k ∈ optional_fields
  ∨ String.prefix "provider_date_" k = true ∨ String.prefix "attr_" k = true.
Proof.
  intros H Hsome.
  destruct (decide (k ∈ always_fields)) as [|Halways]; [by left|].
  destruct (decide (k ∈ optional_fields)) as [|Hoptional]; [by right; left|].
  destruct (String.prefix "provider_date_" k) eqn:Hdates; [by right; right; left|].
  destruct (String.prefix "attr_" k) eqn:Hattrs; [by right; right; right|].
  assert (md !! k = None) as Hnone; [|rewrite Hnone in Hsome; by destruct Hsome].
  clear Hsome.
  assert (k ∉ (always_fields ++ optional_fields)%list) as Hk.
  { intros [?|?]%elem_of_app; done. }
  clear Halways Hoptional.
  unfold extract_granule_metadata, copy_field in H.
  inv_binds H.
  match goal with E : (if py_truthy _ then _ else _) = Ok _ |- _ => inv_all E end.
  all: match goal with
       | |- context [if py_truthy ?b then _ else _] => destruct (py_truthy b)
       end.
  all: unfold dict_update;
    repeat first
      [ rewrite lookup_insert_ne by (intros <-; apply Hk; in_list)
      | rewrite lookup_union_r by
          first [ eapply additional_attributes_none; [eassumption | exact Hattrs]
                | eapply provider_dates_none; [eassumption | exact Hdates]
                | eapply spatial_none; [eassumption | unknown_key Hk]
                | eapply platform_none; [eassumption | unknown_key Hk]
                | eapply orbit_none; [eassumption | unknown_key Hk]
                | eapply filename_metadata_none; [eassumption | unknown_key Hk] ] ];
    apply lookup_empty.
Qed.

(** X1. Whenever the extractor returns, its output has every field of
    [always_fields], and every other key of the output is time_start, scene or
    orbit_scene, or starts with provider_date_ or attr_. *)
Theorem extractor_schema g md :
  extract_granule_metadata iso_to_millis g = Ok md ->
  (forall k, k ∈ always_fields -> is_Some (md !! k))
  /\ (forall k, is_Some (md !! k) ->
        k ∈ always_fields ∨ k ∈ optional_fields
        ∨ String.prefix "provider_date_" k = true ∨ String.prefix "attr_" k = true).
Proof.
  intros H. split; intros k; [apply (extract_always_fields g md k H)
                             | apply (extract_only_fields g md k H)].
Qed.

(** The extractor produces no value for the columns that only the reconciler
    fills, nor for the join key. *)
Lemma extract_silent g md k :
  extract_granule_metadata iso_to_millis g = Ok md ->
  k ∈ ["id_no"; "system:time_start"; "system:time_end"; "EPSG"; "band_type"] ->
  md !! k = None.
Proof.
  intros H Hk. apply eq_None_not_Some. intros Hsome.
  apply (extract_only_fields g md k H) in Hsome.
  repeat (apply elem_of_cons in Hk as [->|Hk]); try (by apply elem_of_nil in Hk).
  all: destruct Hsome as [Hin|[Hin|[Hp|Hp]]];
    try (apply (bool_decide_pack _) in Hin; vm_compute in Hin; destruct Hin);
    vm_compute in Hp; discriminate Hp.
Qed.

(** X2. A row updated from a record whose metadata the extractor produced
    keeps its id_no, has the record's file type tag as band_type, and, when the
    metadata's time_start is truthy, has that value in both system time
    columns. *)
Theorem update_from_extracted_metadata g md row ft row' :
  extract_granule_metadata iso_to_millis g = Ok md ->
  _update_row_with_metadata iso_to_millis py_repr row md ft = Ok row' ->
  row' !! "id_no" = row !! "id_no"
  /\ row' !! "band_type" = Some (PStr ft)
  /\ (forall ts, md !! "time_start" = Some ts -> py_truthy ts = true ->
        row' !! "system:time_start" = Some ts /\ row' !! "system:time_end" = Some ts).
Proof.
  intros Hmd H.
  assert (forall k, k ∈ ["id_no"; "system:time_start"; "system:time_end"; "EPSG"; "band_type"] ->
            silent_on k md) as Hsilent.
  { intros k Hk. left. by apply (extract_silent g). }
  split; [|split].
  - rewrite (update_row_other row md ft row' "id_no" H).
    + destruct (row !! "id_no"); [|done]. simpl.
      rewrite merged_silent; [done|]. apply Hsilent. in_list.
    + intros Hin. apply (bool_decide_pack _) in Hin. vm_compute in Hin. destruct Hin.
  - rewrite (update_row_band_type _ _ _ _ H).
    rewrite merged_silent; [done|]. apply Hsilent. in_list.
  - intros ts Hts Htruthy.
    assert (set_system_time iso_to_millis row md =
              Ok (<["system:time_end" := ts]> (<["system:time_start" := ts]> row))) as Hset.
    { unfold set_system_time, truthy_at, getitem. by rewrite Hts, Htruthy. }
    apply update_row_inv in H as (timed & tiled & Htime & Htiled & ->).
    rewrite Hset in Htime. apply Ok_inj in Htime as <-.
    rewrite !transfer_all_lookup.
    assert (tiled !! "system:time_start" = Some ts
            /\ tiled !! "system:time_end" = Some ts) as [-> ->].
    { destruct Htiled as [-> | [epsg ->]]; by simplify_map_eq. }
    cbn [fmap option_fmap option_map].
    rewrite !merged_silent; [done| |]; apply Hsilent; in_list.
Qed.

(** X3. When the metadata of every download record is an output of the
    extractor, a run that returns True has written unchanged, at its position,
    every loaded value of a column that is outside the vocabulary, is none of
    the extractor's fields and does not start with provider_date_ or attr_.
    The column id_no is one of them. *)
Theorem extracted_records_keep_columns fs fl path folders downloaded lines fs' k :
  fs !! path = Some (File lines) ->
  (forall r, r ∈ default [] downloaded ->
     exists g, extract_granule_metadata iso_to_millis g = Ok (granule_metadata r)) ->
  k = "id_no"
  \/ ((k ∉ field_list) /\ (k ∉ always_fields) /\ (k ∉ optional_fields)
      /\ String.prefix "provider_date_" k = false /\ String.prefix "attr_" k = false) ->
  enhance_metadata_csv iso_to_millis py_repr fs fl path folders downloaded = (fs', Ok true) ->
  exists lines',
    fs' !! path = Some (File lines')
    /\ Forall2 (fun line line' : gmap string string =>
                  forall v, line !! k = Some v -> line' !! k = Some v)
               lines lines'.
Proof.
  intros Hfile Hextracted Hk H.
  assert ((k ∉ field_list) /\ (k ∉ always_fields) /\ (k ∉ optional_fields)
          /\ String.prefix "provider_date_" k = false /\ String.prefix "attr_" k = false)
    as (Hvocab & Halways & Hoptional & Hprovider & Hattr).
  { destruct Hk as [-> | Hk]; [|done].
    repeat split; try reflexivity;
      intros Hin; apply (bool_decide_pack _) in Hin; vm_compute in Hin; destruct Hin. }
  clear Hk.
  assert (forall r, r ∈ default [] downloaded -> silent_on k (granule_metadata r)) as Hsilent.
  { intros r Hr. destruct (Hextracted r Hr) as [g Hg]. left.
    apply eq_None_not_Some. intros Hsome.
    destruct (extract_only_fields g _ k Hg Hsome) as [?|[?|[Hp|Hp]]]; try done;
      congruence. }
  apply enhance_success_inv in H
    as (lines0 & rows & first & lines' & Hfile0 & _ & _ & Hpopulate & Hfirst & Hwrite & ->).
  rewrite Hfile in Hfile0. apply (inj Some) in Hfile0. injection Hfile0 as <-.
  exists lines'. split; [by rewrite lookup_insert_eq|].
  apply (populate_related
           (fun row row' => row' !! k = row !! k)) in Hpopulate.
  - apply Forall2_same_length_lookup. split.
    { apply Forall2_length in Hpopulate, Hwrite. rewrite <- Hwrite, <- Hpopulate.
      unfold _initialize_metadata_fields. by rewrite !length_fmap. }
    intros i line line' Hline Hline' v Hv.
    destruct (Forall2_lookup_r _ _ _ _ _ Hwrite Hline') as (row & Hrow & Hto_line).
    destruct (Forall2_lookup_r _ _ _ _ _ Hpopulate Hrow) as (row0 & Hrow0 & Hsame).
    apply initial_row_lookup in Hrow0 as (line0 & Hline0 & ->).
    rewrite Hline in Hline0. injection Hline0 as <-.
    rewrite initialize_row_lookup, bool_decide_eq_false_2 in Hsame by done.
    unfold load_row in Hsame. rewrite lookup_fmap, Hv in Hsame. simpl in Hsame.
    destruct (dict_to_line_lookup (dom first) row line' k Hto_line) as [Hdom ->].
    rewrite bool_decide_eq_true_2, Hsame; [done|].
    apply Hdom, elem_of_dom. eauto.
  - intros r row row' Hr Hupdate.
    apply (update_if_matching_other r row row' k Hupdate); [|by apply Hsilent].
    intros Hin. apply Hvocab.
    repeat (apply elem_of_cons in Hin as [->|Hin]); try (by apply elem_of_nil in Hin);
      in_list.
  - intros folder_type name row row' Hupdate.
    apply (update_from_folder_other folder_type name row row' k Hupdate).
    intros Hin. apply Hvocab.
    repeat (apply elem_of_cons in Hin as [->|Hin]); try (by apply elem_of_nil in Hin);
      in_list.
Qed.

(** X4. In every output of the extractor, time_start is present exactly when
    beginning_date_time is truthy, and is then the conversion of that value. *)
Theorem time_start_field g md :
  extract_granule_metadata iso_to_millis g = Ok md ->
  exists beginning,
    md !! "beginning_date_time" = Some beginning
    /\ md !! "time_start" =
         if py_truthy beginning
         then Some (_convert_to_timestamp iso_to_millis beginning)
         else None.
Proof.
  intros H. unfold extract_granule_metadata, copy_field in H.
  inv_binds H.
  match goal with E : dict_get _ "BeginningDateTime" _ = Ok ?b |- _ => exists b end.
  match goal with E : (if py_truthy _ then _ else _) = Ok _ |- _ => inv_all E end.
  all: match goal with
       | |- context [if py_truthy ?b then _ else _] => destruct (py_truthy b)
       end.
  all: split; lookup_layers; rewrite ?lookup_insert_eq; try reflexivity.
  all: try (rewrite lookup_union_r by part_none); lookup_layers;
    rewrite ?lookup_insert_eq, ?lookup_empty; reflexivity.
Qed.

(** ** Edge cases of the extractor's parts *)

(** X5. The spatial part returns four empty strings when the record has no
    BoundingRectangles key at the end of the path SpatialExtent /
    HorizontalSpatialDomain / Geometry (any dictionary on the path may be
    missing). When the key is present with an empty list, the part raises
    IndexError, and the whole extractor returns nothing for such a granule. *)
Theorem spatial_edge_cases (umm fields : gmap string pyval) :
  geometry_of umm = Some fields ->
  (fields !! "BoundingRectangles" = None ->
     _extract_spatial_metadata (PDict umm)
       = Ok (<["west_lon" := PStr ""]> (<["east_lon" := PStr ""]>
             (<["south_lat" := PStr ""]> (<["north_lat" := PStr ""]> ∅)))))
  /\ (fields !! "BoundingRectangles" = Some (PList []) ->
        _extract_spatial_metadata (PDict umm) = Raise IndexError
        /\ forall g md, g_fields g !! "umm" = Some (PDict umm) ->
             extract_granule_metadata iso_to_millis g <> Ok md).
Proof.
  intros Hg.
  assert ((dict_get (PDict umm) "SpatialExtent" (PDict ∅) ≫= fun se =>
           dict_get se "HorizontalSpatialDomain" (PDict ∅) ≫= fun hsd =>
           dict_get hsd "Geometry" (PDict ∅)) = Ok (PDict fields)) as Hpath.
  { assert (forall (m : gmap string pyval) k d,
              m !! k = None -> dict_get (PDict m) k d = Ok d) as Hmissing.
    { intros m k d Hm. unfold dict_get. by rewrite Hm. }
    unfold geometry_of in Hg.
    destruct (umm !! "SpatialExtent") as [extent|] eqn:Hse.
    2: { injection Hg as <-. rewrite (Hmissing umm) by done. cbn [mbind result_bind].
         rewrite (Hmissing ∅) by apply lookup_empty. cbn [mbind result_bind].
         by rewrite (Hmissing ∅) by apply lookup_empty. }
    destruct extent as [| | | | | |extent]; try discriminate Hg.
    rewrite (dict_get_Some _ _ _ _ Hse). cbn [mbind result_bind].
    destruct (extent !! "HorizontalSpatialDomain") as [domain|] eqn:Hhsd.
    2: { injection Hg as <-. rewrite (Hmissing extent) by done. cbn [mbind result_bind].
         by rewrite (Hmissing ∅) by apply lookup_empty. }
    destruct domain as [| | | | | |domain]; try discriminate Hg.
    rewrite (dict_get_Some _ _ _ _ Hhsd). cbn [mbind result_bind].
    destruct (domain !! "Geometry") as [geometry|] eqn:Hgeo.
    2: { injection Hg as <-. by rewrite (Hmissing domain). }
    destruct geometry; try discriminate Hg. injection Hg as <-.
    by rewrite (dict_get_Some _ _ _ _ Hgeo). }
  assert (_extract_spatial_metadata (PDict umm) =
            (has ← py_contains_str "BoundingRectangles" (PDict fields);
             bounding_rect ←
               (if has : bool
                then rects ← dict_get (PDict fields) "BoundingRectangles" (PList [PDict ∅]);
                     py_index 0 rects
                else Ok (PDict ∅));
             north ← dict_get bounding_rect "NorthBoundingCoordinate" (PStr "");
             south ← dict_get bounding_rect "SouthBoundingCoordinate" (PStr "");
             east ← dict_get bounding_rect "EastBoundingCoordinate" (PStr "");
             west ← dict_get bounding_rect "WestBoundingCoordinate" (PStr "");
             Ok (<["west_lon" := west]> (<["east_lon" := east]>
                 (<["south_lat" := south]> (<["north_lat" := north]> ∅)))))) as Hrest.
  { unfold _extract_spatial_metadata.
    destruct (dict_get (PDict umm) "SpatialExtent" (PDict ∅)) as [se|]; [|done].
    cbn [mbind result_bind] in *.
    destruct (dict_get se "HorizontalSpatialDomain" (PDict ∅)) as [hsd|]; [|done].
    cbn [mbind result_bind] in *. by rewrite Hpath. }
  split.
  - intros Hnone. rewrite Hrest.
    unfold py_contains_str. rewrite Hnone.
    rewrite bool_decide_eq_false_2 by (by intros [? ?]).
    cbn [mbind result_bind dict_get]. by rewrite !lookup_empty.
  - intros Hempty.
    assert (_extract_spatial_metadata (PDict umm) = Raise IndexError) as Hraise.
    { rewrite Hrest. rewrite (contains_Some _ _ _ Hempty).
      cbn [mbind result_bind]. by rewrite (dict_get_Some _ _ _ _ Hempty). }
    split; [done|]. intros g md Humm H.
    unfold extract_granule_metadata, copy_field in H. inv_binds H.
    rewrite Humm in *. simpl default in *.
    match goal with E : _extract_spatial_metadata _ = Ok _ |- _ =>
      rewrite Hraise in E; discriminate E end.
Qed.

Lemma parameter_name_step_dict (names : list pyval) (param : gmap string pyval) :
  parameter_name_step names (PDict param)
    = Ok (names ++ option_list (param !! "ParameterName"))%list.
Proof.
  unfold parameter_name_step, py_contains_str, py_getitem_str, getitem.
  destruct (param !! "ParameterName") as [name|] eqn:Hname.
  - by rewrite bool_decide_eq_true_2 by eauto.
  - rewrite bool_decide_eq_false_2 by (by intros [? ?]).
    cbn [mbind result_bind option_list]. by rewrite app_nil_r.
Qed.

(** The loop over the measured parameters collects the ParameterName of every
    dictionary that has one, in order. *)
Lemma parameter_names_collected (params : list (gmap string pyval)) (names : list pyval) :
  foldM parameter_name_step (PDict <$> params) names
    = Ok (names ++ omap (fun param : gmap string pyval => param !! "ParameterName") params)%list.
Proof.
  revert names. induction params as [|param params IH]; intros names;
    cbn [fmap list_fmap foldM omap list_omap].
  - by rewrite app_nil_r.
  - fold (fmap (M:=list) PDict params).
    rewrite parameter_name_step_dict. cbn [mbind result_bind]. rewrite IH.
    rewrite <- app_assoc. by destruct (param !! "ParameterName").
Qed.

Lemma py_join_strings sep (strs : list string) :
  py_join sep (PStr <$> strs) = Ok (str_join sep strs).
Proof.
  unfold py_join.
  match goal with
  | |- mbind _ (mapM ?f _) = _ => assert (mapM f (PStr <$> strs) = Ok strs) as ->; [|done]
  end.
  induction strs as [|s strs IH]; cbn [fmap list_fmap mapM]; [done|].
  cbn [mbind result_bind]. fold (fmap (M:=list) PStr strs). by rewrite IH.
Qed.

Lemma py_join_not_string sep (l : list pyval) v :
  v ∈ l -> (forall s, v <> PStr s) -> exists e, py_join sep l = Raise e.
Proof.
  intros Hin Hv. unfold py_join.
  match goal with
  | |- exists e, mbind _ (mapM ?f _) = _ =>
      assert (exists e, mapM f l = Raise e) as [e ->]; [|by exists e]
  end.
  induction l as [|x l IH]; [by apply elem_of_nil in Hin|].
  cbn [mapM]. apply elem_of_cons in Hin as [<-|Hin].
  - destruct v; try (by eexists). by destruct (Hv s).
  - destruct x; try (by eexists). cbn [mbind result_bind].
    destruct (IH Hin) as [e ->]. by exists e.
Qed.

(** X6. Without MeasuredParameters, or with an empty list, parameter_names is
    the empty string. For a non-empty list of dictionaries it is the
    ParameterName values of the dictionaries that have one, in order, joined
    by a comma and a space, provided these are all strings; a ParameterName
    that is not a string makes the part raise. *)
Theorem parameter_names_joined (umm : gmap string pyval) :
  (umm !! "MeasuredParameters" = None \/ umm !! "MeasuredParameters" = Some (PList []) ->
   _extract_parameter_names (PDict umm) = Ok (PStr ""))
  /\ (forall param params,
        umm !! "MeasuredParameters" = Some (PList (PDict <$> param :: params)) ->
        let found := omap (fun p : gmap string pyval => p !! "ParameterName") (param :: params) in
        (forall names, found = PStr <$> names ->
           _extract_parameter_names (PDict umm) = Ok (PStr (str_join ", " names)))
        /\ (forall v, v ∈ found -> (forall s, v <> PStr s) ->
              exists e, _extract_parameter_names (PDict umm) = Raise e)).
Proof.
  split.
  - intros [H|H]; unfold _extract_parameter_names, dict_get; by rewrite H.
  - intros param params H found.
    assert (_extract_parameter_names (PDict umm) =
              (joined ← py_join ", " found; Ok (PStr joined))) as Hrun.
    { unfold _extract_parameter_names. rewrite (dict_get_Some _ _ _ _ H).
      cbn [mbind result_bind]. rewrite fmap_cons. cbn [py_truthy py_iter mbind result_bind].
      rewrite <- fmap_cons. by rewrite parameter_names_collected. }
    split.
    + intros names Hnames. by rewrite Hrun, Hnames, py_join_strings.
    + intros v Hv Hnot. destruct (py_join_not_string ", " found v Hv Hnot) as [e He].
      exists e. by rewrite Hrun, He.
Qed.

(** X7. In every result of the orbit part, the three orbit fields are present,
    and whenever begin_orbit_number is truthy, orbit_number is that same
    value. *)
Theorem orbit_fields_consistent umm md :
  _extract_orbit_metadata umm = Ok md ->
  exists number begin_orbit end_orbit,
    md !! "orbit_number" = Some number
    /\ md !! "begin_orbit_number" = Some begin_orbit
    /\ md !! "end_orbit_number" = Some end_orbit
    /\ (py_truthy begin_orbit = true -> number = begin_orbit).
Proof.
  intros H. unfold _extract_orbit_metadata in H. inv_binds H.
  match goal with
  | E : (if _ then _ else _) = Ok ?m, H : (if _ then _ else _) = Ok md |- _ =>
      rename E into Hfirst; rename m into mid
  end.
  assert (exists b e, mid !! "orbit_number" = Some b
                      /\ mid !! "begin_orbit_number" = Some b
                      /\ mid !! "end_orbit_number" = Some e) as (b & e & Hn & Hb & He).
  { inv_all Hfirst; eexists _, _; by simplify_map_eq. }
  clear Hfirst.
  assert (md = mid \/ (py_truthy b = false /\ exists x, md = <["orbit_number" := x]> mid))
    as [-> | (Hfalsy & x & ->)].
  { match type of H with (if ?c then _ else _) = _ => destruct c end;
      [|injection H as <-; by left].
    unfold getitem in H. rewrite Hn in H. cbn [mbind result_bind] in H.
    destruct (py_truthy b) eqn:Htruthy; cbn [negb] in H; [injection H as <-; by left|].
    inv_all H; try (by left). right. eauto. }
  - by exists b, b, e.
  - exists x, b, e. rewrite lookup_insert_eq, !lookup_insert_ne by done.
    repeat split; try done. congruence.
Qed.

(** ** The reconciler: columns, failures, repeated runs *)

#[local] Instance extends_by_vocabulary_preorder : PreOrder extends_by_vocabulary.
Proof.
  split.
  - intros row k. auto.
  - intros x y z Hxy Hyz k. destruct (Hxy k) as [H1 H2], (Hyz k) as [H3 H4].
    split; [auto|]. intros Hz. destruct (H4 Hz); auto.
Qed.

Lemma insert_extends (row : gmap string pyval) k v :
  k ∈ field_list -> extends_by_vocabulary row (<[k := v]> row).
Proof.
  intros Hk k'. rewrite lookup_insert_is_Some. split; [|intros [<-|[_ ?]]; auto].
  intros Hsome. destruct (decide (k = k')); auto.
Qed.

Lemma transfer_all_extends md row : extends_by_vocabulary row (transfer_all md row).
Proof. intros k. rewrite transfer_all_lookup, fmap_is_Some. auto. Qed.

(** The rows that the system time block can return. *)
Lemma set_system_time_shape row md row' :
  set_system_time iso_to_millis row md = Ok row' ->
  row' = row
  \/ (exists v, row' = <["system:time_start" := v]> row)
  \/ (exists v w, row' = <["system:time_end" := w]> (<["system:time_start" := v]> row)).
Proof.
  intros H. unfold set_system_time in H.
  destruct (truthy_at md "time_start") eqn:Hts.
  { apply getitem_truthy in Hts as (v & _ & _ & Hv). rewrite Hv in H.
    cbn [mbind result_bind] in H. apply Ok_inj in H as <-. eauto. }
  destruct (truthy_at md "beginning_date_time") eqn:Hb; [|apply Ok_inj in H as <-; auto].
  apply getitem_truthy in Hb as (v & _ & _ & Hv). rewrite Hv in H.
  cbn [mbind result_bind] in H.
  destruct (parse_millis iso_to_millis v); [|apply Ok_inj in H as <-; auto].
  destruct (truthy_at md "ending_date_time") eqn:Hend.
  - apply getitem_truthy in Hend as (w & _ & _ & Hw). rewrite Hw in H.
    cbn [mbind result_bind] in H.
    destruct (parse_millis iso_to_millis w); apply Ok_inj in H as <-; eauto.
  - unfold getitem in H. rewrite lookup_insert_eq in H. cbn [mbind result_bind] in H.
    apply Ok_inj in H as <-. eauto.
Qed.

Lemma update_row_extends row md ft row' :
  _update_row_with_metadata iso_to_millis py_repr row md ft = Ok row' ->
  extends_by_vocabulary row row'.
Proof.
  intros H. apply update_row_inv in H as (timed & tiled & Htime & Htiled & ->).
  transitivity timed.
  { apply set_system_time_shape in Htime as [-> | [[v ->] | (v & w & ->)]].
    - reflexivity.
    - apply insert_extends. in_list.
    - etransitivity; apply insert_extends; in_list. }
  transitivity tiled; [|apply transfer_all_extends].
  destruct Htiled as [-> | [epsg ->]].
  - apply insert_extends. in_list.
  - etransitivity; apply insert_extends; in_list.
Qed.

Lemma update_if_matching_extends r row row' :
  update_if_matching iso_to_millis py_repr r row = Ok row' ->
  extends_by_vocabulary row row'.
Proof.
  intros H. unfold update_if_matching in H. inv_binds H.
  match type of H with (if ?c then _ else _) = _ => destruct c end.
  - by apply update_row_extends in H.
  - apply Ok_inj in H as <-. reflexivity.
Qed.

Lemma update_from_folder_extends folder_type name row row' :
  update_from_folder py_repr folder_type name row = Ok row' ->
  extends_by_vocabulary row row'.
Proof.
  intros H. unfold update_from_folder in H. inv_binds H.
  match type of H with (if ?c then _ else _) = _ => destruct c end;
    [|apply Ok_inj in H as <-; reflexivity].
  destruct (re_search _ name); inv_all H;
    repeat (etransitivity; [|apply insert_extends; in_list]); reflexivity.
Qed.

Lemma initialized_columns line k :
  is_Some (initialize_row (load_row line) !! k) <-> is_Some (line !! k) \/ k ∈ field_list.
Proof.
  rewrite initialize_row_lookup. unfold load_row. rewrite lookup_fmap.
  case_bool_decide; [split; [by right | by eexists]|].
  rewrite fmap_is_Some. split; [by left | by intros [?|?]].
Qed.

Lemma dict_to_line_dom fieldnames row line :
  dict_to_line py_repr fieldnames row = Ok line -> dom line = fieldnames.
Proof.
  intros H. apply set_eq. intros k. rewrite elem_of_dom.
  destruct (dict_to_line_lookup fieldnames row line k H) as [_ ->].
  case_bool_decide; split; try done; by intros [? ?].
Qed.

(** X8. A run that returns True has written every row with the same columns:
    those of the first loaded row together with the vocabulary of
    [field_list], and no others. *)
Theorem written_columns fs fl path folders downloaded lines fs' :
  fs !! path = Some (File lines) ->
  enhance_metadata_csv iso_to_millis py_repr fs fl path folders downloaded = (fs', Ok true) ->
  exists first lines',
    head lines = Some first
    /\ fs' !! path = Some (File lines')
    /\ Forall (fun line' : gmap string string =>
                 dom line' = dom first ∪ list_to_set field_list) lines'.
Proof.
  intros Hfile H.
  apply enhance_success_inv in H
    as (lines0 & rows & first_row & lines' & Hfile0 & _ & _ & Hpopulate & Hfirst & Hwrite & ->).
  rewrite Hfile in Hfile0. apply (inj Some) in Hfile0. injection Hfile0 as <-.
  apply (populate_related extends_by_vocabulary) in Hpopulate;
    eauto using update_if_matching_extends, update_from_folder_extends.
  destruct rows as [|row rows]; [done|]. injection Hfirst as ->.
  unfold _initialize_metadata_fields in Hpopulate.
  destruct lines as [|first lines]; [by apply Forall2_nil_inv_l in Hpopulate|].
  cbn [fmap list_fmap] in Hpopulate.
  apply Forall2_cons_1 in Hpopulate as [Hrow _].
  exists first, lines'. split; [done|]. split; [by rewrite lookup_insert_eq|].
  assert (dom first_row = dom first ∪ list_to_set field_list) as Hdom.
  { apply set_eq. intros k.
    rewrite elem_of_union, !elem_of_dom, elem_of_list_to_set, <- initialized_columns.
    destruct (Hrow k) as [H1 H2]. split; [|done].
    intros Hk. destruct (H2 Hk) as [?|Hvocab]; [done|].
    apply initialized_columns. by right. }
  rewrite <- Hdom. clear -Hwrite.
  induction Hwrite as [|row line' rows' lines' Hline _ IH]; constructor; [|done].
  by apply dict_to_line_dom in Hline.
Qed.

(** X9. For a table without rows the run returns False, whatever the download
    records and the folders are, and the table still has no rows. *)
Theorem empty_table_fails fs fl path folders downloaded :
  fs !! path = Some (File []) ->
  let run := enhance_metadata_csv iso_to_millis py_repr fs fl path folders downloaded in
  run.2 = Ok false /\ run.1 !! path = Some (File []).
Proof.
  intros Hfile run. subst run.
  unfold enhance_metadata_csv, os_path_exists, enhance_body, read_rows.
  rewrite Hfile. rewrite bool_decide_eq_true_2 by eauto. cbn [negb].
  destruct (read_fails fl); [done|].
  cbn [fmap list_fmap _initialize_metadata_fields].
  destruct (populate _ _ _ _ _ _) as [rows|] eqn:Hpopulate; [|done].
  apply (populate_related (fun _ _ => True)) in Hpopulate; [|done..].
  apply Forall2_nil_inv_l in Hpopulate as ->.
  unfold write_rows. destruct (write_fails fl); cbn [fst snd];
    rewrite ?lookup_insert_eq; done.
Qed.

(** X10. When some row of the table has no id_no column and there is at least
    one download record, the run returns False and leaves the file system as
    it was. *)
Theorem missing_id_no_fails fs fl path folders r rs lines line :
  fs !! path = Some (File lines) ->
  line ∈ lines ->
  line !! "id_no" = None ->
  enhance_metadata_csv iso_to_millis py_repr fs fl path folders (Some (r :: rs))
    = (fs, Ok false).
Proof.
  intros Hfile Hline Hid.
  assert (exists e, populate iso_to_millis py_repr fs
                      (_initialize_metadata_fields (load_row <$> lines)) folders
                      (Some (r :: rs)) = Raise e) as [e He].
  { destruct (populate iso_to_millis py_repr fs
                (_initialize_metadata_fields (load_row <$> lines)) folders (Some (r :: rs)))
      as [rows|e] eqn:Hrun; [|by eexists].
    exfalso. cbn [populate] in Hrun. unfold _populate_from_downloaded_files in Hrun.
    cbn [foldM] in Hrun. apply bind_Ok in Hrun as (rows1 & Hrows1 & _).
    apply mapM_Forall2 in Hrows1.
    assert (initialize_row (load_row line)
              ∈ _initialize_metadata_fields (load_row <$> lines)) as Hin.
    { unfold _initialize_metadata_fields. by do 2 apply list_elem_of_fmap_2. }
    apply list_elem_of_lookup in Hin as [i Hi].
    destruct (Forall2_lookup_l _ _ _ _ _ Hrows1 Hi) as (row' & _ & Hupdate).
    unfold update_if_matching, getitem in Hupdate.
    rewrite initialize_row_lookup, id_no_not_initialized in Hupdate.
    unfold load_row in Hupdate. rewrite lookup_fmap, Hid in Hupdate. done. }
  unfold enhance_metadata_csv, os_path_exists, enhance_body, read_rows.
  rewrite Hfile. rewrite bool_decide_eq_true_2 by eauto. cbn [negb].
  destruct (read_fails fl); [done|].
  by rewrite He.
Qed.

(** The folder loop is a loop over the scanned names. *)
Lemma populate_folders_scanned fs rows folders rows' :
  _populate_from_folders py_repr fs rows folders = Ok rows' ->
  foldM (fun rows '(folder_type, name) => mapM (update_from_folder py_repr folder_type name) rows)
        (scanned_names fs folders) rows = Ok rows'.
Proof.
  unfold _populate_from_folders. revert rows.
  induction folders as [|[folder_type folder_path] folders IH]; intros rows H; [done|].
  cbn [foldM] in H. apply bind_Ok in H as (rows1 & Hfolder & H).
  cbn [scanned_names]. rewrite foldM_app.
  enough (foldM (fun rows '(folder_type, name) =>
                   mapM (update_from_folder py_repr folder_type name) rows)
            match fs !! folder_path with
            | Some (Dir entries) =>
                (fun name => (folder_type, name))
                  <$> filter (fun name => str_endswith ".tif" name = true) entries
            | _ => []
            end rows = Ok rows1) as ->.
  { cbn [mbind result_bind]. by apply IH. }
  unfold os_path_exists, os_listdir in Hfolder.
  destruct (fs !! folder_path) as [[lines|entries]|] eqn:Hpath.
  - rewrite bool_decide_eq_true_2 in Hfolder by eauto. done.
  - rewrite bool_decide_eq_true_2 in Hfolder by eauto.
    cbn [mbind result_bind] in Hfolder. clear Hpath H IH.
    revert rows Hfolder. induction entries as [|name entries IHentries]; intros rows Hfolder.
    + done.
    + cbn [foldM] in Hfolder. apply bind_Ok in Hfolder as (rows2 & Hname & Hfolder).
      destruct (str_endswith ".tif" name) eqn:Htif.
      * rewrite filter_cons_True by done. rewrite fmap_cons. cbn [foldM].
        rewrite Hname. cbn [mbind result_bind]. by apply IHentries.
      * rewrite filter_cons_False by (by rewrite Htif). apply Ok_inj in Hname as <-.
        by apply IHentries.
  - rewrite bool_decide_eq_false_2 in Hfolder by (by intros [? ?]).
    by apply Ok_inj in Hfolder as <-.
Qed.

(** One name's pass over a row whose id_no is a string. *)
Lemma update_from_folder_band_type folder_type name row row' id_no :
  row !! "id_no" = Some (PStr id_no) ->
  update_from_folder py_repr folder_type name row = Ok row' ->
  row' !! "id_no" = Some (PStr id_no)
  /\ row' !! "band_type" =
       if str_in id_no name
       then Some (PStr (str_replace ".tif" "" folder_type))
       else row !! "band_type".
Proof.
  intros Hid H. split.
  - rewrite <- Hid. apply (update_from_folder_other folder_type name row row' "id_no" H).
    intros Hin. apply (bool_decide_pack _) in Hin. vm_compute in Hin. destruct Hin.
  - unfold update_from_folder, getitem in H. rewrite Hid in H.
    cbn [mbind result_bind py_in_str] in H.
    destruct (str_in id_no name); [|by apply Ok_inj in H as <-].
    destruct (re_search _ name); inv_all H;
      rewrite ?(lookup_insert_ne _ "EPSG" "band_type"),
              ?(lookup_insert_ne _ "mgrs_tile" "band_type") by done;
      by rewrite lookup_insert_eq.
Qed.

(** After the scan, the band type of a row is the one assigned for the last
    scanned name that contains the row's id_no. *)
Lemma scanned_last_match (names : list (string * string)) rows rows' :
  foldM (fun rows '(folder_type, name) => mapM (update_from_folder py_repr folder_type name) rows)
        names rows = Ok rows' ->
  Forall2 (fun row row' : gmap string pyval =>
             forall id_no, row !! "id_no" = Some (PStr id_no) ->
               row' !! "id_no" = Some (PStr id_no)
               /\ row' !! "band_type" =
                    match last (filter (fun p : string * string => str_in id_no p.2 = true) names)
                    with
                    | Some p => Some (PStr (str_replace ".tif" "" p.1))
                    | None => row !! "band_type"
                    end)
          rows rows'.
Proof.
  revert rows'. induction names as [|[folder_type name] names IH] using rev_ind; intros rows' H.
  - cbn [foldM] in H. apply Ok_inj in H as <-. apply Forall_Forall2_diag, Forall_forall.
    intros row _ id_no Hid. done.
  - rewrite foldM_app in H. apply bind_Ok in H as (rows1 & H1 & H2). cbn [foldM] in H2.
    apply bind_Ok in H2 as (rows2 & Hmap & H2). apply Ok_inj in H2 as <-.
    apply mapM_Forall2 in Hmap. specialize (IH rows1 H1).
    eapply Forall2_compose; [|exact IH|exact Hmap].
    intros row row1 row' Hrow Hupdate id_no Hid. cbn beta in Hupdate.
    destruct (Hrow id_no Hid) as [Hid1 Hband1].
    destruct (update_from_folder_band_type folder_type name row1 row' id_no Hid1 Hupdate)
      as [Hid' Hband'].
    split; [done|]. rewrite last_filter_snoc, Hband'. cbn [snd fst].
    destruct (decide (str_in id_no name = true)) as [->|Hno]; [done|].
    apply not_true_is_false in Hno. by rewrite Hno.
Qed.

(** X11. Without download records (None or an empty list) the run populates
    from the folders. A run that then returns True has written, in every row
    with an id_no, as band_type the folder type without .tif of the last
    scanned file name that contains the id_no (the names ending in .tif of the
    folders that are directories, in the order of the folders), and the empty
    string when there is no such name. In every row it has written the empty
    string in each vocabulary column other than band_type, mgrs_tile and EPSG,
    and has kept every value that the row had in a column outside the
    vocabulary. *)
Theorem folder_run_columns fs fl path folders downloaded lines fs' :
  fs !! path = Some (File lines) ->
  downloaded = None \/ downloaded = Some [] ->
  enhance_metadata_csv iso_to_millis py_repr fs fl path folders downloaded = (fs', Ok true) ->
  exists lines',
    fs' !! path = Some (File lines')
    /\ Forall2 (fun line line' : gmap string string =>
                  (forall id_no, line !! "id_no" = Some id_no ->
                     line' !! "band_type" =
                       Some match last (filter (fun p : string * string =>
                                                  str_in id_no p.2 = true)
                                          (scanned_names fs folders)) with
                            | Some p => str_replace ".tif" "" p.1
                            | None => ""
                            end)
                  /\ forall k, k ∉ ["band_type"; "mgrs_tile"; "EPSG"] ->
                       (k ∈ field_list -> line' !! k = Some "")
                       /\ (k ∉ field_list ->
                           forall v, line !! k = Some v -> line' !! k = Some v))
               lines lines'.
Proof.
  intros Hfile Hnone H.
  apply enhance_success_inv in H
    as (lines0 & rows & first & lines' & Hfile0 & _ & _ & Hpopulate & Hfirst & Hwrite & ->).
  rewrite Hfile in Hfile0. apply (inj Some) in Hfile0. injection Hfile0 as <-.
  exists lines'. split; [by rewrite lookup_insert_eq|].
  assert (populate iso_to_millis py_repr fs
            (_initialize_metadata_fields (load_row <$> lines)) folders downloaded
          = _populate_from_folders py_repr fs
              (_initialize_metadata_fields (load_row <$> lines)) folders) as Hfolders.
  { by destruct Hnone as [-> | ->]. }
  rewrite Hfolders in Hpopulate.
  assert (Forall2 (fun row row' : gmap string pyval =>
                     forall k, k ∉ ["band_type"; "mgrs_tile"; "EPSG"] -> row' !! k = row !! k)
            (_initialize_metadata_fields (load_row <$> lines)) rows) as Hrows.
  { revert Hpopulate. apply (populate_folders_related).
    - split; [by intros row k | intros x y z Hxy Hyz k Hk; rewrite Hyz, Hxy; done].
    - intros folder_type name row row' Hupdate k Hk.
      by apply (update_from_folder_other folder_type name row row' k). }
  pose proof (scanned_last_match _ _ _ (populate_folders_scanned _ _ _ _ Hpopulate)) as Hband.
  apply Forall2_same_length_lookup. split.
  { apply Forall2_length in Hrows, Hwrite. rewrite <- Hwrite, <- Hrows.
    unfold _initialize_metadata_fields. by rewrite !length_fmap. }
  intros i line line' Hline Hline'.
  destruct (Forall2_lookup_r _ _ _ _ _ Hwrite Hline') as (row & Hrow & Hto_line).
  destruct (Forall2_lookup_r _ _ _ _ _ Hrows Hrow) as (row0 & Hrow0 & Hsame).
  destruct (Forall2_lookup_r _ _ _ _ _ Hband Hrow) as (row0' & Hrow0' & Hlast).
  rewrite Hrow0 in Hrow0'. injection Hrow0' as <-.
  apply initial_row_lookup in Hrow0 as (line0 & Hline0 & ->).
  rewrite Hline in Hline0. injection Hline0 as <-.
  split.
  - intros id_no Hid.
    destruct (Hlast id_no) as [_ Hband_type].
    { rewrite initialize_row_lookup, id_no_not_initialized.
      unfold load_row. by rewrite lookup_fmap, Hid. }
    rewrite initialize_row_lookup in Hband_type.
    rewrite (bool_decide_eq_true_2 ("band_type" ∈ field_list)) in Hband_type by in_list.
    destruct (dict_to_line_lookup (dom first) row line' "band_type" Hto_line)
      as [Hdom ->].
    rewrite bool_decide_eq_true_2 by (apply Hdom, elem_of_dom; rewrite Hband_type;
                                       destruct (last _); eauto).
    rewrite Hband_type. by destruct (last _).
  - intros k Hk. specialize (Hsame k Hk). rewrite initialize_row_lookup in Hsame.
    destruct (dict_to_line_lookup (dom first) row line' k Hto_line) as [Hdom ->].
    split.
    + intros Hvocab. rewrite bool_decide_eq_true_2 in Hsame by done.
      rewrite bool_decide_eq_true_2, Hsame; [done|].
      apply Hdom, elem_of_dom. eauto.
    + intros Hvocab v Hv. rewrite bool_decide_eq_false_2 in Hsame by done.
      unfold load_row in Hsame. rewrite lookup_fmap, Hv in Hsame.
      rewrite bool_decide_eq_true_2, Hsame; [done|].
      apply Hdom, elem_of_dom. eauto.
Qed.

(** X12. When time_start is absent or falsy and beginning_date_time converts
    to a number of milliseconds, the update assigns that number to
    system:time_start. It assigns to system:time_end the same number when
    ending_date_time is absent or falsy and the converted ending_date_time
    when that converts; when ending_date_time is truthy and does not convert,
    system:time_end is not assigned. The generic merge runs afterwards: a
    column for which the metadata has a value other than null under the
    column's own name (system:time_start, system:time_end) ends with that
    value, and otherwise with the value assigned or kept. *)
Theorem system_time_from_date_strings row md ft beginning begin_ms row' :
  truthy_at md "time_start" = false ->
  md !! "beginning_date_time" = Some beginning ->
  py_truthy beginning = true ->
  parse_millis iso_to_millis beginning = Some begin_ms ->
  _update_row_with_metadata iso_to_millis py_repr row md ft = Ok row' ->
  let assigned_end :=
    match md !! "ending_date_time" with
    | Some ending =>
        if py_truthy ending
        then match parse_millis iso_to_millis ending with
             | Some end_ms => Some (PInt end_ms)
             | None => row !! "system:time_end"
             end
        else Some (PInt begin_ms)
    | None => Some (PInt begin_ms)
    end in
  row' !! "system:time_start" = Some (merged md "system:time_start" (PInt begin_ms))
  /\ row' !! "system:time_end" = merged md "system:time_end" <$> assigned_end
  /\ (silent_on "system:time_start" md -> row' !! "system:time_start" = Some (PInt begin_ms))
  /\ (silent_on "system:time_end" md -> row' !! "system:time_end" = assigned_end).
Proof.
  intros Hts Hb Htruthy Hparse H assigned_end.
  assert (row' !! "system:time_start" = Some (merged md "system:time_start" (PInt begin_ms))
          /\ row' !! "system:time_end" = merged md "system:time_end" <$> assigned_end)
    as [Hstart Hend].
  { subst assigned_end.
    apply update_row_inv in H as (timed & tiled & Htime & Htiled & ->).
    rewrite !transfer_all_lookup.
    assert (tiled !! "system:time_start" = timed !! "system:time_start"
            /\ tiled !! "system:time_end" = timed !! "system:time_end") as [-> ->].
    { destruct Htiled as [-> | [epsg ->]]; by rewrite !lookup_insert_ne. }
    assert (truthy_at md "beginning_date_time" = true) as Hb_truthy.
    { unfold truthy_at. by rewrite Hb. }
    assert (getitem md "beginning_date_time" = Ok beginning) as Hb_item.
    { unfold getitem. by rewrite Hb. }
    unfold set_system_time in Htime. rewrite Hts, Hb_truthy, Hb_item in Htime.
    cbn [mbind result_bind] in Htime.
    rewrite Hparse in Htime. unfold truthy_at, getitem in Htime.
    destruct (md !! "ending_date_time") as [ending|].
    - destruct (py_truthy ending); cbn [mbind result_bind] in Htime.
      + destruct (parse_millis iso_to_millis ending); apply Ok_inj in Htime as <-.
        * rewrite lookup_insert_ne, !lookup_insert_eq by done. done.
        * rewrite lookup_insert_eq, lookup_insert_ne by done. done.
      + rewrite lookup_insert_eq in Htime. cbn [mbind result_bind] in Htime.
        apply Ok_inj in Htime as <-.
        rewrite lookup_insert_ne, !lookup_insert_eq by done. done.
    - rewrite lookup_insert_eq in Htime. cbn [mbind result_bind] in Htime.
      apply Ok_inj in Htime as <-.
      rewrite lookup_insert_ne, !lookup_insert_eq by done. done. }
  split; [done|]. split; [done|]. split.
  - intros Hsilent. by rewrite Hstart, merged_silent.
  - intros Hsilent. rewrite Hend. destruct assigned_end as [v|]; [|done].
    cbn [fmap option_fmap option_map]. by rewrite merged_silent.
Qed.

(** ** Repeated runs *)

Lemma foldM_ext {A B} (f g : A -> B -> result A) (l : list B) (a : A) :
  (forall x b, f x b = g x b) -> foldM f l a = foldM g l a.
Proof.
  intros Hfg. revert a. induction l as [|b l IH]; intros a; simpl; [done|].
  rewrite Hfg. destruct (g a b); simpl; [apply IH | done].
Qed.

(** The folders are read through [os.path.exists] and [os.listdir] only. *)
Lemma populate_from_folders_agree fs1 fs2 rows folders :
  (forall p, os_path_exists fs1 p = os_path_exists fs2 p
             /\ os_listdir fs1 p = os_listdir fs2 p) ->
  _populate_from_folders py_repr fs1 rows folders
    = _populate_from_folders py_repr fs2 rows folders.
Proof.
  intros Hagree. unfold _populate_from_folders. apply foldM_ext.
  intros x [folder_type p]. destruct (Hagree p) as [-> ->]. done.
Qed.

(** Writing a table file over a table file changes nothing that the folder
    scan sees. *)
Lemma rewritten_table_agrees fs path lines lines' p :
  fs !! path = Some (File lines) ->
  os_path_exists (<[path := File lines']> fs) p = os_path_exists fs p
  /\ os_listdir (<[path := File lines']> fs) p = os_listdir fs p.
Proof.
  intros Hfile. unfold os_path_exists, os_listdir.
  destruct (decide (path = p)) as [<-|Hne].
  - rewrite lookup_insert_eq, Hfile. split; [|done].
    by rewrite !bool_decide_eq_true_2 by eauto.
  - by rewrite lookup_insert_ne.
Qed.

Lemma write_lines_complete fieldnames rows lines :
  Forall2 (fun row line => dict_to_line py_repr fieldnames row = Ok line) rows lines ->
  write_lines py_repr fieldnames rows None = (lines, Ok ()).
Proof.
  induction 1 as [|row line rows lines Hline _ IH]; simpl; [done|].
  by rewrite Hline, IH.
Qed.

(** The header of a run: the columns of the first loaded row and the
    vocabulary. *)
Lemma populated_header fs folders downloaded lines rows first first_row :
  populate iso_to_millis py_repr fs
    (_initialize_metadata_fields (load_row <$> lines)) folders downloaded = Ok rows ->
  head lines = Some first ->
  head rows = Some first_row ->
  dom first_row = dom first ∪ list_to_set field_list.
Proof.
  intros Hpopulate Hfirst Hfirst_row.
  apply (populate_related extends_by_vocabulary) in Hpopulate;
    eauto using update_if_matching_extends, update_from_folder_extends.
  destruct lines as [|first0 lines]; [done|]. injection Hfirst as ->.
  destruct rows as [|row rows]; [done|]. injection Hfirst_row as ->.
  unfold _initialize_metadata_fields in Hpopulate. cbn [fmap list_fmap] in Hpopulate.
  apply Forall2_cons_1 in Hpopulate as [Hrow _].
  apply set_eq. intros k.
  rewrite elem_of_union, !elem_of_dom, elem_of_list_to_set, <- initialized_columns.
  destruct (Hrow k) as [H1 H2]. split; [|done].
  intros Hk. destruct (H2 Hk) as [?|Hvocab]; [done|].
  apply initialized_columns. by right.
Qed.

(** X13. Take a table all of whose rows have the same columns, and download
    records whose metadata has no value (other than null) under a column of
    the table that is outside the vocabulary. If a run returns True, a second
    run with the same records and folders on the table it has written returns
    True as well and writes the same table again. *)
Theorem reconciliation_idempotent fs fl path folders downloaded lines first fs' :
  fs !! path = Some (File lines) ->
  head lines = Some first ->
  (forall line, line ∈ lines -> dom line = dom first) ->
  (forall r k, r ∈ default [] downloaded -> k ∈ dom first -> k ∉ field_list ->
     silent_on k (granule_metadata r)) ->
  enhance_metadata_csv iso_to_millis py_repr fs fl path folders downloaded = (fs', Ok true) ->
  enhance_metadata_csv iso_to_millis py_repr fs' fl path folders downloaded = (fs', Ok true).
Proof.
  intros Hfile Hfirst Hrect Hsilent H.
  apply enhance_success_inv in H
    as (lines0 & rows & first_row & lines' & Hfile0 & Hread & Hfault & Hpopulate
        & Hfirst_row & Hwrite & ->).
  rewrite Hfile in Hfile0. apply (inj Some) in Hfile0. injection Hfile0 as <-.
  pose proof (populated_header _ _ _ _ _ _ _ Hpopulate Hfirst Hfirst_row) as Hheader.
  (* columns outside the vocabulary keep their values while the rows are populated *)
  set (R := fun row row' : gmap string pyval =>
              forall k, k ∉ field_list -> (is_Some (row !! k) -> k ∈ dom first) ->
                        row' !! k = row !! k).
  assert (PreOrder R) as HR.
  { split; [by intros row k|].
    intros x y z Hxy Hyz k Hk Hx. rewrite Hyz, Hxy; try done.
    rewrite Hxy by done. done. }
  pose proof Hpopulate as Hkept.
  apply (populate_related R) in Hkept.
  2: { intros r row row' Hr Hupdate k Hk Hcol.
       unfold update_if_matching in Hupdate. inv_binds Hupdate.
       match type of Hupdate with (if ?c then _ else _) = _ => destruct c end;
         [|by apply Ok_inj in Hupdate as <-].
       rewrite (update_row_other row (granule_metadata r)
                  (file_type r) row' k Hupdate).
       - destruct (row !! k) as [old|] eqn:Hold; [|done]. simpl.
         rewrite merged_silent; [done|]. apply Hsilent; [done| |done].
         apply Hcol. eauto.
       - intros Hin. apply Hk.
         repeat (apply elem_of_cons in Hin as [->|Hin]); try (by apply elem_of_nil in Hin);
           in_list. }
  2: { intros folder_type name row row' Hupdate k Hk _.
       apply (update_from_folder_other folder_type name row row' k Hupdate).
       intros Hin. apply Hk.
       repeat (apply elem_of_cons in Hin as [->|Hin]); try (by apply elem_of_nil in Hin);
         in_list. }
  (* hence the second run starts from the same rows *)
  assert (_initialize_metadata_fields (load_row <$> lines')
          = _initialize_metadata_fields (load_row <$> lines)) as Hsame.
  { unfold _initialize_metadata_fields. rewrite <- !list_fmap_compose.
    apply list_eq_Forall2, Forall2_fmap, Forall2_flip.
    apply Forall2_same_length_lookup. split.
    { apply Forall2_length in Hkept, Hwrite. rewrite <- Hwrite, <- Hkept.
      unfold _initialize_metadata_fields. by rewrite !length_fmap. }
    intros i line line' Hline Hline'. unfold flip, compose.
    destruct (Forall2_lookup_r _ _ _ _ _ Hwrite Hline') as (row & Hrow & Hto_line).
    destruct (Forall2_lookup_r _ _ _ _ _ Hkept Hrow) as (row0 & Hrow0 & Hrow_kept).
    apply initial_row_lookup in Hrow0 as (line0 & Hline0 & ->).
    rewrite Hline in Hline0. injection Hline0 as <-.
    assert (dom line = dom first) as Hdom_line.
    { apply Hrect. by eapply list_elem_of_lookup_2. }
    apply map_eq. intros k. rewrite !initialize_row_lookup.
    case_bool_decide as Hvocab; [done|].
    unfold load_row. rewrite !lookup_fmap. f_equal.
    destruct (dict_to_line_lookup (dom first_row) row line' k Hto_line) as [_ ->].
    rewrite (Hrow_kept k Hvocab).
    2: { rewrite initialize_row_lookup, bool_decide_eq_false_2 by done.
         unfold load_row. rewrite lookup_fmap, fmap_is_Some, <- elem_of_dom.
         by rewrite Hdom_line. }
    rewrite initialize_row_lookup, (bool_decide_eq_false_2 (k ∈ field_list)) by done.
    unfold load_row. rewrite lookup_fmap.
    destruct (line !! k) as [v|] eqn:Hv.
    - rewrite bool_decide_eq_true_2; [done|].
      rewrite Hheader, elem_of_union, <- Hdom_line, elem_of_dom. eauto.
    - rewrite bool_decide_eq_false_2; [done|].
      rewrite Hheader, elem_of_union, <- Hdom_line, elem_of_dom, Hv, elem_of_list_to_set.
      by intros [[? ?]|?]. }
  (* and takes the same steps *)
  unfold enhance_metadata_csv, os_path_exists, enhance_body, read_rows.
  rewrite lookup_insert_eq, Hread. rewrite bool_decide_eq_true_2 by eauto. cbn [negb].
  rewrite Hsame.
  assert (populate iso_to_millis py_repr (<[path := File lines']> fs)
            (_initialize_metadata_fields (load_row <$> lines)) folders downloaded
          = Ok rows) as ->.
  { rewrite <- Hpopulate. unfold populate.
    destruct downloaded as [[|r rs]|]; try done;
      apply populate_from_folders_agree; intros p;
      by apply (rewritten_table_agrees fs path lines lines' p). }
  unfold write_rows. rewrite Hfault.
  destruct rows as [|row rows]; [done|]. injection Hfirst_row as ->.
  rewrite (write_lines_complete _ _ _ Hwrite).
  by rewrite insert_insert_eq.
Qed.

(** ** The dynamic keys of the extractor *)

Lemma provider_date_step_dict (metadata pdate : gmap string pyval) :
  (exists t, default (PStr "") (pdate !! "Type") = PStr t)
  \/ py_truthy (default (PStr "") (pdate !! "Type")) = false ->
  provider_date_step metadata (PDict pdate) =
    Ok (match provider_date_key pdate with
        | Some k => <[k := default (PStr "") (pdate !! "Date")]> metadata
        | None => metadata
        end).
Proof.
  unfold provider_date_step, provider_date_key, dict_get. cbn [mbind result_bind].
  intros [[t ->] | Hfalsy].
  - cbn [py_truthy]. destruct (String.eqb t ""); done.
  - rewrite Hfalsy. destruct (default (PStr "") (pdate !! "Type")) as [| | | |t| |]; try done.
    cbn [py_truthy] in Hfalsy. by destruct (String.eqb t "").
Qed.

(** X14. Take a ProviderDates list of dictionaries whose Type values are
    strings or falsy. The provider dates part returns, under the key
    provider_date_ followed by a type in lower case, the Date (the empty
    string when there is none) of the last entry with a non-empty type that
    gives this key, and it has no other keys. *)
Theorem provider_dates_last_wins (umm : gmap string pyval)
    (pdates : list (gmap string pyval)) :
  umm !! "ProviderDates" = Some (PList (PDict <$> pdates)) ->
  (forall pdate, pdate ∈ pdates ->
     (exists t, default (PStr "") (pdate !! "Type") = PStr t)
     \/ py_truthy (default (PStr "") (pdate !! "Type")) = false) ->
  exists md,
    _extract_provider_dates (PDict umm) = Ok md
    /\ forall k,
         md !! k =
           (fun pdate : gmap string pyval => default (PStr "") (pdate !! "Date"))
             <$> last (filter (fun pdate => provider_date_key pdate = Some k) pdates).
Proof.
  intros Humm Hwf. unfold _extract_provider_dates.
  rewrite (dict_get_Some _ _ _ _ Humm). cbn [mbind result_bind py_iter].
  clear Humm. induction pdates as [|pdate pdates IH] using rev_ind.
  - exists ∅. split; [done|]. intros k. by rewrite lookup_empty.
  - destruct IH as (md & Hmd & Hlookup).
    { intros p Hp. apply Hwf, elem_of_app. by left. }
    rewrite fmap_app, foldM_app, Hmd. cbn [mbind result_bind fmap list_fmap foldM].
    rewrite provider_date_step_dict by (apply Hwf, elem_of_app; right; left).
    cbn [mbind result_bind]. eexists. split; [done|].
    intros k. rewrite last_filter_snoc.
    destruct (provider_date_key pdate) as [k'|] eqn:Hkey.
    + destruct (decide (Some k' = Some k)) as [[= ->]|Hne].
      * by rewrite lookup_insert_eq.
      * rewrite lookup_insert_ne by congruence. apply Hlookup.
    + rewrite decide_False by done. apply Hlookup.
Qed.

Lemma strings_of_fmap (l : list pyval) (strs : list string) :
  strings_of l = Some strs -> l = PStr <$> strs.
Proof.
  revert strs. induction l as [|v l IH]; intros strs; cbn [strings_of].
  - by intros [= <-].
  - destruct v as [| | | |s| |]; try done.
    destruct (strings_of l) as [strs'|]; [|done]. intros [= <-].
    by rewrite (IH strs' eq_refl).
Qed.

Lemma additional_attribute_step_dict (metadata attr : gmap string pyval) name values :
  attribute_name attr = Some name ->
  attribute_values attr = Some values ->
  additional_attribute_step metadata (PDict attr) =
    Ok (match attribute_key attr with
        | Some k => <[k := PStr (str_join ", " values)]> metadata
        | None => metadata
        end).
Proof.
  intros Hname Hvalues. unfold attribute_key. rewrite Hname, Hvalues.
  cbn [mbind option_bind].
  unfold attribute_name in Hname. unfold attribute_values in Hvalues.
  unfold additional_attribute_step, dict_get, py_contains_str, py_getitem_str, getitem.
  destruct (attr !! "Name") as [[| | | |n| |]|]; try done. injection Hname as ->.
  destruct (attr !! "Values") as [[| | | | |l|]|]; try done.
  apply strings_of_fmap in Hvalues as ->.
  cbn [default id mbind result_bind py_truthy].
  destruct (String.eqb name ""); cbn [negb andb]; [done|].
  rewrite bool_decide_eq_true_2 by eauto.
  destruct values as [|s values]; [done|].
  rewrite bool_decide_eq_false_2 by done. cbn [negb].
  rewrite fmap_cons. cbn [py_str_lower py_iter mbind result_bind].
  rewrite <- fmap_cons, py_join_strings. done.
Qed.

(** X15. Take an AdditionalAttributes list of dictionaries that each have a
    string as Name and a list of strings as Values. The attributes part
    returns, under attr_ followed by a name in lower case with its hyphens
    turned into underscores, the values, joined by a comma and a space, of the
    last entry with a non-empty name and a non-empty list that gives this key,
    and it has no other keys. *)
Theorem additional_attributes_last_wins (umm : gmap string pyval)
    (attrs : list (gmap string pyval)) :
  umm !! "AdditionalAttributes" = Some (PList (PDict <$> attrs)) ->
  (forall attr, attr ∈ attrs ->
     is_Some (attribute_name attr) /\ is_Some (attribute_values attr)) ->
  exists md,
    _extract_additional_attributes (PDict umm) = Ok md
    /\ forall k,
         md !! k =
           (fun attr => PStr (str_join ", " (default [] (attribute_values attr))))
             <$> last (filter (fun attr => attribute_key attr = Some k) attrs).
Proof.
  intros Humm Hwf. unfold _extract_additional_attributes.
  rewrite (dict_get_Some _ _ _ _ Humm). cbn [mbind result_bind py_iter].
  clear Humm. induction attrs as [|attr attrs IH] using rev_ind.
  - exists ∅. split; [done|]. intros k. by rewrite lookup_empty.
  - destruct IH as (md & Hmd & Hlookup).
    { intros a Ha. apply Hwf, elem_of_app. by left. }
    rewrite fmap_app, foldM_app, Hmd. cbn [mbind result_bind fmap list_fmap foldM].
    destruct (Hwf attr) as [[name Hname] [values Hvalues]];
      [apply elem_of_app; right; left|].
    rewrite (additional_attribute_step_dict _ _ name values Hname Hvalues).
    cbn [mbind result_bind]. eexists. split; [done|].
    intros k. rewrite last_filter_snoc.
    destruct (attribute_key attr) as [k'|] eqn:Hkey.
    + destruct (decide (Some k' = Some k)) as [[= ->]|Hne].
      * rewrite lookup_insert_eq. cbn [fmap option_fmap option_map]. by rewrite Hvalues.
      * rewrite lookup_insert_ne by congruence. apply Hlookup.
    + rewrite decide_False by done. apply Hlookup.
Qed.

(** ** The regular expression matcher *)

Lemma match_here_rep cc lo hi p' s st :
  match_here (TRep cc lo hi :: p') s st = rep_of cc lo hi p' s 0 st.
Proof. reflexivity. Qed.

Lemma rep_of_unfold cc lo hi p' s n st :
  rep_of cc lo hi p' s n st =
    let stop := if (lo <=? n)%nat then match_here p' s st else None in
    match s with
    | EmptyString => stop
    | String c s' =>
        if cclass_matches cc c && below n hi
        then match rep_of cc lo hi p' s' (S n) (cap_push c st) with
             | Some r => Some r
             | None => stop
             end
        else stop
    end.
Proof. by destruct s. Qed.

(** A successful loop has taken a run of characters of the class, of an
    allowed length, and the rest of the pattern has matched what follows. *)
Lemma rep_of_sound cc lo hi p' s n st r :
  rep_of cc lo hi p' s n st = Some r ->
  exists seg rest,
    s = seg +:+ rest
    /\ all_match cc seg = true
    /\ (lo <= n + String.length seg)%nat
    /\ (forall h, hi = Some h -> seg = "" \/ (n + String.length seg <= h)%nat)
    /\ match_here p' rest (push_all seg st) = Some r.
Proof.
  revert n st. induction s as [|c s IH]; intros n st; rewrite rep_of_unfold; cbn zeta.
  - destruct (lo <=? n)%nat eqn:Hlo; [|done]. intros Hrest.
    exists "", "". apply Nat.leb_le in Hlo. repeat split; simpl; auto with lia.
  - assert ((if (lo <=? n)%nat then match_here p' (String c s) st else None) = Some r ->
            exists seg rest,
              String c s = seg +:+ rest /\ all_match cc seg = true
              /\ (lo <= n + String.length seg)%nat
              /\ (forall h, hi = Some h -> seg = "" \/ (n + String.length seg <= h)%nat)
              /\ match_here p' rest (push_all seg st) = Some r) as Hstop.
    { destruct (lo <=? n)%nat eqn:Hlo; [|done]. intros Hrest.
      exists "", (String c s). apply Nat.leb_le in Hlo.
      repeat split; simpl; auto with lia. }
    destruct (cclass_matches cc c && below n hi) eqn:Hc; [|done].
    destruct (rep_of cc lo hi p' s (S n) (cap_push c st)) as [r'|] eqn:Hrep; [|done].
    intros [= ->]. apply andb_true_iff in Hc as [Hc Hbelow].
    destruct (IH _ _ Hrep) as (seg & rest & -> & Hall & Hlo & Hhi & Hrest).
    exists (String c seg), rest. simpl. rewrite Hc, Hall.
    repeat split; [lia| |done].
    intros h ->. right. simpl in Hbelow. apply Nat.ltb_lt in Hbelow.
    destruct (Hhi h eq_refl) as [-> | ?]; simpl; lia.
Qed.

Lemma push_all_done seg text : push_all seg (CapDone text) = CapDone text.
Proof. induction seg; simpl; auto. Qed.

Lemma append_cons_assoc text c seg :
  (text +:+ String c EmptyString) +:+ seg = text +:+ String c seg.
Proof. induction text as [|a text IH]; [done|]. exact (f_equal (String a) IH). Qed.

Lemma append_assoc' a b c : (a +:+ b) +:+ c = a +:+ (b +:+ c).
Proof. induction a as [|x a IH]; [done|]. exact (f_equal (String x) IH). Qed.

Lemma append_empty_r a : a +:+ "" = a.
Proof. induction a as [|x a IH]; [done|]. exact (f_equal (String x) IH). Qed.

Lemma push_all_open seg text : push_all seg (CapOpen text) = CapOpen (text +:+ seg).
Proof.
  revert text. induction seg as [|c seg IH]; intros text; simpl.
  - by rewrite append_empty_r.
  - rewrite IH. f_equal. apply append_cons_assoc.
Qed.

(** After the group has closed its text is final. *)
Lemma match_after_group p s text r :
  forallb outside_group p = true ->
  match_here p s (CapDone text) = Some r -> r = CapDone text.
Proof.
  revert s. induction p as [|t p IH]; intros s Hp H; simpl in *.
  - by injection H as <-.
  - apply andb_true_iff in Hp as [Ht Hp].
    destruct t as [cc lo hi| | |]; try done.
    + change (rep_of cc lo hi p s 0 (CapDone text) = Some r) in H.
      apply rep_of_sound in H as (seg & rest & _ & _ & _ & _ & H).
      rewrite push_all_done in H. eauto.
    + destruct (at_end s); [eauto|done].
Qed.

(** Inside the group every quantified class adds its run to the text. *)
Lemma match_in_group p g s text r :
  group_body p = Some g ->
  match_here p s (CapOpen text) = Some r ->
  exists text', r = CapDone (text +:+ text') /\ fits g text'.
Proof.
  revert g s text. induction p as [|t p IH]; intros g s text Hg H; [done|].
  destruct t as [cc lo hi| | |]; try done.
  - cbn [group_body] in Hg.
    destruct (group_body p) as [g'|] eqn:Hg'; [|done]. injection Hg as <-.
    rewrite match_here_rep in H.
    apply rep_of_sound in H as (seg & rest & _ & Hall & Hlo & Hhi & H).
    rewrite push_all_open in H.
    destruct (IH _ _ _ eq_refl H) as (text' & -> & Hfits).
    exists (seg +:+ text'). split; [by rewrite append_assoc'|].
    simpl. exists seg, text'. repeat split; [done|lia| |done].
    intros h Hh. destruct (Hhi h Hh) as [-> | ?]; simpl; lia.
  - cbn [group_body] in Hg. destruct (forallb outside_group p) eqn:Hp; [|done].
    injection Hg as <-. simpl in H.
    apply match_after_group in H as ->; [|done].
    exists "". by rewrite append_empty_r.
Qed.

Lemma match_here_group p g s st r :
  group_of p = Some g ->
  match_here p s st = Some r ->
  exists text, r = CapDone text /\ fits g text.
Proof.
  revert s st. induction p as [|t p IH]; intros s st Hg H; [done|].
  destruct t as [cc lo hi| | |]; try done.
  - rewrite match_here_rep in H.
    apply rep_of_sound in H as (seg & rest & _ & _ & _ & _ & H). eauto.
  - simpl in H. by apply (match_in_group p g s "" r) in H.
  - simpl in H. destruct (at_end s); [eauto|done].
Qed.

(** What [re.search] returns for a pattern with one group: in group 1, a run
    of characters for each quantified class of the group. *)
Lemma re_search_group pat p g s m :
  re_compile pat = Some p ->
  group_of p = Some g ->
  re_search pat s = Some m ->
  exists text, m = CapDone text /\ fits g text.
Proof.
  intros Hp Hg. unfold re_search. rewrite Hp. simpl.
  induction s as [|c s IH]; simpl.
  - destruct (match_here p "" CapNone) eqn:H; [|done].
    intros [= <-]. by eapply match_here_group.
  - destruct (match_here p (String c s) CapNone) eqn:H; [|done].
    intros [= <-]. by eapply match_here_group.
Qed.

(** A key of the result comes from the mapping given or from an extraction
    whose pattern has matched. *)
Lemma run_extractions_matched es ur md k v :
  run_extractions es ur md !! k = Some v ->
  md !! k = Some v
  \/ exists pat conv m,
       (pat, k, conv) ∈ es /\ re_search pat ur = Some m /\ v = conv (group1 m).
Proof.
  unfold run_extractions. revert md.
  induction es as [|[[pat key] conv] es IH]; intros md; simpl; [by left|].
  intros H. apply IH in H as [H | (pat' & conv' & m & Hin & Hm & ->)].
  - unfold apply_extraction in H.
    destruct (re_search pat ur) as [m|] eqn:Hm; [|by left].
    destruct (decide (key = k)) as [->|Hne].
    + rewrite lookup_insert_eq in H. injection H as <-.
      right. exists pat, conv, m. split; [left|done].
    + rewrite lookup_insert_ne in H by done. by left.
  - right. exists pat', conv', m. split; [by right|done].
Qed.

(** X16. Every value that the filename parser stores is the conversion of a
    text of the shape of its pattern's group: for each quantified class of the
    group in turn, a run of characters of the class whose length the
    quantifier allows. *)
Theorem filename_field_shapes (granule_ur key : string) (v : pyval) :
  _extract_filename_metadata granule_ur !! key = Some v ->
  exists g conv text,
    field_group key = Some (g, conv) /\ fits g text /\ v = conv text.
Proof.
  intros H. apply run_extractions_matched in H as [H | (pat & conv & m & Hin & Hm & ->)];
    [done|].
  unfold filename_extractions in Hin.
  repeat (apply elem_of_cons in Hin as [[= -> -> ->] | Hin]);
    [..|by apply elem_of_nil in Hin];
    (eapply re_search_group in Hm as (text & -> & Hfits);
       [|vm_compute; reflexivity..];
     eexists _, _, text; split; [vm_compute; reflexivity|split; [exact Hfits|done]]).
Qed.

(** Texts of the group of the tile pattern. *)
Lemma fits_tile text :
  fits [TRep CDigit 2 (Some 2%nat); TRep CUpper 3 (Some 3%nat)] text ->
  tile_shaped text = true.
Proof.
  intros (digits & rest & -> & Hd & Hlo & Hhi & letters & rest' & -> & Hu & Hlo' & Hhi' & ->).
  specialize (Hhi _ eq_refl). specialize (Hhi' _ eq_refl).
  destruct digits as [|d1 [|d2 [|]]]; simpl in Hlo, Hhi; try lia.
  destruct letters as [|c1 [|c2 [|c3 [|]]]]; simpl in Hlo', Hhi'; try lia.
  cbn [all_match cclass_matches] in Hd, Hu.
  change (is_digit d1 && is_digit d2 && is_upper_AZ c1 && is_upper_AZ c2 && is_upper_AZ c3
          = true).
  repeat match goal with H : _ && _ = true |- _ => apply andb_true_iff in H as [? ?] end.
  repeat match goal with H : _ = true |- _ => rewrite H; clear H end. done.
Qed.

Lemma fits_digits lo hi text :
  fits [TRep CDigit lo hi] text ->
  all_match CDigit text = true /\ (lo <= String.length text)%nat
  /\ forall h, hi = Some h -> (String.length text <= h)%nat.
Proof.
  intros (digits & rest & -> & Hd & Hlo & Hhi & Hrest). simpl in Hrest. subst rest.
  rewrite append_empty_r. split; [exact Hd|]. split; [exact Hlo|exact Hhi].
Qed.

Lemma int_of_digits_bounds text acc :
  all_match CDigit text = true -> 0 <= acc ->
  acc * 10 ^ Z.of_nat (String.length text) <= int_of_digits acc text
    < (acc + 1) * 10 ^ Z.of_nat (String.length text).
Proof.
  revert acc. induction text as [|c text IH]; intros acc Hd Hacc.
  - simpl. lia.
  - cbn [all_match] in Hd. apply andb_true_iff in Hd as [Hc Hd].
    cbn [int_of_digits String.length]. rewrite Nat2Z.inj_succ, Z.pow_succ_r by lia.
    assert (0 <= digit_value c <= 9) as Hdigit.
    { unfold cclass_matches, is_digit, ascii_between in Hc. unfold digit_value.
      apply andb_true_iff in Hc as [H1 H2].
      apply Nat.leb_le in H1, H2.
      change (nat_of_ascii "0") with 48%nat in H1.
      change (nat_of_ascii "9") with 57%nat in H2. lia. }
    specialize (IH (10 * acc + digit_value c) Hd ltac:(lia)).
    set (pw := 10 ^ Z.of_nat (String.length text)) in *.
    assert (0 < pw) by (apply Z.pow_pos_nonneg; lia).
    nia.
Qed.

(** X17. The scene that the filename parser stores is an integer from 0 to
    999. *)
Theorem filename_scene_range (granule_ur : string) (v : pyval) :
  _extract_filename_metadata granule_ur !! "scene" = Some v ->
  exists n, v = PInt n /\ 0 <= n <= 999.
Proof.
  intros H. apply run_extractions_matched in H as [H | (pat & conv & m & Hin & Hm & ->)];
    [done|].
  unfold filename_extractions in Hin.
  repeat (apply elem_of_cons in Hin as [[= Hpat Hconv] | Hin]);
    [|by apply elem_of_nil in Hin].
  subst pat conv.
  eapply re_search_group in Hm as (text & -> & Hfits); [|vm_compute; reflexivity..].
  apply fits_digits in Hfits as (Hd & Hlo & Hhi). specialize (Hhi _ eq_refl).
  exists (py_int text). split; [done|].
  pose proof (int_of_digits_bounds text 0 Hd ltac:(lia)) as Hb.
  assert (String.length text = 3%nat) as Hlen by lia.
  rewrite Hlen in Hb. unfold py_int. simpl in *. lia.
Qed.

(** X18. The tile that the filename parser stores is a string of two digits
    and three capital letters, and the tile codec turns it into a code that is
    not empty: EPSG326 or EPSG327 followed by the two digits. *)
Theorem filename_tile_has_epsg (granule_ur : string) (v : pyval) :
  _extract_filename_metadata granule_ur !! "mgrs_tile" = Some v ->
  exists tile,
    v = PStr tile /\ tile_shaped tile = true
    /\ get_epsg_from_mgrs py_repr v = Ok (PStr (epsg_contract tile))
    /\ (epsg_contract tile = "EPSG326" +:+ str_take 2 tile
        \/ epsg_contract tile = "EPSG327" +:+ str_take 2 tile).
Proof.
  intros H. apply run_extractions_matched in H as [H | (pat & conv & m & Hin & Hm & ->)];
    [done|].
  unfold filename_extractions in Hin.
  repeat (apply elem_of_cons in Hin as [[= Hpat Hconv] | Hin]);
    [|by apply elem_of_nil in Hin].
  subst pat conv.
  eapply re_search_group in Hm as (text & -> & Hfits); [|vm_compute; reflexivity..].
  apply fits_tile in Hfits. exists text. simpl. split; [done|]. split; [done|].
  split.
  - destruct text as [|a [|b [|c rest]]]; try done.
    unfold get_epsg_from_mgrs, epsg_contract. simpl. by rewrite <- band_test.
  - unfold tile_shaped in Hfits.
    destruct text as [|a [|b [|c rest]]]; try done.
    unfold epsg_contract. simpl. destruct (bool_decide _); auto.
Qed.

Lemma get_epsg_of_string (s : string) :
  get_epsg_from_mgrs py_repr (PStr s) = Ok (PStr (epsg_contract s)).
Proof.
  destruct s as [|a [|b [|c rest]]]; try reflexivity.
  unfold get_epsg_from_mgrs, epsg_contract. simpl.
  by rewrite <- band_test.
Qed.

Lemma tile_epsg_truthy (tile : string) :
  tile_shaped tile = true -> py_truthy (PStr (epsg_contract tile)) = true.
Proof.
  unfold tile_shaped. destruct tile as [|a [|b [|c rest]]]; try done.
  intros _. unfold epsg_contract. simpl. by destruct (bool_decide _).
Qed.

(** X19. On a row whose id_no is a string the folder update does not raise.
    When the id_no does not occur in the file name the row stays as it is.
    When it does, band_type becomes the folder type without its .tif; if the
    name holds a tile between underscores, mgrs_tile becomes that tile, of two
    digits and three capital letters, and EPSG its code; otherwise both
    columns stay as they are. *)
Theorem folder_update_total (folder_type name id_no : string) (row : gmap string pyval) :
  row !! "id_no" = Some (PStr id_no) ->
  exists row',
    update_from_folder py_repr folder_type name row = Ok row'
    /\ if str_in id_no name
       then row' !! "band_type" = Some (PStr (str_replace ".tif" "" folder_type))
            /\ match re_search "_(\d{2}[A-Z]{3})_" name with
               | Some m =>
                   tile_shaped (group1 m) = true
                   /\ row' !! "mgrs_tile" = Some (PStr (group1 m))
                   /\ row' !! "EPSG" = Some (PStr (epsg_contract (group1 m)))
               | None =>
                   row' !! "mgrs_tile" = row !! "mgrs_tile"
                   /\ row' !! "EPSG" = row !! "EPSG"
               end
       else row' = row.
Proof.
  intros Hid. unfold update_from_folder, getitem. rewrite Hid.
  cbn [mbind result_bind py_in_str].
  destruct (str_in id_no name); [|by eexists].
  destruct (re_search "_(\d{2}[A-Z]{3})_" name) as [m|] eqn:Hm.
  - eapply re_search_group in Hm as (tile & -> & Hfits); [|vm_compute; reflexivity..].
    apply fits_tile in Hfits. cbn [group1].
    rewrite get_epsg_of_string. cbn [mbind result_bind].
    rewrite (tile_epsg_truthy _ Hfits).
    eexists. split; [done|].
    rewrite lookup_insert_eq, !(lookup_insert_ne _ _ "band_type") by done.
    rewrite (lookup_insert_ne _ "EPSG" "mgrs_tile") by done.
    by rewrite !lookup_insert_eq.
  - eexists. split; [done|].
    by rewrite lookup_insert_eq, !lookup_insert_ne by done.
Qed.

(** ** Paths and grouping *)

Lemma foldl_insert_by_key {A} (key : string -> string) (val : string -> A)
    (l : list string) (d : gmap string A) (k : string) :
  foldl (fun d x => <[key x := val (key x)]> d) d l !! k =
    if bool_decide (k ∈ key <$> l) then Some (val k) else d !! k.
Proof.
  revert d. induction l as [|x l IH]; intros d; [done|].
  cbn [foldl]. rewrite IH, fmap_cons. destruct (decide (k = key x)) as [->|Hne].
  - rewrite lookup_insert_eq.
    rewrite (bool_decide_eq_true_2 (key x ∈ key x :: (key <$> l))) by left.
    by case_bool_decide.
  - rewrite lookup_insert_ne by done.
    case_bool_decide as H1; case_bool_decide as H2; try done.
    + destruct H2. by right.
    + apply elem_of_cons in H2 as [?|?]; done.
Qed.

(** X20. The download paths have an entry for exactly the configured file
    types, the folder of a type being the base path joined with the part of the
    type before its first dot. For every entry, the upload paths have an
    entry under that part of the type: the upload base, /ecostress_ and the
    part in lower case. *)
Theorem paths_cover_file_types (base upload_base : string) (file_types : list string)
    (file_type : string) :
  (is_Some (create_download_paths base file_types !! file_type) <-> file_type ∈ file_types)
  /\ (file_type ∈ file_types ->
      create_download_paths base file_types !! file_type
        = Some (os_path_join base (split_dot0 file_type))
      /\ create_upload_paths upload_base file_types !! split_dot0 file_type
        = Some (upload_base +:+ "/ecostress_" +:+ py_lower (split_dot0 file_type))).
Proof.
  unfold create_download_paths, create_upload_paths.
  rewrite (foldl_insert_by_key id (fun ft => os_path_join base (split_dot0 ft))).
  rewrite (foldl_insert_by_key split_dot0
             (fun t => upload_base +:+ "/ecostress_" +:+ py_lower t)).
  rewrite list_fmap_id. split.
  - case_bool_decide; [by split; eauto|]. rewrite lookup_empty. split; [by intros []|done].
  - intros Hin. rewrite !bool_decide_eq_true_2; [done| |done].
    by apply list_elem_of_fmap_2.
Qed.

Lemma organize_snoc rs r :
  organize_files_by_type (rs ++ [r]) =
    <[file_type r := (default [] (organize_files_by_type rs !! file_type r) ++ [r])%list]>
      (organize_files_by_type rs).
Proof.
  unfold organize_files_by_type. rewrite foldl_app. cbn [foldl].
  set (d := foldl _ ∅ rs).
  case_bool_decide as Hd; [done|].
  rewrite lookup_insert_eq, insert_insert_eq.
  apply eq_None_not_Some in Hd. by rewrite Hd.
Qed.

(** X21. The grouping of the download records has, under a file type, the
    records of that type in the order of the list, and no entry for a type
    that no record has. *)
Theorem organize_files_by_type_groups (downloaded_files : list download_record)
    (type_name : string) :
  organize_files_by_type downloaded_files !! type_name =
    match filter (fun r => file_type r = type_name) downloaded_files with
    | [] => None
    | group => Some group
    end.
Proof.
  induction downloaded_files as [|r rs IH] using rev_ind; [done|].
  rewrite organize_snoc, filter_app.
  destruct (decide (file_type r = type_name)) as [Heq|Hne].
  - rewrite Heq, lookup_insert_eq, IH.
    rewrite (filter_cons_True _ r []) by done. rewrite filter_nil.
    by destruct (filter _ rs).
  - rewrite lookup_insert_ne by done.
    rewrite (filter_cons_False _ r []) by done. rewrite filter_nil, app_nil_r. apply IH.
Qed.

Lemma find_first {A} (f : A -> bool) (l : list A) (x : A) :
  List.find f l = Some x ->
  exists before after,
    l = (before ++ x :: after)%list /\ Forall (fun y => f y = false) before /\ f x = true.
Proof.
  induction l as [|a l IH]; simpl; [done|].
  destruct (f a) eqn:Hfa.
  - intros [= <-]. exists [], l. by repeat split.
  - intros H. destruct (IH H) as (before & after & -> & Hbefore & Hx).
    exists (a :: before), after. repeat split; [|done]. by constructor.
Qed.

(** X22. For download paths made from the configured file types, a file name
    that ends with one of the types is given a folder without a KeyError:
    the folder of the first type in the list that the name ends with (the name
    ends with none of the types before it), and as type name the part of that
    type before its first dot. A name is given nothing exactly when it ends
    with none of the types. *)
Theorem destination_of_configured (base : string) (file_types : list string)
    (filename : string) :
  (forall outcome,
     destination_of file_types (create_download_paths base file_types) filename
       = Some outcome ->
     exists before suffix after,
       file_types = (before ++ suffix :: after)%list
       /\ Forall (fun earlier => str_endswith earlier filename = false) before
       /\ str_endswith suffix filename = true
       /\ outcome = Ok (os_path_join base (split_dot0 suffix), split_dot0 suffix))
  /\ (destination_of file_types (create_download_paths base file_types) filename = None
      <-> Forall (fun suffix => str_endswith suffix filename = false) file_types).
Proof.
  unfold destination_of, first_suffix. split.
  - intros outcome H.
    destruct (List.find _ file_types) as [suffix|] eqn:Hfind; [|done].
    cbn [mbind option_bind] in H. injection H as <-.
    apply find_first in Hfind as (before & after & Hsplit & Hbefore & Hends).
    exists before, suffix, after. split; [done|]. split; [done|]. split; [done|].
    unfold create_download_paths.
    rewrite (foldl_insert_by_key id (fun ft => os_path_join base (split_dot0 ft))).
    rewrite list_fmap_id, bool_decide_eq_true_2; [done|].
    rewrite Hsplit. apply elem_of_app. right. left.
  - destruct (List.find _ file_types) as [suffix|] eqn:Hfind; cbn [mbind option_bind].
    + split; [done|]. intros Hnone.
      apply find_first in Hfind as (before & after & -> & _ & Hends).
      apply Forall_app in Hnone as [_ Hnone]. apply Forall_cons in Hnone as [Hnone _].
      congruence.
    + split; [|done]. intros _. apply Forall_forall. intros suffix Hin.
      apply list_elem_of_In in Hin. by apply (find_none _ _ Hfind).
Qed.

(** X23. The answer typed at the prompt of [authenticate_services] does not
    change its result. The first component is True only for the actions
    download and both and only when one of the two earthaccess strategies has
    succeeded; the second only for the actions upload and both and only when
    the Earth Engine authentication has succeeded. *)
Theorem authenticate_services_result (action : string) (netrc interactive gee : bool)
    (answer answer' : string) :
  authenticate_services action netrc interactive gee answer
    = authenticate_services action netrc interactive gee answer'
  /\ ((authenticate_services action netrc interactive gee answer).1 = true ->
      action_in action ["download"; "both"] = true /\ (netrc = true \/ interactive = true))
  /\ ((authenticate_services action netrc interactive gee answer).2 = true ->
      action_in action ["upload"; "both"] = true /\ gee = true).
Proof.
  unfold authenticate_services, action_in. cbn [existsb].
  destruct (String.eqb action "both"), (String.eqb action "download"),
    (String.eqb action "upload"), netrc, interactive, gee; cbn;
    repeat match goal with |- context [String.eqb ?a "y"] => destruct (String.eqb a "y") end;
    repeat split; intros; try discriminate; auto.
Qed.

End Properties.

(** * Runs on concrete inputs *)

Lemma returned_Ok (r : result (gmap string pyval)) :
  has_returned r = true -> r = Ok (returned r).
Proof. by destruct r. Qed.

Lemma pair_of_snd {A B} (p : A * B) (b : B) : p.2 = b -> p = (p.1, b).
Proof. destruct p. by intros <-. Qed.

Lemma reconcile_round_trip_witness :
  let fs' := (enhance_metadata_csv iso_to_millis_ref py_repr_ref fs_one_row no_faults
                table_path [] (Some [record_lst])).1 in
  (exists line',
     fs' !! table_path = Some (File [line'])
     /\ line' !! "band_type" = Some "LST"
     /\ (forall k, k ∈ field_list -> k <> "band_type" -> line' !! k = Some "")
     /\ (forall k, k ∉ field_list -> line' !! k = line_abc !! k))
  /\ (forall md row k, transfer_all md row !! k = merged md k <$> row !! k).
Proof.
  intros fs'.
  apply (reconcile_round_trip iso_to_millis_ref py_repr_ref fs_one_row no_faults
           table_path [] line_abc record_lst fs').
  - vm_compute. reflexivity.
  - vm_compute. reflexivity.
  - vm_compute. reflexivity.
  - reflexivity.
  - apply pair_of_snd. vm_compute. reflexivity.
Defined.

(** C2 as stated fails: the single row of the table is loaded with id_no ABC;
    the record, whose filename contains ABC, carries id_no XYZ in its
    metadata; the run returns True and the row is written with id_no XYZ. *)
Lemma id_no_overwritten :
  let run := enhance_metadata_csv iso_to_millis_ref py_repr_ref fs_one_row no_faults
               table_path [] (Some [record_with_id]) in
  stored_column fs_one_row table_path "id_no" = Some [Some "ABC"]
  /\ run.2 = Ok true
  /\ stored_column run.1 table_path "id_no" = Some [Some "XYZ"].
Proof. repeat split; vm_compute; reflexivity. Qed.

Lemma reconciliation_keeps_rows_witness :
  let fs' := (enhance_metadata_csv iso_to_millis_ref py_repr_ref fs_two_rows no_faults
                table_path [] (Some [record_timed])).1 in
  exists lines',
    fs' !! table_path = Some (File lines')
    /\ List.length lines' = 2%nat
    /\ ((forall r, r ∈ [record_timed] -> silent_on "id_no" (granule_metadata r)) ->
        Forall2 (fun line line' : gmap string string =>
                   forall id_no, line !! "id_no" = Some id_no -> line' !! "id_no" = Some id_no)
                [ {[ "id_no" := "ABC" ]}; {[ "id_no" := "DEF" ]} ] lines').
Proof.
  intros fs'.
  apply (reconciliation_keeps_rows iso_to_millis_ref py_repr_ref fs_two_rows no_faults
           table_path [] (Some [record_timed])
           [ {[ "id_no" := "ABC" ]}; {[ "id_no" := "DEF" ]} ] fs').
  - vm_compute. reflexivity.
  - apply pair_of_snd. vm_compute. reflexivity.
Defined.

Lemma enhance_reports_failure_witness :
  (enhance_metadata_csv iso_to_millis_ref py_repr_ref fs_two_rows
     {| read_fails := false; write_fails := WriteFailsAfter 1 |}
     table_path [] (Some [record_timed])).2 = Ok false.
Proof.
  apply (enhance_reports_failure iso_to_millis_ref py_repr_ref fs_two_rows
           {| read_fails := false; write_fails := WriteFailsAfter 1 |}
           table_path [] (Some [record_timed])).
  simpl. discriminate.
Defined.

(** C4 as stated fails: both orbit sections are present, the begin orbit number
    is 0, and orbit_number is 7, the number of OrbitParameters. *)
Lemma orbit_zero_falls_back :
  umm_orbit_zero !! "OrbitCalculatedSpatialDomains"
    = Some (PList [PDict {[ "BeginOrbitNumber" := PInt 0 ]}])
  /\ umm_orbit_zero !! "OrbitParameters"
    = Some (PList [PDict {[ "OrbitNumber" := PInt 7 ]}])
  /\ (fun md : gmap string pyval => md !! "orbit_number")
       <$> _extract_orbit_metadata (PDict umm_orbit_zero) = Ok (Some (PInt 7)).
Proof. repeat split; vm_compute; reflexivity. Qed.

Lemma orbit_priority_witness :
  exists md, _extract_orbit_metadata (PDict umm_orbit_48) = Ok md
             /\ md !! "orbit_number" = Some (PInt 48).
Proof.
  apply (orbit_priority iso_to_millis_ref umm_orbit_48 first_orbit_48 [] (PInt 48)
           first_params_7 [] (PInt 7)); vm_compute; reflexivity.
Defined.

(** C6 as stated fails: the UR [X] is not empty, the orbit_scene pattern finds
    nothing in it, and the output has no orbit_scene key (rather than the
    empty string). *)
Lemma orbit_scene_absent :
  umm_plain !! "GranuleUR" = Some (PStr "X")
  /\ re_search "_LSTE_(\d+_\d{3})_" "X" = None
  /\ (fun md : gmap string pyval => md !! "orbit_scene")
       <$> extract_granule_metadata iso_to_millis_ref granule_plain = Ok None.
Proof. repeat split; vm_compute; reflexivity. Qed.

Lemma unmatched_filename_fields_witness :
  returned (extract_granule_metadata iso_to_millis_ref granule_plain) !! "mgrs_tile"
    = Some (PStr "").
Proof.
  apply (unmatched_filename_fields iso_to_millis_ref granule_plain umm_plain "X"
           (returned (extract_granule_metadata iso_to_millis_ref granule_plain))
           "_(\d{2}[A-Z]{3})_" "mgrs_tile" PStr).
  - reflexivity.
  - vm_compute. reflexivity.
  - discriminate.
  - apply returned_Ok. vm_compute. reflexivity.
  - unfold filename_extractions. right. left.
  - vm_compute. reflexivity.
Defined.

Lemma timestamp_conversion_witness :
  _convert_to_timestamp iso_to_millis_ref (PStr "2025-01-01T12:00:00Z")
    = PInt 1735732800000
  /\ returned (extract_granule_metadata iso_to_millis_ref granule_bad_date) !! "time_start"
     = Some (PStr "").
Proof.
  destruct (timestamp_conversion iso_to_millis_ref) as (_ & Hz & _ & Hbad & _).
  split.
  - apply Hz. vm_compute. reflexivity.
  - apply (Hbad granule_bad_date umm_bad_date temporal_bad range_bad (PStr "not-a-date")).
    + reflexivity.
    + vm_compute. reflexivity.
    + vm_compute. reflexivity.
    + vm_compute. reflexivity.
    + reflexivity.
    + vm_compute. reflexivity.
    + apply returned_Ok. vm_compute. reflexivity.
Defined.

(** C9 as stated fails: the record's time_start is 1000, its metadata also has
    7 under system:time_start, and the row's system:time_start is 7 after the
    update. *)
Lemma system_time_overwritten :
  metadata_with_system_time !! "time_start" = Some (PInt 1000)
  /\ (fun row : gmap string pyval => row !! "system:time_start")
       <$> _update_row_with_metadata iso_to_millis_ref py_repr_ref
             (initialize_row ∅) metadata_with_system_time "LST"
     = Ok (Some (PInt 7)).
Proof. repeat split; vm_compute; reflexivity. Qed.

Lemma system_time_from_time_start_witness :
  let row' := returned (_update_row_with_metadata iso_to_millis_ref py_repr_ref
                (initialize_row ∅) (granule_metadata record_timed) "LST") in
  row' !! "system:time_start" = Some (PInt 1735732800000)
  /\ row' !! "system:time_end" = Some (PInt 1735732800000).
Proof.
  intros row'.
  destruct (system_time_from_time_start iso_to_millis_ref py_repr_ref
              (initialize_row ∅) (granule_metadata record_timed) "LST"
              (PInt 1735732800000) row') as (_ & _ & Hstart & Hend & _).
  - vm_compute. reflexivity.
  - reflexivity.
  - apply returned_Ok. vm_compute. reflexivity.
  - split; [apply Hstart | apply Hend]; left; vm_compute; reflexivity.
Defined.




(** ** The extractor on a dated granule *)

Lemma extractor_schema_witness :
  let md := returned (extract_granule_metadata iso_to_millis_ref granule_dated) in
  (forall k, k ∈ always_fields -> is_Some (md !! k))
  /\ (forall k, is_Some (md !! k) ->
        k ∈ always_fields ∨ k ∈ optional_fields
        ∨ String.prefix "provider_date_" k = true ∨ String.prefix "attr_" k = true).
Proof.
  intros md. apply (extractor_schema iso_to_millis_ref granule_dated md).
  apply returned_Ok. vm_compute. reflexivity.
Defined.

Lemma update_from_extracted_metadata_witness :
  let md := returned (extract_granule_metadata iso_to_millis_ref granule_dated) in
  let row' := returned (_update_row_with_metadata iso_to_millis_ref py_repr_ref
                          (initialize_row row_abc) md "LST") in
  row' !! "id_no" = initialize_row row_abc !! "id_no"
  /\ row' !! "band_type" = Some (PStr "LST")
  /\ (forall ts, md !! "time_start" = Some ts -> py_truthy ts = true ->
        row' !! "system:time_start" = Some ts /\ row' !! "system:time_end" = Some ts).
Proof.
  intros md row'.
  apply (update_from_extracted_metadata iso_to_millis_ref py_repr_ref granule_dated md
           (initialize_row row_abc) "LST" row').
  - apply returned_Ok. vm_compute. reflexivity.
  - apply returned_Ok. vm_compute. reflexivity.
Defined.

Lemma extracted_records_keep_columns_witness :
  let fs' := (enhance_metadata_csv iso_to_millis_ref py_repr_ref fs_one_row no_faults
                table_path [] (Some [record_extracted])).1 in
  exists lines',
    fs' !! table_path = Some (File lines')
    /\ Forall2 (fun line line' : gmap string string =>
                  forall v, line !! "id_no" = Some v -> line' !! "id_no" = Some v)
               [line_abc] lines'.
Proof.
  intros fs'.
  apply (extracted_records_keep_columns iso_to_millis_ref py_repr_ref fs_one_row no_faults
           table_path [] (Some [record_extracted]) [line_abc] fs' "id_no").
  - vm_compute. reflexivity.
  - intros r Hr. apply list_elem_of_singleton in Hr. subst r.
    exists granule_dated. apply returned_Ok. vm_compute. reflexivity.
  - left. reflexivity.
  - apply pair_of_snd. vm_compute. reflexivity.
Defined.

Lemma time_start_field_witness :
  let md := returned (extract_granule_metadata iso_to_millis_ref granule_dated) in
  exists beginning,
    md !! "beginning_date_time" = Some beginning
    /\ md !! "time_start" =
         if py_truthy beginning
         then Some (_convert_to_timestamp iso_to_millis_ref beginning)
         else None.
Proof.
  intros md. apply (time_start_field iso_to_millis_ref granule_dated md).
  apply returned_Ok. vm_compute. reflexivity.
Defined.

Lemma spatial_edge_cases_witness :
  _extract_spatial_metadata (PDict umm_plain)
    = Ok (<["west_lon" := PStr ""]> (<["east_lon" := PStr ""]>
          (<["south_lat" := PStr ""]> (<["north_lat" := PStr ""]> ∅)))).
Proof.
  apply (proj1 (spatial_edge_cases iso_to_millis_ref umm_plain ∅ eq_refl)).
  reflexivity.
Defined.

Lemma parameter_names_joined_witness :
  _extract_parameter_names (PDict umm_plain) = Ok (PStr "").
Proof.
  apply (proj1 (parameter_names_joined umm_plain)). left. vm_compute. reflexivity.
Defined.

Lemma orbit_fields_consistent_witness :
  let md := returned (_extract_orbit_metadata (PDict umm_orbit_48)) in
  exists number begin_orbit end_orbit,
    md !! "orbit_number" = Some number
    /\ md !! "begin_orbit_number" = Some begin_orbit
    /\ md !! "end_orbit_number" = Some end_orbit
    /\ (py_truthy begin_orbit = true -> number = begin_orbit).
Proof.
  intros md. apply (orbit_fields_consistent (PDict umm_orbit_48) md).
  apply returned_Ok. vm_compute. reflexivity.
Defined.

Lemma provider_dates_last_wins_witness :
  exists md,
    _extract_provider_dates (PDict umm_provider_dates) = Ok md
    /\ forall k,
         md !! k =
           (fun pdate : gmap string pyval => default (PStr "") (pdate !! "Date"))
             <$> last (filter (fun pdate => provider_date_key pdate = Some k) [pdate_insert]).
Proof.
  apply (provider_dates_last_wins umm_provider_dates [pdate_insert]).
  - vm_compute. reflexivity.
  - intros pdate Hpdate. apply list_elem_of_singleton in Hpdate. subst pdate.
    left. exists "Insert". vm_compute. reflexivity.
Defined.

Lemma additional_attributes_last_wins_witness :
  exists md,
    _extract_additional_attributes (PDict umm_attributes) = Ok md
    /\ forall k,
         md !! k =
           (fun attr => PStr (str_join ", " (default [] (attribute_values attr))))
             <$> last (filter (fun attr => attribute_key attr = Some k) [attr_doi]).
Proof.
  apply (additional_attributes_last_wins umm_attributes [attr_doi]).
  - vm_compute. reflexivity.
  - intros attr Hattr. apply list_elem_of_singleton in Hattr. subst attr.
    split; eexists; vm_compute; reflexivity.
Defined.

(** ** The file name of the product *)

Lemma filename_field_shapes_witness :
  exists g conv text,
    field_group "processing_level" = Some (g, conv) /\ fits g text /\ PStr "L2T" = conv text.
Proof.
  apply (filename_field_shapes ur_example "processing_level" (PStr "L2T")).
  vm_compute. reflexivity.
Defined.

Lemma filename_scene_range_witness :
  exists n, PInt 3 = PInt n /\ 0 <= n <= 999.
Proof.
  apply (filename_scene_range ur_example (PInt 3)). vm_compute. reflexivity.
Defined.

Lemma filename_tile_has_epsg_witness :
  exists tile,
    PStr "18TUN" = PStr tile /\ tile_shaped tile = true
    /\ get_epsg_from_mgrs py_repr_ref (PStr "18TUN") = Ok (PStr (epsg_contract tile))
    /\ (epsg_contract tile = "EPSG326" +:+ str_take 2 tile
        \/ epsg_contract tile = "EPSG327" +:+ str_take 2 tile).
Proof.
  apply (filename_tile_has_epsg py_repr_ref ur_example (PStr "18TUN")).
  vm_compute. reflexivity.
Defined.

Lemma folder_update_total_witness :
  exists row',
    update_from_folder py_repr_ref "LST" "ECO_ABC_18TUN_LST.tif" row_abc = Ok row'
    /\ if str_in "ABC" "ECO_ABC_18TUN_LST.tif"
       then row' !! "band_type" = Some (PStr (str_replace ".tif" "" "LST"))
            /\ match re_search "_(\d{2}[A-Z]{3})_" "ECO_ABC_18TUN_LST.tif" with
               | Some m =>
                   tile_shaped (group1 m) = true
                   /\ row' !! "mgrs_tile" = Some (PStr (group1 m))
                   /\ row' !! "EPSG" = Some (PStr (epsg_contract (group1 m)))
               | None =>
                   row' !! "mgrs_tile" = row_abc !! "mgrs_tile"
                   /\ row' !! "EPSG" = row_abc !! "EPSG"
               end
       else row' = row_abc.
Proof.
  apply (folder_update_total py_repr_ref "LST" "ECO_ABC_18TUN_LST.tif" "ABC" row_abc).
  vm_compute. reflexivity.
Defined.

(** ** Runs of the reconciliation *)

Lemma written_columns_witness :
  let fs' := (enhance_metadata_csv iso_to_millis_ref py_repr_ref fs_one_row no_faults
                table_path [] (Some [record_lst])).1 in
  exists first lines',
    head [line_abc] = Some first
    /\ fs' !! table_path = Some (File lines')
    /\ Forall (fun line' : gmap string string =>
                 dom line' = dom first ∪ list_to_set field_list) lines'.
Proof.
  intros fs'.
  apply (written_columns iso_to_millis_ref py_repr_ref fs_one_row no_faults
           table_path [] (Some [record_lst]) [line_abc] fs').
  - vm_compute. reflexivity.
  - apply pair_of_snd. vm_compute. reflexivity.
Defined.

Lemma empty_table_fails_witness :
  let run := enhance_metadata_csv iso_to_millis_ref py_repr_ref fs_empty_table no_faults
               table_path [] (Some [record_lst]) in
  run.2 = Ok false /\ run.1 !! table_path = Some (File []).
Proof.
  apply (empty_table_fails iso_to_millis_ref py_repr_ref fs_empty_table no_faults
           table_path [] (Some [record_lst])).
  vm_compute. reflexivity.
Defined.

Lemma missing_id_no_fails_witness :
  enhance_metadata_csv iso_to_millis_ref py_repr_ref fs_without_id no_faults
    table_path [] (Some [record_lst]) = (fs_without_id, Ok false).
Proof.
  apply (missing_id_no_fails iso_to_millis_ref py_repr_ref fs_without_id no_faults
           table_path [] record_lst [] [line_without_id] line_without_id).
  - vm_compute. reflexivity.
  - apply list_elem_of_singleton. reflexivity.
  - vm_compute. reflexivity.
Defined.

Lemma folder_run_columns_witness :
  let fs' := (enhance_metadata_csv iso_to_millis_ref py_repr_ref fs_with_folder no_faults
                table_path [("LST", "/data/LST")] None).1 in
  exists lines',
    fs' !! table_path = Some (File lines')
    /\ Forall2 (fun line line' : gmap string string =>
                  (forall id_no, line !! "id_no" = Some id_no ->
                     line' !! "band_type" =
                       Some match last (filter (fun p : string * string =>
                                                  str_in id_no p.2 = true)
                                          (scanned_names fs_with_folder
                                             [("LST", "/data/LST")])) with
                            | Some p => str_replace ".tif" "" p.1
                            | None => ""
                            end)
                  /\ forall k, k ∉ ["band_type"; "mgrs_tile"; "EPSG"] ->
                       (k ∈ field_list -> line' !! k = Some "")
                       /\ (k ∉ field_list ->
                           forall v, line !! k = Some v -> line' !! k = Some v))
               [line_abc] lines'.
Proof.
  intros fs'.
  apply (folder_run_columns iso_to_millis_ref py_repr_ref fs_with_folder no_faults
           table_path [("LST", "/data/LST")] None [line_abc] fs').
  - vm_compute. reflexivity.
  - left. reflexivity.
  - apply pair_of_snd. vm_compute. reflexivity.
Defined.

Lemma system_time_from_date_strings_witness :
  let row' := returned (_update_row_with_metadata iso_to_millis_ref py_repr_ref
                          (initialize_row row_abc) metadata_dated_with_system_time "LST") in
  row' !! "system:time_start" = Some (PInt 7)
  /\ row' !! "system:time_end" = Some (PInt 1735732800000).
Proof.
  intros row'.
  destruct (system_time_from_date_strings iso_to_millis_ref py_repr_ref
              (initialize_row row_abc) metadata_dated_with_system_time "LST"
              (PStr "2025-01-01T12:00:00+00:00") 1735732800000 row')
    as (Hstart & _ & _ & Hend).
  - vm_compute. reflexivity.
  - vm_compute. reflexivity.
  - reflexivity.
  - vm_compute. reflexivity.
  - apply returned_Ok. vm_compute. reflexivity.
  - split.
    + rewrite Hstart. vm_compute. reflexivity.
    + rewrite Hend; [vm_compute; reflexivity|]. left. vm_compute. reflexivity.
Defined.

Lemma reconciliation_idempotent_witness :
  let fs' := (enhance_metadata_csv iso_to_millis_ref py_repr_ref fs_one_row no_faults
                table_path [] (Some [record_lst])).1 in
  enhance_metadata_csv iso_to_millis_ref py_repr_ref fs' no_faults
    table_path [] (Some [record_lst]) = (fs', Ok true).
Proof.
  intros fs'.
  apply (reconciliation_idempotent iso_to_millis_ref py_repr_ref fs_one_row no_faults
           table_path [] (Some [record_lst]) [line_abc] line_abc fs').
  - vm_compute. reflexivity.
  - reflexivity.
  - intros line Hline. apply list_elem_of_singleton in Hline. subst line. reflexivity.
  - intros r k Hr _ Hk. apply list_elem_of_singleton in Hr. subst r.
    left. apply lookup_singleton_ne. intros <-. apply Hk.
    apply (bool_decide_unpack _). vm_compute. exact I.
  - apply pair_of_snd. vm_compute. reflexivity.
Defined.

(** ** Paths and services *)

Lemma paths_cover_file_types_witness :
  create_download_paths DOWNLOAD_BASE FILE_TYPES !! "LST_err.tif"
    = Some (os_path_join DOWNLOAD_BASE (split_dot0 "LST_err.tif"))
  /\ create_upload_paths GEE_UPLOAD_BASE FILE_TYPES !! split_dot0 "LST_err.tif"
    = Some (GEE_UPLOAD_BASE +:+ "/ecostress_" +:+ py_lower (split_dot0 "LST_err.tif")).
Proof.
  apply (proj2 (paths_cover_file_types DOWNLOAD_BASE GEE_UPLOAD_BASE FILE_TYPES
                  "LST_err.tif")).
  apply (bool_decide_unpack _). vm_compute. exact I.
Defined.

Lemma authenticate_services_result_witness :
  action_in "both" ["upload"; "both"] = true /\ true = true.
Proof.
  apply (proj2 (proj2 (authenticate_services_result "both" true false true "" ""))).
  vm_compute. reflexivity.
Defined.

Lemma destination_of_configured_witness :
  exists before suffix after,
    ["tif"; "LST.tif"] = (before ++ suffix :: after)%list
    /\ Forall (fun earlier => str_endswith earlier "x_LST.tif" = false) before
    /\ str_endswith suffix "x_LST.tif" = true
    /\ Ok ("/data/tif", "tif") = Ok (os_path_join "/data" (split_dot0 suffix), split_dot0 suffix).
Proof.
  apply (proj1 (destination_of_configured "/data" ["tif"; "LST.tif"] "x_LST.tif")).
  vm_compute. reflexivity.
Defined.
